(** * Ads extraction engine: Amazon Ads fetcher and Bing Ads extractor

    A shallow embedding of [amazon_ads_fetcher.py] and
    [repl/integration-files/bing/bing_extractor.py].

    - Decoded JSON documents are the Python values the code handles; the
      handful of Python operations used on them ([.get], [[...]], [in],
      [len], iteration, truthiness, [int]) are written out with the
      exceptions they raise.
    - The network is a script: the list of outcomes the successive
      [requests.get] / [requests.post] calls will have.  A call made once the
      script is used up fails like an unreachable host ([ConnectionError]).
    - Methods are computations in a state-and-exception monad over the mutable
      [access_token] attribute, the script, the trace of requests issued, the
      clock and the diagnostics written to [sys.stderr]. *)

From Stdlib Require Import Floats ZArith List String Ascii Bool Lia DecimalString.
From Stdlib.Strings Require Import Byte.
Import ListNotations.
Open Scope string_scope.
Open Scope Z_scope.

(** ** Decoded JSON documents

    What [response.json()] returns: None, booleans, numbers, strings, lists
    and dicts with string keys.  Numbers are the integers: the code never
    computes with a number it receives, it only tests it for truth, prints it
    or converts it with [int] and [str].  A string is its sequence of
    characters. *)

#[warnings="-register-all"]
Inductive json : Type :=
| JNull
| JBool (b : bool)
| JNum (n : Z)
| JStr (s : string)
| JArr (xs : list json)
| JObj (kvs : list (string * json)).

(** A Python [dict] with string keys, in insertion order. *)
Definition dict := list (string * json).

Fixpoint lookup (k : string) (d : dict) : option json :=
  match d with
  | [] => None
  | (k', v) :: d' => if String.eqb k k' then Some v else lookup k d'
  end.

(** [d[k] = v]: an existing key keeps its position, a new key goes last. *)
Fixpoint dict_set (k : string) (v : json) (d : dict) : dict :=
  match d with
  | [] => [(k, v)]
  | (k', v') :: d' =>
      if String.eqb k k' then (k', v) :: d' else (k', v') :: dict_set k v d'
  end.

Definition has_key (k : string) (d : dict) : bool :=
  match lookup k d with Some _ => true | None => false end.

(** ** Exceptions and results *)

Inductive exn : Type :=
| ConnectionError                       (* requests.* got no response *)
| MissingSchema                         (* requests.*: the URL has no scheme *)
| InvalidSchema                         (* requests.*: no adapter for the scheme *)
| InvalidURL                            (* requests.*: the URL cannot be parsed *)
| HTTPError (status : Z)                (* response.raise_for_status() *)
| JSONDecodeError                       (* response.json() *)
| KeyError (key : string)
| TypeError
| AttributeError
| ValueError
| BadGzipFile
| OSError
| EOFError
| ZlibError
| UnicodeDecodeError
| CsvError
| ReportGenerationFailed (status_response : json)
                                        (* Exception("Report generation failed: ...") *)
| TimeoutError (max_wait_seconds : Z).

(** [isinstance(e, OSError)]: [BadGzipFile], the built-in [TimeoutError] and
    every [requests] exception derive from [OSError]. *)
Definition is_OSError (e : exn) : bool :=
  match e with
  | ConnectionError | MissingSchema | InvalidSchema | InvalidURL | HTTPError _
  | JSONDecodeError
  | BadGzipFile | OSError | TimeoutError _ => true
  | _ => false
  end.

(** The outcome of running a piece of code: a value, a raised exception, or
    [Diverge] when a [while] loop was cut off by its iteration bound (shown
    below never to happen for the bounds the methods use). *)
Inductive Res (A : Type) : Type :=
| Ok (a : A)
| Raise (e : exn)
| Diverge.

Arguments Ok {A} a.
Arguments Raise {A} e.
Arguments Diverge {A}.

(** The outcome of a library call. *)
Definition of_sum {A} (r : exn + A) : Res A :=
  match r with
  | inl e => Raise e
  | inr a => Ok a
  end.

Definition res_bind {A B} (r : Res A) (f : A -> Res B) : Res B :=
  match r with
  | Ok a => f a
  | Raise e => Raise e
  | Diverge => Diverge
  end.

(** ** Python operations on decoded values *)

(** [bool(v)] *)
Definition truthy (v : json) : bool :=
  match v with
  | JNull => false
  | JBool b => b
  | JNum n => negb (n =? 0)
  | JStr s => negb (String.eqb s EmptyString)
  | JArr xs => match xs with [] => false | _ => true end
  | JObj kvs => match kvs with [] => false | _ => true end
  end.

(** [v.get(k, default)]: only a [dict] has [.get]. *)
Definition py_get (v : json) (k : string) (default : json) : Res json :=
  match v with
  | JObj kvs => Ok (match lookup k kvs with Some x => x | None => default end)
  | _ => Raise AttributeError
  end.

(** [v[k]] with a string [k]. *)
Definition py_getitem (v : json) (k : string) : Res json :=
  match v with
  | JObj kvs => match lookup k kvs with Some x => Ok x | None => Raise (KeyError k) end
  | _ => Raise TypeError
  end.

(** [v[k] = x] with a string [k]. *)
Definition py_setitem (v : json) (k : string) (x : json) : Res json :=
  match v with
  | JObj kvs => Ok (JObj (dict_set k x kvs))
  | _ => Raise TypeError
  end.

Definition is_str (k : string) (v : json) : bool :=
  match v with JStr s => String.eqb s k | _ => false end.

(** [k in v] with a string [k]: key of a dict, element of a list, substring of
    a string. *)
Definition py_contains (k : string) (v : json) : Res bool :=
  match v with
  | JObj kvs => Ok (has_key k kvs)
  | JArr xs => Ok (existsb (is_str k) xs)
  | JStr s => Ok (match String.index 0 k s with Some _ => true | None => false end)
  | _ => Raise TypeError
  end.

Fixpoint chars (s : string) : list json :=
  match s with
  | EmptyString => []
  | String c s' => JStr (String c EmptyString) :: chars s'
  end.

(** The elements [for x in v] and [list.extend(v)] go through: the items of a
    list, the keys of a dict, the characters of a string. *)
Definition py_iter (v : json) : Res (list json) :=
  match v with
  | JArr xs => Ok xs
  | JObj kvs => Ok (map (fun kv => JStr (fst kv)) kvs)
  | JStr s => Ok (chars s)
  | _ => Raise TypeError
  end.

(** [len(v)] *)
Definition py_len (v : json) : Res Z :=
  match v with
  | JArr xs => Ok (Z.of_nat (List.length xs))
  | JObj kvs => Ok (Z.of_nat (List.length kvs))
  | JStr s => Ok (Z.of_nat (String.length s))
  | _ => Raise TypeError
  end.

(** [isinstance(v, list)] *)
Definition is_list (v : json) : bool :=
  match v with JArr _ => true | _ => false end.

(** [str(n)] for an [int]. *)
Definition str_of_Z (n : Z) : string := NilZero.string_of_int (Z.to_int n).

(** Calendar date, the part of [datetime] the code reads. *)
Record Date : Type := mkDate { Year : Z; Month : Z; Day : Z }.

(** ** The Python library surface the code relies on

    Functions of the standard library and of [requests] that are used, but not
    defined, by the repository. *)
Class PyLib : Type := {
  (** [repr] of a decoded list or dict, as [str()] and f-strings render it *)
  repr_container : json -> string;
  (** [int(s)] for a [str]; [None] when it raises [ValueError] *)
  int_of_str : string -> option Z;
  (** [datetime.strptime(s, "%Y-%m-%d")]; [None] when it raises [ValueError] *)
  strptime_ymd : string -> option Date;
  (** [d.strftime("%Y-%m-%d")] *)
  strftime_ymd : Date -> string;
  (** [d.strftime("%Y%m%d")] *)
  strftime_compact : Date -> string;
  (** [d - timedelta(days=n)] *)
  days_before : Date -> Z -> Date;
  (** [gzip.decompress]: the data, or the exception raised *)
  gzip_decompress : list byte -> exn + list byte;
  (** [list(csv.DictReader(StringIO(text)))], on the decoded code points: the
      records, or the exception raised *)
  csv_DictReader : list N -> exn + list json;
  (** the exception [requests.get(v)] raises for a decoded value [v] that is
      no string: [requests] takes the text [str(v)] for the URL and refuses
      it before anything is sent *)
  invalid_url : json -> exn
}.

Section PythonValues.
Context {lib : PyLib}.

(** [str(v)], also what an f-string interpolates. *)
Definition py_str (v : json) : string :=
  match v with
  | JNull => "None"
  | JBool true => "True"
  | JBool false => "False"
  | JNum n => str_of_Z n
  | JStr s => s
  | JArr _ | JObj _ => repr_container v
  end.

(** [int(v)] *)
Definition py_int (v : json) : Res Z :=
  match v with
  | JNum n => Ok n
  | JBool b => Ok (Z.b2z b)
  | JStr s => match int_of_str s with Some n => Ok n | None => Raise ValueError end
  | _ => Raise TypeError
  end.
End PythonValues.

(** ** The world: network script, request trace, clock, diagnostics *)

Record Response : Type := mkResponse {
  status_code : Z;
  json_body : option json;      (* what [response.json()] decodes; [None]: not JSON *)
  content : list byte           (* [response.content] *)
}.

(** Outcome of one [requests.get] / [requests.post] call. *)
Inductive Reply : Type :=
| Refused                       (* the call raises: no response was received *)
| Answer (r : Response).

Inductive Method : Type := GET | POST.

Inductive Body : Type :=
| NoBody
| Query (params : json)         (* params=... *)
| Form (data : json)            (* data=... *)
| Json (payload : json).        (* json=... *)

Record Request : Type := mkRequest {
  method : Method;
  url : string;
  headers : list (string * string);
  body : Body
}.

Inductive Event : Type :=
| Sent (r : Request)
| Slept (seconds : Z).

(** The newline of the f-strings that start with "\n". *)
Definition nl : string := String (ascii_of_nat 10) EmptyString.

(** A line printed to [sys.stderr]. *)
Inductive LogEntry : Type :=
| LogInfo (msg : string)
| LogError (context : string) (e : exn).     (* print(f"<context>: {e}") *)

Record State : Type := mkState {
  access_token : json;          (* self.access_token; [JNull] is Python's None *)
  net : list Reply;             (* outcomes of the calls still to come *)
  trace : list Event;           (* requests issued and sleeps taken, oldest first *)
  clock : nat -> float;         (* the n-th reading of [time.time()]: seconds, as
                                   the IEEE 754 double Python's float is *)
  ticks : nat;                  (* readings taken so far *)
  today : Date;                 (* the date [datetime.now()] falls on *)
  now_iso : string;             (* [datetime.now().isoformat()] *)
  stderr : list LogEntry
}.

(** ** The monad of methods *)

Definition M (A : Type) : Type := State -> Res A * State.

Definition ret {A} (a : A) : M A := fun s => (Ok a, s).

Definition bind {A B} (m : M A) (f : A -> M B) : M B :=
  fun s =>
    match m s with
    | (Ok a, s') => f a s'
    | (Raise e, s') => (Raise e, s')
    | (Diverge, s') => (Diverge, s')
    end.

Definition raise {A} (e : exn) : M A := fun s => (Raise e, s).

Definition diverge {A} : M A := fun s => (Diverge, s).

(** A pure operation that may raise. *)
Definition lift {A} (r : Res A) : M A := fun s => (r, s).

(** [try: m  except Exception as e: h e].  What [m] did before raising stays
    done. *)
Definition try_except {A} (m : M A) (h : exn -> M A) : M A :=
  fun s =>
    match m s with
    | (Raise e, s') => h e s'
    | r => r
    end.

Declare Scope monad_scope.
Delimit Scope monad_scope with monad.
Notation "x <- m ;; k" := (bind m (fun x => k))
  (at level 61, m at next level, right associativity) : monad_scope.
Notation "m ;; k" := (bind m (fun _ => k))
  (at level 61, right associativity) : monad_scope.
Open Scope monad_scope.

Definition get_state : M State := fun s => (Ok s, s).

Definition set_access_token (v : json) : M unit :=
  fun s => (Ok tt, mkState v (net s) (trace s) (clock s) (ticks s)
                           (today s) (now_iso s) (stderr s)).

Definition emit (e : Event) (s : State) : State :=
  mkState (access_token s) (net s) (trace s ++ [e]) (clock s) (ticks s)
          (today s) (now_iso s) (stderr s).

Definition set_net (n : list Reply) (s : State) : State :=
  mkState (access_token s) n (trace s) (clock s) (ticks s)
          (today s) (now_iso s) (stderr s).

Definition print (l : LogEntry) : M unit :=
  fun s => (Ok tt, mkState (access_token s) (net s) (trace s) (clock s) (ticks s)
                           (today s) (now_iso s) (stderr s ++ [l])).

(** [requests.request]: the call is recorded, then the script decides. *)
Definition request (r : Request) : M Response :=
  fun s =>
    let s := emit (Sent r) s in
    match net s with
    | [] => (Raise ConnectionError, s)
    | Refused :: rest => (Raise ConnectionError, set_net rest s)
    | Answer resp :: rest => (Ok resp, set_net rest s)
    end.

Definition requests_get (u : string) (h : list (string * string)) (b : Body) : M Response :=
  request (mkRequest GET u h b).

Definition requests_post (u : string) (h : list (string * string)) (b : Body) : M Response :=
  request (mkRequest POST u h b).

(** [response.raise_for_status()] raises on 4xx and 5xx. *)
Definition http_error (status : Z) : bool := (400 <=? status) && (status <? 600).

Definition raise_for_status (r : Response) : M unit :=
  if http_error (status_code r) then raise (HTTPError (status_code r)) else ret tt.

(** [response.json()] *)
Definition response_json (r : Response) : M json :=
  match json_body r with
  | Some d => ret d
  | None => raise JSONDecodeError
  end.

(** [time.time()] *)
Definition time_time : M float :=
  fun s => (Ok (clock s (ticks s)),
            mkState (access_token s) (net s) (trace s) (clock s) (S (ticks s))
                    (today s) (now_iso s) (stderr s)).

(** [time.sleep(n)] *)
Definition time_sleep (n : Z) : M unit := fun s => (Ok tt, emit (Slept n) s).

(** [datetime.now()], its date *)
Definition datetime_now : M Date := fun s => (Ok (today s), s).

(** The bound given to a [while] loop: every iteration that goes on to the
    next one has consumed an entry of the script, and a call on the empty
    script raises. *)
Definition loop_bound (s : State) : nat := S (List.length (net s)).

(** [x < n] for a float [x] and an int [n].  Python compares the two numbers
    exactly, whatever the size of [n]: NaN is less than nothing, the
    infinities compare by their sign, and a finite [x] is [m * 2 ** e] for
    the integers [m] and [e] of its representation. *)
Definition float_lt_int (x : float) (n : Z) : bool :=
  match Prim2SF x with
  | S754_nan => false
  | S754_infinity negative => negative
  | S754_zero _ => 0 <? n
  | S754_finite negative m e =>
      let v := if negative then Z.neg m else Z.pos m in
      if 0 <=? e then v * 2 ^ e <? n else v <? n * 2 ^ (- e)
  end.

(** ** The process environment and the ways [main] ends *)

(** [os.environ]: the variables that are set, with their values. *)
Definition Env : Type := list (string * string).

(** [os.getenv(name)] and [os.environ.get(name)]; [None] when unset. *)
Fixpoint getenv (name : string) (env : Env) : option string :=
  match env with
  | [] => None
  | (k, v) :: rest => if String.eqb name k then Some v else getenv name rest
  end.

(** Truth of an optional string, as [all([...])] tests it: set and not empty. *)
Definition is_set (v : option string) : bool :=
  match v with
  | Some x => negb (String.eqb x EmptyString)
  | None => false
  end.

(** [v or ''], with the empty string as the default *)
Definition or_empty (v : option string) : string :=
  match v with Some x => x | None => EmptyString end.

(** [str(v)] *)
Definition str_of_option (v : option string) : string :=
  match v with Some x => x | None => "None" end.

(** [c.lower()] for the characters of the ASCII range.  The other characters
    are left as they are: [str.lower] maps none of them to a letter of "true",
    the only text a lower-cased value is compared with. *)
Definition lower_ascii (c : ascii) : ascii :=
  let n := nat_of_ascii c in
  if ((65 <=? n) && (n <=? 90))%nat then ascii_of_nat (n + 32) else c.

Fixpoint lower (s : string) : string :=
  match s with
  | EmptyString => EmptyString
  | String c s' => String (lower_ascii c) (lower s')
  end.

(** How [main] ends when no exception escapes it: by [sys.exit(code)], or by
    returning after [print(json.dumps(doc, indent=2))]. *)
Inductive Exit : Type :=
| Exited (code : Z)
| Printed (doc : json).

(** * The Amazon Ads fetcher ([amazon_ads_fetcher.py]) *)

Module Amazon.
Section Fetcher.
Context {lib : PyLib}.

Record AmazonAdsFetcher : Type := mkFetcher {
  client_id : string;
  client_secret : string;
  refresh_token : string;
  region : string;
  base_url : string
}.

Definition REGION_URLS : list (string * string) :=
  [ ("NA", "https://advertising-api.amazon.com");
    ("EU", "https://advertising-api-eu.amazon.com");
    ("FE", "https://advertising-api-fe.amazon.com") ].

Fixpoint region_get (k : string) (d : list (string * string)) (default : string) : string :=
  match d with
  | [] => default
  | (k', v) :: d' => if String.eqb k k' then v else region_get k d' default
  end.

(** [AmazonAdsFetcher.__init__]; [self.access_token = None] is the [JNull] a
    fresh [State] starts with. *)
Definition __init__ (client_id client_secret refresh_token region : string)
  : AmazonAdsFetcher :=
  mkFetcher client_id client_secret refresh_token region
    (region_get region REGION_URLS (region_get "NA" REGION_URLS EmptyString)).

Definition refresh_access_token (self : AmazonAdsFetcher) : M json :=
  let url := "https://api.amazon.com/auth/o2/token" in
  let payload := JObj [ ("grant_type", JStr "refresh_token");
                        ("refresh_token", JStr (refresh_token self));
                        ("client_id", JStr (client_id self));
                        ("client_secret", JStr (client_secret self)) ] in
  try_except
    (response <- requests_post url [] (Form payload) ;;
     raise_for_status response ;;
     data <- response_json response ;;
     tok <- lift (py_get data "access_token" JNull) ;;
     set_access_token tok ;;
     ret tok)
    (fun e => print (LogError "Error refreshing token" e) ;; raise e).

Definition _get_headers (self : AmazonAdsFetcher) (profile_id : option string)
  : M (list (string * string)) :=
  s <- get_state ;;
  let headers := [ ("Authorization", "Bearer " ++ py_str (access_token s));
                   ("Amazon-Advertising-API-ClientId", client_id self);
                   ("Content-Type", "application/json") ] in
  match profile_id with
  | Some p => if String.eqb p EmptyString then ret headers
              else ret (headers ++ [("Amazon-Advertising-API-Scope", p)])%list
  | None => ret headers
  end.

Definition get_profiles (self : AmazonAdsFetcher) : M json :=
  let url := base_url self ++ "/v2/profiles" in
  let params := JObj [("profileTypeFilter", JStr "seller,vendor")] in
  try_except
    (headers <- _get_headers self None ;;
     response <- requests_get url headers (Query params) ;;
     raise_for_status response ;;
     response_json response)
    (fun e => print (LogError "Error fetching profiles" e) ;; ret (JArr [])).

(** The [while True] loop of [get_sponsored_display_campaigns]; [startIndex]
    is [params["startIndex"]]. *)
Fixpoint sd_loop (fuel : nat) (self : AmazonAdsFetcher) (profile_id : string)
    (state_filter : string) (startIndex : Z) (campaigns : list json)
  : M (list json) :=
  match fuel with
  | O => diverge
  | S fuel' =>
      let params := JObj [ ("stateFilter", JStr state_filter);
                           ("count", JNum 100);
                           ("startIndex", JNum startIndex) ] in
      headers <- _get_headers self (Some profile_id) ;;
      response <- requests_get (base_url self ++ "/sd/campaigns") headers (Query params) ;;
      raise_for_status response ;;
      data <- response_json response ;;
      if negb (truthy data) then ret campaigns
      else
        items <- lift (py_iter data) ;;
        let campaigns := (campaigns ++ items)%list in
        n <- lift (py_len data) ;;
        if n <? 100 then ret campaigns
        else sd_loop fuel' self profile_id state_filter (startIndex + 100) campaigns
  end.

Definition get_sponsored_display_campaigns (self : AmazonAdsFetcher)
    (profile_id : string) (state_filter : string) : M (list json) :=
  try_except
    (s <- get_state ;;
     sd_loop (loop_bound s) self profile_id state_filter 0 [])
    (fun e => print (LogError "Error fetching Sponsored Display campaigns" e) ;; ret []).

(** The loop shared, word for word, by [get_sponsored_brands_campaigns],
    [get_sponsored_products_campaigns] and
    [get_attribution_performance_campaign], up to: the key of the item list,
    the key of the continuation value, the headers (computed once before the
    loop, or on every call), and the [status_code == 400] exit that only the
    attribution report has. *)
Fixpoint keyed_loop (fuel : nat) (stop_on_400 : bool) (items_key next_key : string)
    (u : string) (get_headers : M (list (string * string)))
    (payload : dict) (acc : list json) : M (list json) :=
  match fuel with
  | O => diverge
  | S fuel' =>
      headers <- get_headers ;;
      response <- requests_post u headers (Json (JObj payload)) ;;
      if stop_on_400 && (status_code response =? 400) then ret acc
      else
        raise_for_status response ;;
        data <- response_json response ;;
        has_items <- lift (py_contains items_key data) ;;
        acc <- (if has_items
                then items <- lift (res_bind (py_getitem data items_key) py_iter) ;;
                     ret (acc ++ items)%list
                else ret acc) ;;
        has_next <- lift (py_contains next_key data) ;;
        more <- (if has_next
                 then next <- lift (py_getitem data next_key) ;; ret (truthy next)
                 else ret false) ;;
        if negb more then ret acc
        else
          next <- lift (py_getitem data next_key) ;;
          keyed_loop fuel' stop_on_400 items_key next_key u get_headers
                     (dict_set next_key next payload) acc
  end.

Definition default_state_filter : list string := ["enabled"; "paused"; "archived"].

Definition list_payload (state_filter : option (list string)) : dict :=
  let state_filter := match state_filter with
                      | Some f => f
                      | None => default_state_filter
                      end in
  [ ("stateFilter", JObj [("include", JStr (String.concat "," state_filter))]);
    ("maxResults", JNum 100) ].

(** [headers = self._get_headers(profile_id)] with [Accept] and
    [Content-Type] set to the media type [mt]. *)
Definition media_headers (self : AmazonAdsFetcher) (profile_id : string) (mt : string)
  : M (list (string * string)) :=
  h <- _get_headers self (Some profile_id) ;;
  ret (map (fun kv => if String.eqb (fst kv) "Content-Type" then (fst kv, mt) else kv) h
       ++ [("Accept", mt)])%list.

Definition get_sponsored_brands_campaigns (self : AmazonAdsFetcher)
    (profile_id : string) (state_filter : option (list string)) : M (list json) :=
  headers <- media_headers self profile_id "application/vnd.sbcampaignresource.v4+json" ;;
  try_except
    (s <- get_state ;;
     keyed_loop (loop_bound s) false "campaigns" "nextToken"
       (base_url self ++ "/sb/v4/campaigns/list") (ret headers)
       (list_payload state_filter) [])
    (fun e => print (LogError "Error fetching Sponsored Brands campaigns" e) ;; ret []).

Definition get_sponsored_products_campaigns (self : AmazonAdsFetcher)
    (profile_id : string) (state_filter : option (list string)) : M (list json) :=
  headers <- media_headers self profile_id "application/vnd.spCampaign.v3+json" ;;
  try_except
    (s <- get_state ;;
     keyed_loop (loop_bound s) false "campaigns" "nextToken"
       (base_url self ++ "/sp/campaigns/list") (ret headers)
       (list_payload state_filter) [])
    (fun e => print (LogError "Error fetching Sponsored Products campaigns" e) ;; ret []).

Definition attribution_metrics : string :=
  "Click-throughs,attributedDetailPageViewsClicks14d,attributedAddToCartClicks14d,attributedPurchases14d,unitsSold14d,attributedSales14d".

Definition get_attribution_performance_campaign (self : AmazonAdsFetcher)
    (profile_id : string) (timezone : json) : M (list json) :=
  end_date <- datetime_now ;;
  let start_date := days_before end_date 90 in
  let payload := [ ("reportType", JStr "PERFORMANCE");
                   ("groupBy", JStr "CAMPAIGN");
                   ("metrics", JStr attribution_metrics);
                   ("startDate", JStr (strftime_compact start_date));
                   ("endDate", JStr (strftime_compact end_date));
                   ("count", JNum 300) ] in
  try_except
    (s <- get_state ;;
     keyed_loop (loop_bound s) true "reports" "cursorId"
       (base_url self ++ "/attribution/report") (_get_headers self (Some profile_id))
       payload [])
    (fun e => print (LogError "Error fetching attribution report" e) ;; ret []).

(** The dictionary [fetch_all_data] returns. *)
Record AllData : Type := mkAllData {
  profiles : json;
  campaigns : dict;             (* profile id -> the three campaign lists *)
  performance : dict            (* profile id -> the attribution report *)
}.

(** Body of [for profile in profiles]. *)
Definition fetch_profile (self : AmazonAdsFetcher) (profile : json) (all_data : AllData)
  : M AllData :=
  pid <- lift (py_getitem profile "profileId") ;;
  let profile_id := py_str pid in
  info <- lift (py_get profile "accountInfo" (JObj [])) ;;
  profile_name <- lift (py_get info "name" (JStr profile_id)) ;;
  print (LogInfo ("Fetching data for profile: " ++ py_str profile_name
                  ++ " (" ++ profile_id ++ ")")) ;;
  sd <- get_sponsored_display_campaigns self profile_id "enabled,paused,archived" ;;
  sb <- get_sponsored_brands_campaigns self profile_id None ;;
  sp <- get_sponsored_products_campaigns self profile_id None ;;
  let all_data :=
    mkAllData (profiles all_data)
      (dict_set profile_id
         (JObj [ ("sponsored_display", JArr sd);
                 ("sponsored_brands", JArr sb);
                 ("sponsored_products", JArr sp) ])
         (campaigns all_data))
      (performance all_data) in
  timezone <- lift (py_get profile "timezone" (JStr "America/Los_Angeles")) ;;
  rep <- get_attribution_performance_campaign self profile_id timezone ;;
  ret (mkAllData (profiles all_data) (campaigns all_data)
         (dict_set profile_id (JObj [("attribution_campaign", JArr rep)])
            (performance all_data))).

Fixpoint for_profiles (self : AmazonAdsFetcher) (ps : list json) (all_data : AllData)
  : M AllData :=
  match ps with
  | [] => ret all_data
  | profile :: rest =>
      all_data <- fetch_profile self profile all_data ;;
      for_profiles self rest all_data
  end.

Definition fetch_all_data (self : AmazonAdsFetcher) : M AllData :=
  refresh_access_token self ;;
  profiles <- get_profiles self ;;
  let all_data := mkAllData profiles [] [] in
  ps <- lift (py_iter profiles) ;;
  for_profiles self ps all_data.

(** [all_data], the dictionary handed to [json.dumps]. *)
Definition all_data_json (all_data : AllData) : json :=
  JObj [ ("profiles", profiles all_data);
         ("campaigns", JObj (campaigns all_data));
         ("performance", JObj (performance all_data)) ].

Definition main (env : Env) : M Exit :=
  let client_id := getenv "AMAZON_ADS_CLIENT_ID" env in
  let client_secret := getenv "AMAZON_ADS_CLIENT_SECRET" env in
  let refresh_token := getenv "AMAZON_ADS_REFRESH_TOKEN" env in
  let region := match getenv "AMAZON_ADS_REGION" env with
                | Some r => r
                | None => "NA"
                end in
  if negb (is_set client_id && is_set client_secret && is_set refresh_token) then
    print (LogInfo "Error: Missing required environment variables:") ;;
    print (LogInfo "  AMAZON_ADS_CLIENT_ID") ;;
    print (LogInfo "  AMAZON_ADS_CLIENT_SECRET") ;;
    print (LogInfo "  AMAZON_ADS_REFRESH_TOKEN") ;;
    print (LogInfo "  AMAZON_ADS_REGION (optional, defaults to 'NA')") ;;
    ret (Exited 1)
  else
    let fetcher := __init__ (or_empty client_id) (or_empty client_secret)
                     (or_empty refresh_token) region in
    print (LogInfo "Fetching Amazon Ads data...") ;;
    data <- fetch_all_data fetcher ;;
    ret (Printed (all_data_json data)).

End Fetcher.
End Amazon.

(** * Decoding a downloaded report: [bytes.decode("utf-8-sig")] *)

(** A continuation byte, 0x80..0xBF. *)
Definition is_cont (b : N) : bool := ((128 <=? b) && (b <=? 191))%N.

Definition cons_opt (c : N) (r : option (list N)) : option (list N) :=
  match r with Some cs => Some (c :: cs) | None => None end.

(** Strict UTF-8: shortest encodings only, no surrogates, at most U+10FFFF.
    [None] stands for [UnicodeDecodeError]. *)
Fixpoint utf8_decode (bs : list N) : option (list N) :=
  match bs with
  | [] => Some []
  | b0 :: r0 =>
      if (b0 <? 128)%N then cons_opt b0 (utf8_decode r0)
      else if ((194 <=? b0) && (b0 <=? 223))%N then
        match r0 with
        | b1 :: r1 =>
            if is_cont b1
            then cons_opt ((b0 - 192) * 64 + (b1 - 128))%N (utf8_decode r1)
            else None
        | _ => None
        end
      else if ((224 <=? b0) && (b0 <=? 239))%N then
        match r0 with
        | b1 :: b2 :: r2 =>
            if (is_cont b1 && is_cont b2
                && (negb (b0 =? 224) || (160 <=? b1))
                && (negb (b0 =? 237) || (b1 <=? 159)))%N
            then cons_opt ((b0 - 224) * 4096 + (b1 - 128) * 64 + (b2 - 128))%N
                          (utf8_decode r2)
            else None
        | _ => None
        end
      else if ((240 <=? b0) && (b0 <=? 244))%N then
        match r0 with
        | b1 :: b2 :: b3 :: r3 =>
            if (is_cont b1 && is_cont b2 && is_cont b3
                && (negb (b0 =? 240) || (144 <=? b1))
                && (negb (b0 =? 244) || (b1 <=? 143)))%N
            then cons_opt ((b0 - 240) * 262144 + (b1 - 128) * 4096
                           + (b2 - 128) * 64 + (b3 - 128))%N
                          (utf8_decode r3)
            else None
        | _ => None
        end
      else None
  end.

(** The [utf-8-sig] codec drops one leading byte-order mark EF BB BF. *)
Definition strip_bom (bs : list N) : list N :=
  match bs with
  | 239%N :: 187%N :: 191%N :: rest => rest
  | _ => bs
  end.

Definition decode_utf8_sig (data : list byte) : Res (list N) :=
  match utf8_decode (strip_bom (map Byte.to_N data)) with
  | Some text => Ok text
  | None => Raise UnicodeDecodeError
  end.

(** * The Bing Ads extractor ([bing_extractor.py]) *)

Module Bing.
Section Extractor.
Context {lib : PyLib}.

Record BingAdsExtractor : Type := mkExtractor {
  tenant_id : string;
  client_id : string;
  client_secret : string;
  refresh_token : string;
  developer_token : string;
  customer_management_base : string;
  campaign_management_base : string;
  reporting_base : string
}.

(** [BingAdsExtractor.__init__]; [self.access_token = None] is the [JNull] a
    fresh [State] starts with. *)
Definition __init__ (tenant_id client_id client_secret refresh_token developer_token : string)
  : BingAdsExtractor :=
  mkExtractor tenant_id client_id client_secret refresh_token developer_token
    "https://clientcenter.api.bingads.microsoft.com/CustomerManagement/v13"
    "https://campaign.api.bingads.microsoft.com/CampaignManagement/v13"
    "https://reporting.api.bingads.microsoft.com/Api/Advertiser/Reporting/v13".

Definition token_url (self : BingAdsExtractor) : string :=
  "https://login.microsoftonline.com/" ++ tenant_id self ++ "/oauth2/v2.0/token".

Definition get_access_token (self : BingAdsExtractor) : M json :=
  s <- get_state ;;
  if truthy (access_token s) then ret (access_token s)
  else
    let data := JObj [ ("grant_type", JStr "refresh_token");
                       ("client_id", JStr (client_id self));
                       ("client_secret", JStr (client_secret self));
                       ("refresh_token", JStr (refresh_token self));
                       ("scope", JStr "https://ads.microsoft.com/msads.manage offline_access") ] in
    response <- requests_post (token_url self) [] (Form data) ;;
    raise_for_status response ;;
    token_data <- response_json response ;;
    tok <- lift (py_getitem token_data "access_token") ;;
    set_access_token tok ;;
    ret tok.

(** An optional string argument that is truthy. *)
Definition given (a : option string) : option string :=
  match a with
  | Some x => if String.eqb x EmptyString then None else Some x
  | None => None
  end.

Definition _get_auth_headers (self : BingAdsExtractor)
    (customer_account_id customer_id : option string) : M (list (string * string)) :=
  tok <- get_access_token self ;;
  let headers := [ ("Authorization", "Bearer " ++ py_str tok);
                   ("Content-Type", "application/json");
                   ("DeveloperToken", developer_token self) ] in
  let headers := match given customer_account_id with
                 | Some a => (headers ++ [("CustomerAccountId", a)])%list
                 | None => headers
                 end in
  let headers := match given customer_id with
                 | Some c => (headers ++ [("CustomerId", c)])%list
                 | None => headers
                 end in
  ret headers.

Definition get_users (self : BingAdsExtractor) : M (list json) :=
  let url := customer_management_base self ++ "/User/Query" in
  headers <- _get_auth_headers self None None ;;
  let payload := JObj [("UserId", JNull)] in
  response <- requests_post url headers (Json payload) ;;
  raise_for_status response ;;
  data <- response_json response ;;
  user <- lift (py_get data "User" JNull) ;;
  if is_list user then lift (res_bind (py_get data "User" (JArr [])) py_iter)
  else if truthy user then ret [user]
  else ret [].

Definition get_accounts (self : BingAdsExtractor) (user_id : Z) : M json :=
  let url := customer_management_base self ++ "/Accounts/Search" in
  headers <- _get_auth_headers self None None ;;
  let payload :=
    JObj [ ("PageInfo", JObj [("Index", JNum 0); ("Size", JNum 1000)]);
           ("Predicates", JArr [ JObj [ ("Field", JStr "UserId");
                                        ("Operator", JStr "Equals");
                                        ("Value", JStr (str_of_Z user_id)) ] ]);
           ("ReturnAdditionalFields", JStr "TaxCertificate,AccountMode") ] in
  response <- requests_post url headers (Json payload) ;;
  raise_for_status response ;;
  data <- response_json response ;;
  lift (py_get data "Accounts" (JArr [])).

(** [for campaign in campaigns: campaign["AccountId"] = ...; campaign["CustomerId"] = ...] *)
Fixpoint tag_campaigns (account_id customer_id : Z) (cs : list json) : Res (list json) :=
  match cs with
  | [] => Ok []
  | c :: rest =>
      res_bind (py_setitem c "AccountId" (JNum account_id)) (fun c1 =>
      res_bind (py_setitem c1 "CustomerId" (JNum customer_id)) (fun c2 =>
      res_bind (tag_campaigns account_id customer_id rest) (fun rest' =>
      Ok (c2 :: rest'))))
  end.

Definition campaign_fields : string :=
  "AdScheduleUseSearcherTimeZone,BidStrategyId,CpvCpmBiddingScheme,DynamicDescriptionSetting,DynamicFeedSetting,MaxConversionValueBiddingScheme,MultimediaAdsBidAdjustment,TargetImpressionShareBiddingScheme,TargetSetting,VerifiedTrackingSetting".

Definition get_campaigns (self : BingAdsExtractor) (account_id customer_id : Z) : M json :=
  let url := campaign_management_base self ++ "/Campaigns/QueryByAccountId" in
  headers <- _get_auth_headers self (Some (str_of_Z account_id))
                               (Some (str_of_Z customer_id)) ;;
  let payload :=
    JObj [ ("AccountId", JStr (str_of_Z account_id));
           ("CampaignType", JStr "Audience,DynamicSearchAds,Search,Shopping,PerformanceMax");
           ("ReturnAdditionalFields", JStr campaign_fields) ] in
  response <- requests_post url headers (Json payload) ;;
  raise_for_status response ;;
  data <- response_json response ;;
  campaigns <- lift (py_get data "Campaigns" (JArr [])) ;;
  items <- lift (py_iter campaigns) ;;
  tagged <- lift (tag_campaigns account_id customer_id items) ;;
  ret (match campaigns with JArr _ => JArr tagged | _ => campaigns end).

Definition columns : list (string * list string) :=
  [ ("CampaignPerformanceReportRequest",
     [ "TimePeriod"; "AccountId"; "CampaignId"; "CampaignName"; "CampaignStatus";
       "Impressions"; "Clicks"; "Spend"; "Conversions"; "Revenue"; "Ctr" ]);
    ("AdGroupPerformanceReportRequest",
     [ "TimePeriod"; "AccountId"; "CampaignId"; "AdGroupId"; "AdGroupName";
       "Impressions"; "Clicks"; "Spend"; "Conversions"; "Ctr" ]) ].

Fixpoint columns_get (k : string) (d : list (string * list string)) (default : list string)
  : list string :=
  match d with
  | [] => default
  | (k', v) :: d' => if String.eqb k k' then v else columns_get k d' default
  end.

Definition date_json (d : Date) : json :=
  JObj [("Day", JNum (Day d)); ("Month", JNum (Month d)); ("Year", JNum (Year d))].

Definition strptime (s : string) : M Date :=
  match strptime_ymd s with
  | Some d => ret d
  | None => raise ValueError
  end.

Definition submit_performance_report (self : BingAdsExtractor) (account_id : Z)
    (report_type : string) (start_date end_date : option string) (aggregation : string)
  : M json :=
  let url := reporting_base self ++ "/ReportingService.svc/SubmitGenerateReport" in
  headers <- _get_auth_headers self (Some (str_of_Z account_id)) None ;;
  start_date <- match given start_date with
                | Some d => ret d
                | None => now <- datetime_now ;; ret (strftime_ymd (days_before now 30))
                end ;;
  end_date <- match given end_date with
              | Some d => ret d
              | None => now <- datetime_now ;; ret (strftime_ymd now)
              end ;;
  start_dt <- strptime start_date ;;
  end_dt <- strptime end_date ;;
  now <- datetime_now ;;
  let payload :=
    JObj [ ("ReportRequest",
            JObj [ ("ExcludeColumnHeaders", JBool false);
                   ("ExcludeReportFooter", JBool true);
                   ("ExcludeReportHeader", JBool true);
                   ("Format", JStr "Csv");
                   ("FormatVersion", JStr "2.0");
                   ("ReportName", JStr (report_type ++ "_" ++ strftime_compact now));
                   ("ReturnOnlyCompleteData", JBool false);
                   ("Type", JStr report_type);
                   ("Aggregation", JStr aggregation);
                   ("Columns",
                    JArr (map JStr
                            (columns_get report_type columns
                               (columns_get "CampaignPerformanceReportRequest" columns []))));
                   ("Scope", JObj [("AccountIds", JArr [JStr (str_of_Z account_id)])]);
                   ("Time",
                    JObj [ ("CustomDateRangeStart", date_json start_dt);
                           ("CustomDateRangeEnd", date_json end_dt);
                           ("ReportTimeZone",
                            JStr "GreenwichMeanTimeDublinEdinburghLisbonLondon") ]) ]) ] in
  response <- requests_post url headers (Json payload) ;;
  raise_for_status response ;;
  data <- response_json response ;;
  lift (py_get data "ReportRequestId" JNull).

Definition poll_report_status (self : BingAdsExtractor) (report_request_id : json) : M json :=
  let url := reporting_base self ++ "/ReportingService.svc/PollGenerateReport" in
  headers <- _get_auth_headers self None None ;;
  let payload := JObj [("ReportRequestId", report_request_id)] in
  response <- requests_post url headers (Json payload) ;;
  raise_for_status response ;;
  response_json response.

(** [requests.get(download_url)].  A string is the URL of the call; any other
    decoded value is refused by [requests], with the exception the library
    has for it, and nothing is sent. *)
Definition get_url (download_url : json) : M Response :=
  match download_url with
  | JStr u => requests_get u [] NoBody
  | _ => raise (invalid_url download_url)
  end.

Definition download_report (download_url : json) : M (list json) :=
  response <- get_url download_url ;;
  raise_for_status response ;;
  text_content <-
    try_except
      (decompressed <- lift (of_sum (gzip_decompress (content response))) ;;
       lift (decode_utf8_sig decompressed))
      (fun e => if is_OSError e       (* except (gzip.BadGzipFile, OSError) *)
                then lift (decode_utf8_sig (content response))
                else raise e) ;;
  lift (of_sum (csv_DictReader text_content)).

(** The [while time.time() - start_time < max_wait_seconds] loop of
    [get_performance_report]. *)
Fixpoint poll_loop (fuel : nat) (self : BingAdsExtractor) (report_id : json)
    (start_time : float) (max_wait_seconds : Z) : M (list json) :=
  match fuel with
  | O => diverge
  | S fuel' =>
      now <- time_time ;;
      if float_lt_int (now - start_time)%float max_wait_seconds then
        status_response <- poll_report_status self report_id ;;
        rrs <- lift (py_get status_response "ReportRequestStatus" (JObj [])) ;;
        status <- lift (py_get rrs "Status" JNull) ;;
        print (LogInfo ("Status: " ++ py_str status)) ;;
        if is_str "Success" status then
          rrs <- lift (py_get status_response "ReportRequestStatus" (JObj [])) ;;
          download_url <- lift (py_get rrs "ReportDownloadUrl" JNull) ;;
          print (LogInfo ("Downloading report from: " ++ py_str download_url)) ;;
          download_report download_url
        else if is_str "Error" status then
          raise (ReportGenerationFailed status_response)
        else
          time_sleep 10 ;;
          poll_loop fuel' self report_id start_time max_wait_seconds
      else raise (TimeoutError max_wait_seconds)
  end.

Definition get_performance_report (self : BingAdsExtractor) (account_id : Z)
    (report_type : string) (start_date end_date : option string) (max_wait_seconds : Z)
  : M (list json) :=
  print (LogInfo ("Submitting " ++ report_type ++ " for account "
                  ++ str_of_Z account_id ++ "...")) ;;
  report_id <- submit_performance_report self account_id report_type
                 start_date end_date "Daily" ;;
  print (LogInfo ("Report ID: " ++ py_str report_id)) ;;
  print (LogInfo "Polling for report completion...") ;;
  start_time <- time_time ;;
  s <- get_state ;;
  poll_loop (loop_bound s) self report_id start_time max_wait_seconds.

(** The dictionary [extract_all] returns. *)
Record Result : Type := mkResult {
  extracted_at : string;
  users : list json;
  accounts : list json;
  campaigns : list json;
  performance_reports : list json
}.

Definition add_accounts (r : Result) (xs : list json) : Result :=
  mkResult (extracted_at r) (users r) (accounts r ++ xs) (campaigns r)
           (performance_reports r).

Definition add_campaigns (r : Result) (xs : list json) : Result :=
  mkResult (extracted_at r) (users r) (accounts r) (campaigns r ++ xs)
           (performance_reports r).

Definition add_report (r : Result) (x : json) : Result :=
  mkResult (extracted_at r) (users r) (accounts r) (campaigns r)
           (performance_reports r ++ [x]).

(** The first [try] block of the account loop: fetch the campaigns and add
    them to the result; on any exception print it and go on. *)
Definition try_campaigns (self : BingAdsExtractor) (account_id customer_id : json)
    (result : Result) : M Result :=
  try_except
    (a <- lift (py_int account_id) ;;
     c <- lift (py_int customer_id) ;;
     campaigns <- get_campaigns self a c ;;
     items <- lift (py_iter campaigns) ;;
     n <- lift (py_len campaigns) ;;
     print (LogInfo ("Found " ++ str_of_Z n ++ " campaign(s)")) ;;
     ret (add_campaigns result items))
    (fun e =>
       print (LogError ("Error fetching campaigns for account " ++ py_str account_id) e) ;;
       ret result).

(** The second [try] block of the account loop: run the report workflow and
    add its records to the result; on any exception print it and go on. *)
Definition try_performance (self : BingAdsExtractor) (start_date end_date : option string)
    (account_id account_name : json) (result : Result) : M Result :=
  try_except
    (a <- lift (py_int account_id) ;;
     report_data <- get_performance_report self a "CampaignPerformanceReportRequest"
                      start_date end_date 300 ;;
     print (LogInfo ("Retrieved " ++ str_of_Z (Z.of_nat (List.length report_data))
                     ++ " performance record(s)")) ;;
     ret (add_report result
            (JObj [ ("account_id", account_id);
                    ("account_name", account_name);
                    ("report_type", JStr "campaign_performance");
                    ("data", JArr report_data) ])))
    (fun e =>
       print (LogError ("Error fetching performance report for account "
                        ++ py_str account_id) e) ;;
       ret result).

(** Body of [for account in accounts]. *)
Definition extract_account (self : BingAdsExtractor) (include_performance_reports : bool)
    (start_date end_date : option string) (account : json) (result : Result) : M Result :=
  account_id <- lift (py_get account "Id" JNull) ;;
  customer_id <- lift (py_get account "ParentCustomerId" JNull) ;;
  account_name <- lift (py_get account "Name" JNull) ;;
  if negb (truthy account_id) || negb (truthy customer_id) then ret result
  else
    print (LogInfo (nl ++ "Fetching campaigns for account " ++ py_str account_id
                    ++ " (" ++ py_str account_name ++ ")...")) ;;
    result <- try_campaigns self account_id customer_id result ;;
    if include_performance_reports then
      print (LogInfo (nl ++ "Fetching performance report for account "
                      ++ py_str account_id ++ "...")) ;;
      try_performance self start_date end_date account_id account_name result
    else ret result.

Fixpoint for_accounts (self : BingAdsExtractor) (include_performance_reports : bool)
    (start_date end_date : option string) (accts : list json) (result : Result) : M Result :=
  match accts with
  | [] => ret result
  | account :: rest =>
      result <- extract_account self include_performance_reports start_date end_date
                  account result ;;
      for_accounts self include_performance_reports start_date end_date rest result
  end.

(** Body of [for user in users]. *)
Definition extract_user (self : BingAdsExtractor) (include_performance_reports : bool)
    (start_date end_date : option string) (user : json) (result : Result) : M Result :=
  user_id <- lift (py_get user "Id" JNull) ;;
  if negb (truthy user_id) then ret result
  else
    print (LogInfo (nl ++ "Fetching accounts for user " ++ py_str user_id ++ "...")) ;;
    u <- lift (py_int user_id) ;;
    accounts <- get_accounts self u ;;
    items <- lift (py_iter accounts) ;;
    let result := add_accounts result items in
    n <- lift (py_len accounts) ;;
    print (LogInfo ("Found " ++ str_of_Z n ++ " account(s)")) ;;
    for_accounts self include_performance_reports start_date end_date items result.

Fixpoint for_users (self : BingAdsExtractor) (include_performance_reports : bool)
    (start_date end_date : option string) (us : list json) (result : Result) : M Result :=
  match us with
  | [] => ret result
  | user :: rest =>
      result <- extract_user self include_performance_reports start_date end_date
                  user result ;;
      for_users self include_performance_reports start_date end_date rest result
  end.

Definition extract_all (self : BingAdsExtractor) (include_performance_reports : bool)
    (start_date end_date : option string) : M Result :=
  s <- get_state ;;
  let result := mkResult (now_iso s) [] [] [] [] in
  print (LogInfo "Fetching users...") ;;
  users <- get_users self ;;
  let result := mkResult (extracted_at result) users (accounts result)
                         (campaigns result) (performance_reports result) in
  print (LogInfo ("Found " ++ str_of_Z (Z.of_nat (List.length users)) ++ " user(s)")) ;;
  for_users self include_performance_reports start_date end_date users result.

End Extractor.
Section Main.
Context {lib : PyLib}.

(** The text [traceback.print_exc] writes for the exception being handled. *)
Variable format_exc : exn -> string.

(** [result], the dictionary handed to [json.dumps]. *)
Definition result_json (result : Result) : json :=
  JObj [ ("extracted_at", JStr (extracted_at result));
         ("users", JArr (users result));
         ("accounts", JArr (accounts result));
         ("campaigns", JArr (campaigns result));
         ("performance_reports", JArr (performance_reports result)) ].

Definition main (env : Env) : M Exit :=
  let tenant_id := getenv "BING_ADS_TENANT_ID" env in
  let client_id := getenv "BING_ADS_CLIENT_ID" env in
  let client_secret := getenv "BING_ADS_CLIENT_SECRET" env in
  let refresh_token := getenv "BING_ADS_REFRESH_TOKEN" env in
  let developer_token := getenv "BING_ADS_DEVELOPER_TOKEN" env in
  if negb (is_set tenant_id && is_set client_id && is_set client_secret
           && is_set refresh_token && is_set developer_token) then
    print (LogInfo "Error: Missing required environment variables:") ;;
    print (LogInfo "  - BING_ADS_TENANT_ID") ;;
    print (LogInfo "  - BING_ADS_CLIENT_ID") ;;
    print (LogInfo "  - BING_ADS_CLIENT_SECRET") ;;
    print (LogInfo "  - BING_ADS_REFRESH_TOKEN") ;;
    print (LogInfo "  - BING_ADS_DEVELOPER_TOKEN") ;;
    ret (Exited 1)
  else
    let start_date := getenv "START_DATE" env in
    let end_date := getenv "END_DATE" env in
    let include_reports :=
      String.eqb (lower (match getenv "INCLUDE_PERFORMANCE_REPORTS" env with
                         | Some v => v
                         | None => "true"
                         end)) "true" in
    let extractor := __init__ (str_of_option tenant_id) (str_of_option client_id)
                       (str_of_option client_secret) (str_of_option refresh_token)
                       (str_of_option developer_token) in
    try_except
      (data <- extract_all extractor include_reports start_date end_date ;;
       ret (Printed (result_json data)))
      (fun e =>
         print (LogError "Error" e) ;;
         print (LogInfo (format_exc e)) ;;
         ret (Exited 1)).

End Main.

End Bing.

(** * Vocabulary of the specification *)

(** The four paginated fetches of the Amazon fetcher, with their arguments. *)
Inductive Listing : Type :=
| SponsoredDisplay (state_filter : string)
| SponsoredBrands (state_filter : option (list string))
| SponsoredProducts (state_filter : option (list string))
| AttributionReport (timezone : json).

Definition fetch {lib : PyLib} (l : Listing) (self : Amazon.AmazonAdsFetcher)
    (profile_id : string) : M (list json) :=
  match l with
  | SponsoredDisplay f => Amazon.get_sponsored_display_campaigns self profile_id f
  | SponsoredBrands f => Amazon.get_sponsored_brands_campaigns self profile_id f
  | SponsoredProducts f => Amazon.get_sponsored_products_campaigns self profile_id f
  | AttributionReport tz => Amazon.get_attribution_performance_campaign self profile_id tz
  end.

(** The message each fetch prints in front of a caught exception. *)
Definition error_context (l : Listing) : string :=
  match l with
  | SponsoredDisplay _ => "Error fetching Sponsored Display campaigns"
  | SponsoredBrands _ => "Error fetching Sponsored Brands campaigns"
  | SponsoredProducts _ => "Error fetching Sponsored Products campaigns"
  | AttributionReport _ => "Error fetching attribution report"
  end.

Definition items_key (l : Listing) : string :=
  match l with AttributionReport _ => "reports" | _ => "campaigns" end.

Definition next_key (l : Listing) : string :=
  match l with AttributionReport _ => "cursorId" | _ => "nextToken" end.

(** The item list of a page: the top-level array (offset variant), or the
    array under the items key, empty when the key is missing (token and
    cursor variants).  [None]: the response is no page of that variant. *)
Definition page_items (l : Listing) (r : Response) : option (list json) :=
  if http_error (status_code r) then None
  else
    match l, json_body r with
    | SponsoredDisplay _, Some (JArr xs) => Some xs
    | SponsoredDisplay _, _ => None
    | _, Some (JObj d) =>
        match lookup (items_key l) d with
        | None => Some []
        | Some (JArr xs) => Some xs
        | Some _ => None
        end
    | _, _ => None
    end.

Definition is_page (l : Listing) (r : Response) : bool :=
  match page_items l r with Some _ => true | None => false end.

Definition items (l : Listing) (r : Response) : list json :=
  match page_items l r with Some xs => xs | None => [] end.

(** The documented continuation condition: a page of at least the page size
    (offset variant), a non-empty [nextToken] / [cursorId] (token and cursor
    variants). *)
Definition more (l : Listing) (r : Response) : bool :=
  match l, json_body r with
  | SponsoredDisplay _, Some (JArr xs) => 100 <=? Z.of_nat (List.length xs)
  | SponsoredDisplay _, _ => false
  | _, Some (JObj d) =>
      match lookup (next_key l) d with Some t => truthy t | None => false end
  | _, _ => false
  end.

Definition inner_page (l : Listing) (r : Response) : bool := is_page l r && more l r.
Definition final_page (l : Listing) (r : Response) : bool := is_page l r && negb (more l r).

(** The next call fails: nothing is received, or the status is an error
    status (other than the 400 the attribution report stops on). *)
Definition call_fails (l : Listing) (rest : list Reply) : bool :=
  match rest with
  | [] => true
  | Refused :: _ => true
  | Answer r :: _ =>
      http_error (status_code r)
      && negb (match l with AttributionReport _ => status_code r =? 400 | _ => false end)
  end.

Definition is_sent (e : Event) : bool :=
  match e with Sent _ => true | Slept _ => false end.

(** Number of requests issued. *)
Definition calls (t : list Event) : nat := List.length (filter is_sent t).

(** The part of the state that requests leave alone. *)
Definition same_frame (s s' : State) : Prop :=
  access_token s' = access_token s /\ clock s' = clock s /\ ticks s' = ticks s
  /\ today s' = today s /\ now_iso s' = now_iso s.

(** From [s] to [s']: [k] more requests were issued, the script is down to
    [tl], nothing was printed. *)
Definition advanced (k : nat) (tl : list Reply) (s s' : State) : Prop :=
  net s' = tl /\ calls (trace s') = (calls (trace s) + k)%nat
  /\ stderr s' = stderr s /\ same_frame s s'.

Definition stops_on_400 (l : Listing) : bool :=
  match l with AttributionReport _ => true | _ => false end.

Definition is_keyed (l : Listing) : bool :=
  match l with SponsoredDisplay _ => false | _ => true end.

(** A computation that only reads the state and returns. *)
Definition pure_reader {A} (m : M A) : Prop := forall s, exists a, m s = (Ok a, s).

(** Each fetch is its loop, run under the bound of the current script, inside
    [try ... except Exception]. *)
Definition loop_of {lib : PyLib} (l : Listing) (self : Amazon.AmazonAdsFetcher)
    (pid : string) (loop : nat -> M (list json)) : Prop :=
  match l with
  | SponsoredDisplay f => loop = fun fuel => Amazon.sd_loop fuel self pid f 0 []
  | _ => exists u gh payload, pure_reader gh /\
           loop = fun fuel => Amazon.keyed_loop fuel (stops_on_400 l) (items_key l)
                                (next_key l) u gh payload []
  end.

(** ** Token-endpoint calls *)

Definition is_form (b : Body) : bool :=
  match b with Form _ => true | _ => false end.

Definition is_post (m : Method) : bool :=
  match m with POST => true | GET => false end.

(** Number of requests issued that satisfy [P]. *)
Definition counted (P : Request -> bool) (t : list Event) : nat :=
  List.length (filter (fun e => match e with Sent q => P q | Slept _ => false end) t).

(** The refresh-token exchange: a form-encoded POST to the token endpoint. *)
Definition is_token_request (endpoint : string) (q : Request) : bool :=
  String.eqb (url q) endpoint && is_post (method q) && is_form (body q).

Definition token_calls (endpoint : string) (t : list Event) : nat :=
  counted (is_token_request endpoint) t.

Definition amazon_token_url : string := "https://api.amazon.com/auth/o2/token".

(** ** Report polling *)

(** The [Status] a poll answer carries, as [get_performance_report] reads it;
    [None] when the answer cannot be read that way. *)
Definition poll_status (r : Response) : option json :=
  if http_error (status_code r) then None
  else
    match json_body r with
    | Some (JObj d) =>
        match lookup "ReportRequestStatus" d with
        | None => Some JNull
        | Some (JObj rrs) =>
            Some (match lookup "Status" rrs with Some v => v | None => JNull end)
        | Some _ => None
        end
    | _ => None
    end.

(** A poll answer that is neither Success nor Error. *)
Definition pending (r : Response) : bool :=
  match poll_status r with
  | Some st => negb (is_str "Success" st) && negb (is_str "Error" st)
  | None => false
  end.

Definition is_slept (e : Event) : bool :=
  match e with Slept _ => true | Sent _ => false end.

(** Number of [time.sleep] calls. *)
Definition sleeps (t : list Event) : nat := List.length (filter is_slept t).

(** ** Downloads *)

(** The two-byte gzip magic number 1F 8B. *)
Definition has_gzip_magic (data : list byte) : bool :=
  match data with
  | b0 :: b1 :: _ => Byte.eqb b0 x1f && Byte.eqb b1 x8b
  | _ => false
  end.

(** ** Values computed *)



(** ** Hoare triples over the monad *)

Definition hoare {A} (P : State -> Prop) (m : M A) (Q : Res A -> State -> Prop) : Prop :=
  forall s, P s -> Q (fst (m s)) (snd (m s)).

(** Postcondition "returns in [K], or raises in [E]; is never cut off". *)
Definition within {A} (K E : State -> Prop) : Res A -> State -> Prop :=
  fun r s =>
    match r with
    | Ok _ => K s
    | Raise _ => E s
    | Diverge => False
    end.

(** [m] never is cut off, and keeps [I] whether it returns or raises. *)
Definition keeps {A} (I : State -> Prop) (m : M A) : Prop := hoare I m (within I I).

(** [m] keeps [I] and always returns. *)
Definition returns {A} (I : State -> Prop) (m : M A) : Prop :=
  hoare I m (within I (fun _ => False)).

(** The invariant of a run: [c] requests satisfying [P] were issued, at most
    [B] entries of the script are left, (when [with_token] is set) a token is
    cached, and the lines [logged] are the beginning of what was printed. *)
Definition inv (P : Request -> bool) (with_token : bool) (logged : list LogEntry)
    (c B : nat) (s : State) : Prop :=
  counted P (trace s) = c
  /\ (List.length (net s) <= B)%nat
  /\ (with_token = true -> truthy (access_token s) = true)
  /\ (exists more, stderr s = (logged ++ more)%list).

(** ** Entities *)

Definition is_object (v : json) : bool :=
  match v with JObj _ => true | _ => false end.

(** A profile the loop of [fetch_all_data] can read: an object with a
    [profileId] whose [accountInfo], when present, is an object. *)
Definition well_formed_profile (p : json) : bool :=
  match p with
  | JObj d =>
      has_key "profileId" d
      && match lookup "accountInfo" d with
         | None | Some (JObj _) => true
         | Some _ => false
         end
  | _ => false
  end.

(** The call is not answered, or is answered with an error status. *)
Definition request_fails (n : list Reply) : bool :=
  match n with
  | [] | Refused :: _ => true
  | Answer r :: _ => http_error (status_code r)
  end.

(** The token endpoint answers with a usable bearer. *)
Definition grants_token (r : Response) : bool :=
  negb (http_error (status_code r))
  && match json_body r with
     | Some (JObj d) =>
         match lookup "access_token" d with Some tok => truthy tok | None => false end
     | _ => false
     end.


(** ** Shape of the data [fetch_all_data] returns *)

(** An entry of [all_data["campaigns"]]: the three campaign lists. *)
Definition campaign_lists (kv : string * json) : Prop :=
  exists sd sb sp, snd kv = JObj [ ("sponsored_display", JArr sd);
                                   ("sponsored_brands", JArr sb);
                                   ("sponsored_products", JArr sp) ].

(** An entry of [all_data["performance"]]: the attribution report. *)
Definition attribution_list (kv : string * json) : Prop :=
  exists rep, snd kv = JObj [("attribution_campaign", JArr rep)].

(** Both dictionaries have the same keys in the same order, and entries of the
    shapes above. *)
Definition well_shaped (all_data : Amazon.AllData) : Prop :=
  map fst (Amazon.campaigns all_data) = map fst (Amazon.performance all_data)
  /\ Forall campaign_lists (Amazon.campaigns all_data)
  /\ Forall attribution_list (Amazon.performance all_data).

(** ** Requests of the paginated fetches *)

(** The request of the Sponsored Display loop for the [j]-th page. *)
Definition sd_request (self : Amazon.AmazonAdsFetcher) (headers : list (string * string))
    (state_filter : string) (j : nat) : Request :=
  mkRequest GET (Amazon.base_url self ++ "/sd/campaigns") headers
    (Query (JObj [ ("stateFilter", JStr state_filter);
                   ("count", JNum 100);
                   ("startIndex", JNum (100 * Z.of_nat j)) ])).

(** The endpoint of each listing. *)
Definition endpoint (self : Amazon.AmazonAdsFetcher) (l : Listing) : string :=
  (Amazon.base_url self ++
   match l with
   | SponsoredDisplay _ => "/sd/campaigns"
   | SponsoredBrands _ => "/sb/v4/campaigns/list"
   | SponsoredProducts _ => "/sp/campaigns/list"
   | AttributionReport _ => "/attribution/report"
   end)%string.

(** The continuation value a page carries ([nextToken] or [cursorId]). *)
Definition next_token (l : Listing) (r : Response) : json :=
  match json_body r with
  | Some (JObj d) => match lookup (next_key l) d with Some t => t | None => JNull end
  | _ => JNull
  end.

(** The payloads of the successive requests: the first one as given, each
    later one with the continuation value of the page before. *)
Fixpoint payloads (l : Listing) (payload : dict) (pages : list Response) : list dict :=
  match pages with
  | [] => []
  | r :: rest =>
      payload :: payloads l (dict_set (next_key l) (next_token l r) payload) rest
  end.

(** ** Campaigns of an account *)

(** [x'] is the campaign [x] with [AccountId] and [CustomerId] set to the
    given integers and every other field as it was. *)
Definition tagged (account_id customer_id : Z) (x x' : json) : Prop :=
  exists d d', x = JObj d /\ x' = JObj d'
    /\ lookup "AccountId" d' = Some (JNum account_id)
    /\ lookup "CustomerId" d' = Some (JNum customer_id)
    /\ forall key, key <> "AccountId" -> key <> "CustomerId" -> lookup key d' = lookup key d.

(** ** The range of a report *)

(** The texts [submit_performance_report] parses as the two ends of the
    range: the arguments when given, otherwise thirty days ago and today. *)
Definition range_start {lib : PyLib} (s : State) (start_date : option string) : string :=
  match Bing.given start_date with
  | Some d => d
  | None => strftime_ymd (days_before (today s) 30)
  end.

Definition range_end {lib : PyLib} (s : State) (end_date : option string) : string :=
  match Bing.given end_date with
  | Some d => d
  | None => strftime_ymd (today s)
  end.

(** ** Settled reports *)

(** The [ReportDownloadUrl] a poll answer carries, as [get_performance_report]
    reads it; None when there is none. *)
Definition download_url_of (r : Response) : json :=
  match json_body r with
  | Some (JObj d) =>
      match lookup "ReportRequestStatus" d with
      | Some (JObj rrs) =>
          match lookup "ReportDownloadUrl" rrs with Some u => u | None => JNull end
      | _ => JNull
      end
  | _ => JNull
  end.

(** ** Downloaded bytes *)

(** The UTF-8 byte-order mark EF BB BF. *)
Definition byte_order_mark : list byte := [xef; xbb; xbf].

(** ** Where requests go *)

(** The value of a header; None when it is not set. *)
Fixpoint header (name : string) (h : list (string * string)) : option string :=
  match h with
  | [] => None
  | (k, v) :: rest => if String.eqb name k then Some v else header name rest
  end.

Definition event_ok (Q : Request -> Prop) (e : Event) : Prop :=
  match e with Sent q => Q q | Slept _ => True end.

(** Run from a state whose token is in [T], [m] ends with a token in [T],
    adds to the trace only requests in [Q] (and sleeps), and returns only
    values in [V]. *)
Definition sends {A} (T : json -> Prop) (Q : Request -> Prop) (m : M A) (V : A -> Prop)
  : Prop :=
  forall s, T (access_token s) ->
    T (access_token (snd (m s)))
    /\ (exists evs, trace (snd (m s)) = (trace s ++ evs)%list /\ Forall (event_ok Q) evs)
    /\ match fst (m s) with Ok a => V a | _ => True end.

(** Headers of an authenticated Bing request. *)
Definition authorised (self : Bing.BingAdsExtractor) (h : list (string * string)) : Prop :=
  (exists bearer, header "Authorization" h = Some ("Bearer " ++ bearer))
  /\ header "DeveloperToken" h = Some (Bing.developer_token self).

(** The service operations the extractor calls. *)
Definition api_urls (self : Bing.BingAdsExtractor) (include_performance_reports : bool)
  : list string :=
  [ Bing.customer_management_base self ++ "/User/Query";
    Bing.customer_management_base self ++ "/Accounts/Search";
    Bing.campaign_management_base self ++ "/Campaigns/QueryByAccountId" ]
  ++ (if include_performance_reports
      then [ Bing.reporting_base self ++ "/ReportingService.svc/SubmitGenerateReport";
             Bing.reporting_base self ++ "/ReportingService.svc/PollGenerateReport" ]
      else []).

(** The three kinds of request of a run of [extract_all]: the token exchange
    (form-encoded, to the login endpoint, without headers), the authenticated
    JSON calls of the service operations, and, with performance reports, the
    bare GET of a download. *)
Definition bing_request (self : Bing.BingAdsExtractor) (include_performance_reports : bool)
    (q : Request) : Prop :=
  match body q with
  | Form _ => method q = POST /\ url q = Bing.token_url self /\ headers q = []
  | Json _ => method q = POST /\ authorised self (headers q)
              /\ In (url q) (api_urls self include_performance_reports)
  | NoBody => include_performance_reports = true /\ method q = GET /\ headers q = []
  | Query _ => False
  end.

(** A call of the advertising API by a run of [fetch_all_data]: it goes to
    the regional endpoint and carries the bearer [tok] and the client id. *)
Definition amazon_request {lib : PyLib} (self : Amazon.AmazonAdsFetcher) (tok : json)
    (q : Request) : Prop :=
  is_form (body q) = false
  /\ String.prefix (Amazon.base_url self) (url q) = true
  /\ header "Authorization" (headers q) = Some ("Bearer " ++ py_str tok)
  /\ header "Amazon-Advertising-API-ClientId" (headers q) = Some (Amazon.client_id self).

(** ** Users *)

(** A user the loop of [extract_all] passes over: a dictionary whose [Id] is
    missing or not true. *)
Definition has_no_id (user : json) : bool :=
  match user with
  | JObj d => match lookup "Id" d with Some v => negb (truthy v) | None => true end
  | _ => false
  end.

(** Any token. *)
Definition any_token : json -> Prop := fun _ => True.

(** The token [tok]. *)
Definition token_is (tok : json) : json -> Prop := fun t => t = tok.

(** Headers that carry the bearer [tok] and the client id. *)
Definition signed {lib : PyLib} (self : Amazon.AmazonAdsFetcher) (tok : json)
    (h : list (string * string)) : Prop :=
  header "Authorization" h = Some ("Bearer " ++ py_str tok)
  /\ header "Amazon-Advertising-API-ClientId" h = Some (Amazon.client_id self).

(** What the loops of [extract_all] leave alone when performance reports are
    not included: the list of reports. *)
Definition reports_untouched (include_performance_reports : bool)
    (result r' : Bing.Result) : Prop :=
  include_performance_reports = false ->
  Bing.performance_reports r' = Bing.performance_reports result.

(** ** Runs of the entity loops, entity by entity *)





(** The campaign objects an answer to the campaigns query lists. *)
Definition campaigns_page (reply : Reply) : option (list json) :=
  match reply with
  | Answer r =>
      if http_error (status_code r) then None
      else match json_body r with
           | Some (JObj d) =>
               match lookup "Campaigns" d with
               | Some (JArr cs) => if forallb is_object cs then Some cs else None
               | _ => None
               end
           | _ => None
           end
  | Refused => None
  end.
















(** * A reference library and sample data for concrete runs *)

Definition digit_of (c : ascii) : option Z :=
  let n := Z.of_nat (nat_of_ascii c) in
  if (48 <=? n) && (n <=? 57) then Some (n - 48) else None.

Fixpoint digits_value (s : string) (acc : Z) : option Z :=
  match s with
  | EmptyString => Some acc
  | String c s' =>
      match digit_of c with
      | Some d => digits_value s' (10 * acc + d)
      | None => None
      end
  end.

(** [int(s)] on plain decimal numerals, with an optional sign. *)
Definition parse_int (s : string) : option Z :=
  match s with
  | EmptyString => None
  | String "-" (String c r) => option_map Z.opp (digits_value (String c r) 0)
  | String "+" (String c r) => digits_value (String c r) 0
  | _ => digits_value s 0
  end.

(** Days since 1970-01-01 of a date of the proleptic Gregorian calendar, and
    back. *)
Definition days_from_civil (d : Date) : Z :=
  let y := if Month d <=? 2 then Year d - 1 else Year d in
  let era := y / 400 in
  let yoe := y - era * 400 in
  let mp := (Month d + 9) mod 12 in
  let doy := (153 * mp + 2) / 5 + Day d - 1 in
  let doe := yoe * 365 + yoe / 4 - yoe / 100 + doy in
  era * 146097 + doe - 719468.

Definition civil_from_days (z : Z) : Date :=
  let z := z + 719468 in
  let era := z / 146097 in
  let doe := z - era * 146097 in
  let yoe := (doe - doe / 1460 + doe / 36524 - doe / 146096) / 365 in
  let doy := doe - (365 * yoe + yoe / 4 - yoe / 100) in
  let mp := (5 * doy + 2) / 153 in
  let d := doy - (153 * mp + 2) / 5 + 1 in
  let m := if mp <? 10 then mp + 3 else mp - 9 in
  mkDate (yoe + era * 400 + (if m <=? 2 then 1 else 0)) m d.

Definition pad2 (n : Z) : string :=
  if n <? 10 then "0" ++ str_of_Z n else str_of_Z n.

Definition pad4 (n : Z) : string :=
  if n <? 10 then "000" ++ str_of_Z n
  else if n <? 100 then "00" ++ str_of_Z n
  else if n <? 1000 then "0" ++ str_of_Z n
  else str_of_Z n.

(** Splits at the first occurrence of [sep]. *)
Fixpoint split_at (sep : ascii) (s : string) : string * option string :=
  match s with
  | EmptyString => (EmptyString, None)
  | String c s' =>
      if Ascii.eqb c sep then (EmptyString, Some s')
      else let (a, b) := split_at sep s' in (String c a, b)
  end.

Definition parse_ymd (s : string) : option Date :=
  match split_at "-" s with
  | (y, Some r) =>
      match split_at "-" r with
      | (m, Some d) =>
          match digits_value y 0, digits_value m 0, digits_value d 0 with
          | Some y, Some m, Some d =>
              let date := mkDate y m d in
              if (1 <=? y) && (1 <=? m) && (m <=? 12) && (1 <=? d)
                 && (days_from_civil (civil_from_days (days_from_civil date))
                     =? days_from_civil date)
                 && (Day (civil_from_days (days_from_civil date)) =? d)
              then Some date else None
          | _, _, _ => None
          end
      | _ => None
      end
  | _ => None
  end.

(** A stand-in for gzip that keeps the two facts the download relies on: what
    was compressed decompresses to itself, and data without the magic number
    is rejected with [BadGzipFile] (empty data decompresses to nothing). *)
Definition stored_compress (data : list byte) : list byte := x1f :: x8b :: data.

Definition stored_decompress (data : list byte) : exn + list byte :=
  if has_gzip_magic data then inr (skipn 2 data)
  else match data with
       | [] => inr []
       | _ => inl BadGzipFile
       end.

(** Comma-separated text without quoting: lines end in LF or CRLF, the first
    line names the fields, empty lines are skipped. *)
Fixpoint split_on (sep : N) (text : list N) (cur : list N) : list (list N) :=
  match text with
  | [] => [rev cur]
  | c :: rest =>
      if (c =? sep)%N then rev cur :: split_on sep rest []
      else split_on sep rest (c :: cur)
  end.

Fixpoint string_of_points (cs : list N) : string :=
  match cs with
  | [] => EmptyString
  | c :: rest => String (ascii_of_N c) (string_of_points rest)
  end.

Definition chomp (line : list N) : list N :=
  match rev line with
  | 13%N :: r => rev r
  | _ => line
  end.

Definition plain_csv (text : list N) : exn + list json :=
  let lines := filter (fun l => match l with [] => false | _ => true end)
                      (map chomp (split_on 10 text [])) in
  match lines with
  | [] => inr []
  | header :: rows =>
      let names := map string_of_points (split_on 44 header []) in
      inr (map (fun row =>
                 JObj (combine names
                         (map (fun f => JStr (string_of_points f)) (split_on 44 row []))))
              rows)
  end.

(** Whether the text of a decoded value has a colon: every dictionary that
    is not empty has one, and so has a string that holds one. *)
Fixpoint has_colon (v : json) : bool :=
  match v with
  | JStr s => existsb (Ascii.eqb ":"%char) (list_ascii_of_string s)
  | JArr xs => existsb has_colon xs
  | JObj kvs => negb (Nat.eqb (List.length kvs) 0)
  | _ => false
  end.

(** How [requests] refuses what is no string: a text with a colon that does
    not start with "http" finds no adapter; "None", "True", a number or "{}"
    have no scheme; the text of a list is no URL at all. *)
Definition refusal (v : json) : exn :=
  if has_colon v then InvalidSchema
  else match v with
       | JArr _ => InvalidURL
       | _ => MissingSchema
       end.

Definition reference_lib : PyLib := {|
  repr_container := fun _ => "[...]";
  int_of_str := parse_int;
  strptime_ymd := parse_ymd;
  strftime_ymd := fun d => pad4 (Year d) ++ "-" ++ pad2 (Month d) ++ "-" ++ pad2 (Day d);
  strftime_compact := fun d => pad4 (Year d) ++ pad2 (Month d) ++ pad2 (Day d);
  days_before := fun d n => civil_from_days (days_from_civil d - n);
  gzip_decompress := stored_decompress;
  csv_DictReader := plain_csv;
  invalid_url := refusal
|}.

(** A fresh process: no token yet, nothing sent or printed, the given script
    and clock. *)
Definition fresh (script : list Reply) (clk : nat -> float) : State :=
  mkState JNull script [] clk 0 (mkDate 2024 10 31) "2024-10-31T12:00:00" [].

Definition json_reply (status : Z) (doc : json) : Reply :=
  Answer (mkResponse status (Some doc) []).

Definition amazon_na : Amazon.AmazonAdsFetcher :=
  Amazon.__init__ "client" "secret" "refresh" "NA".

Definition bing : Bing.BingAdsExtractor :=
  Bing.__init__ "tenant" "client" "secret" "refresh" "devtoken".

(** A full page of one hundred campaigns. *)
Definition hundred : list json := map (fun n => JObj [("campaignId", JNum (Z.of_nat n))]) (seq 0 100).

(** A clock that advances by [step] seconds at every reading. *)
Definition ticking (step : Z) : nat -> float :=
  fun n => PrimFloat.of_uint63 (Uint63.of_Z (step * Z.of_nat n)).

(** The bytes of an ASCII text. *)
Definition bytes_of (s : string) : list byte := map byte_of_ascii (list_ascii_of_string s).

Definition forty : list json := firstn 40 hundred.

(** Two attribution reports and the cursor of the page that follows. *)
Definition report_page : json :=
  JObj [ ("reports", JArr [JObj [("campaignId", JStr "a")]; JObj [("campaignId", JStr "b")]]);
         ("cursorId", JStr "cursor-1") ].

(** The loop test of [get_performance_report] at the [k]-th clock reading
    after the one that set [start_time]. *)
Definition budget_left (s : State) (max_wait_seconds : Z) (k : nat) : bool :=
  float_lt_int (clock s (ticks s + k) - clock s (ticks s))%float max_wait_seconds.

(** A double that is not below zero (NaN is not below anything). *)
Definition not_negative (x : spec_float) : Prop :=
  match x with
  | S754_zero _ | S754_nan => True
  | S754_infinity s | S754_finite s _ _ => s = false
  end.

(** The headers of a call made for no particular account, with the bearer
    [tok]. *)
Definition bearer_headers {lib : PyLib} (self : Bing.BingAdsExtractor) (tok : json)
  : list (string * string) :=
  [ ("Authorization", "Bearer " ++ py_str tok);
    ("Content-Type", "application/json");
    ("DeveloperToken", Bing.developer_token self) ].

(** The request [poll_report_status] issues for a job. *)
Definition poll_request {lib : PyLib} (self : Bing.BingAdsExtractor) (tok report_id : json)
  : Request :=
  mkRequest POST (Bing.reporting_base self ++ "/ReportingService.svc/PollGenerateReport")
    (bearer_headers self tok) (Json (JObj [("ReportRequestId", report_id)])).

(** [k] polls, each followed by the sleep of ten seconds. *)
Fixpoint waiting (q : Request) (k : nat) : list Event :=
  match k with
  | O => []
  | S k' => Sent q :: Slept 10 :: waiting q k'
  end.

(** From [s] to [s']: [k] polls, each followed by a sleep. *)
Definition polled (k : nat) (tl : list Reply) (s s' : State) : Prop :=
  net s' = tl
  /\ calls (trace s') = (calls (trace s) + k)%nat
  /\ sleeps (trace s') = (sleeps (trace s) + k)%nat
  /\ ticks s' = (ticks s + k)%nat
  /\ clock s' = clock s
  /\ access_token s' = access_token s.

(** Poll answers. *)
Definition status_doc (status : string) : json :=
  JObj [("ReportRequestStatus", JObj [("Status", JStr status)])].

(** A Bing session: the token exchange, the submission, two pending polls,
    then an answer that would have been Success. *)
Definition slow_report_script : list Reply :=
  [ json_reply 200 (JObj [("access_token", JStr "tok")]);
    json_reply 200 (JObj [("ReportRequestId", JStr "job-1")]);
    json_reply 200 (status_doc "Pending");
    json_reply 200 (status_doc "Pending");
    json_reply 200 (status_doc "Success") ].

(** Two readings of the clock between which a little less than 25 seconds
    pass (2^-49 seconds less): the difference of the two doubles is rounded
    to 25.0. *)
#[warnings="-inexact-float"]
Definition close_readings : nat -> float :=
  fun n => match n with
           | O => 0.13944071110811684%float
           | S _ => 25.139440711108115%float
           end.

(** Token answers. *)
Definition token_doc (bearer : string) : json := JObj [("access_token", JStr bearer)].

(** An account of the Bing enumeration. *)
Definition sample_account : json :=
  JObj [("Id", JNum 1001); ("ParentCustomerId", JNum 77); ("Name", JStr "Shop")].

(** A Bing session with one user, one account and one campaign: the token
    exchange and the answers to the three listings. *)
Definition account_session : list Reply :=
  [ json_reply 200 (token_doc "tok");
    json_reply 200 (JObj [("User", JArr [JObj [("Id", JNum 5); ("Name", JStr "Ann")]])]);
    json_reply 200 (JObj [("Accounts", JArr [sample_account])]);
    json_reply 200 (JObj [("Campaigns", JArr [JObj [("Id", JNum 1)]])]) ].

Definition empty_result : Bing.Result := Bing.mkResult "2024-10-31T12:00:00" [] [] [] [].

(** A process that already holds a bearer token. *)
Definition signed_in (script : list Reply) (clk : nat -> float) : State :=
  mkState (JStr "tok") script [] clk 0 (mkDate 2024 10 31) "2024-10-31T12:00:00" [].

(** A profile, and a dictionary that has no [profileId]. *)
Definition sample_profile : json :=
  JObj [("profileId", JNum 7); ("accountInfo", JObj [("name", JStr "Shop")])].

Definition nameless_profile : dict := [("countryCode", JStr "US")].

(** Two pages of Sponsored Brands campaigns; the first carries a
    [nextToken]. *)
Definition first_token_page : Response :=
  mkResponse 200 (Some (JObj [("campaigns", JArr forty); ("nextToken", JStr "t1")])) [].

Definition last_token_page : Response :=
  mkResponse 200 (Some (JObj [("campaigns", JArr forty)])) [].

(** A user, with a numeric and with a symbolic id. *)
Definition sample_user : json := JObj [("Id", JNum 5); ("Name", JStr "Ann")].

Definition symbolic_user : json := JObj [("Id", JStr "abc")].

Definition symbolic_account : json :=
  JObj [("Id", JStr "A-1"); ("ParentCustomerId", JNum 77); ("Name", JStr "Shop")].

(** A poll answer that reports success and names the download. *)
Definition success_doc (download_url : string) : json :=
  JObj [("ReportRequestStatus",
         JObj [("Status", JStr "Success"); ("ReportDownloadUrl", JStr download_url)])].

(** What the reporting service and the download host answer for one report:
    the job id, Success with the download, and a CSV of one record. *)
Definition one_report : list Reply :=
  [ json_reply 200 (JObj [("ReportRequestId", JStr "job-1")]);
    json_reply 200 (success_doc "https://download.example/r.csv");
    Answer (mkResponse 200 None (bytes_of "Clicks" ++ [x0a] ++ bytes_of "5")) ].

(** A Bing session: the token exchange, the submission, one pending poll, then
    the given poll answer and what follows it. *)
Definition report_script (answer : json) (rest : list Reply) : list Reply :=
  [ json_reply 200 (token_doc "tok");
    json_reply 200 (JObj [("ReportRequestId", JStr "job-1")]);
    json_reply 200 (status_doc "Pending");
    json_reply 200 answer ] ++ rest.

(** The state in which [get_performance_report] starts to poll. *)
Definition submitted (s0 : State) : State :=
  snd (Bing.submit_performance_report (lib := reference_lib) bing 42
         "CampaignPerformanceReportRequest" None None "Daily"
         (snd (print (LogInfo ("Submitting " ++ "CampaignPerformanceReportRequest"
                               ++ " for account " ++ str_of_Z 42 ++ "...")) s0))).

(** An environment with the credentials of both tools and reports switched
    off. *)
Definition sample_env : Env :=
  [ ("AMAZON_ADS_CLIENT_ID", "client"); ("AMAZON_ADS_CLIENT_SECRET", "secret");
    ("AMAZON_ADS_REFRESH_TOKEN", "refresh");
    ("BING_ADS_TENANT_ID", "tenant"); ("BING_ADS_CLIENT_ID", "client");
    ("BING_ADS_CLIENT_SECRET", "secret"); ("BING_ADS_REFRESH_TOKEN", "refresh");
    ("BING_ADS_DEVELOPER_TOKEN", "devtoken");
    ("INCLUDE_PERFORMANCE_REPORTS", "False") ].

Definition sample_traceback (e : exn) : string := "Traceback (most recent call last): ...".








(** * Verification *)

Section Proofs.
Context {lib : PyLib}.

Lemma bind_ok {A B} {m : M A} (f : A -> M B) {s a s'} :
  m s = (Ok a, s') -> bind m f s = f a s'.
Proof. unfold bind; intros ->; reflexivity. Qed.

Lemma bind_raise {A B} {m : M A} (f : A -> M B) {s e s'} :
  m s = (Raise e, s') -> bind m f s = (Raise e, s').
Proof. unfold bind; intros ->; reflexivity. Qed.

Lemma try_ok {A} {m : M A} (h : exn -> M A) {s a s'} :
  m s = (Ok a, s') -> try_except m h s = (Ok a, s').
Proof. unfold try_except; intros ->; reflexivity. Qed.

Lemma try_raise {A} {m : M A} (h : exn -> M A) {s e s'} :
  m s = (Raise e, s') -> try_except m h s = h e s'.
Proof. unfold try_except; intros ->; reflexivity. Qed.

Lemma get_headers_pure self p : pure_reader (Amazon._get_headers self p).
Proof.
  intros s. unfold Amazon._get_headers, bind, get_state, ret.
  destruct p as [p|]; [destruct (String.eqb p EmptyString)|]; eauto.
Qed.

Lemma ret_pure {A} (a : A) : pure_reader (ret a).
Proof. intros s; exists a; reflexivity. Qed.

Lemma calls_snoc t q : calls (t ++ [Sent q]) = S (calls t).
Proof. unfold calls. rewrite filter_app, length_app. simpl. lia. Qed.

Lemma advanced_refl s : advanced 0 (net s) s s.
Proof. unfold advanced, same_frame. repeat split; auto. Qed.

Lemma advanced_trans k1 k2 t1 t2 s s1 s2 :
  advanced k1 t1 s s1 -> advanced k2 t2 s1 s2 -> advanced (k1 + k2) t2 s s2.
Proof. unfold advanced, same_frame. intuition (congruence || lia). Qed.

Lemma request_answer q s r tl :
  net s = Answer r :: tl ->
  exists s1, request q s = (Ok r, s1) /\ advanced 1 tl s s1.
Proof.
  intros H. unfold request. simpl. rewrite H. eexists; split; [reflexivity|].
  unfold advanced, same_frame; simpl. rewrite calls_snoc. repeat split; auto; lia.
Qed.

Lemma request_trace q s : trace (snd (request q s)) = (trace s ++ [Sent q])%list.
Proof. unfold request. simpl. destruct (net s) as [|[|r] t]; reflexivity. Qed.

Lemma request_refused q s :
  match net s with [] | Refused :: _ => True | _ => False end ->
  exists s1, request q s = (Raise ConnectionError, s1) /\ advanced 1 (tl (net s)) s s1.
Proof.
  intros H. unfold request. simpl. destruct (net s) as [|[|r] t] eqn:E; try contradiction;
  (eexists; split; [reflexivity|]);
  unfold advanced, same_frame; simpl; rewrite calls_snoc; repeat split; auto; lia.
Qed.

Lemma http_ok_raise r s : http_error (status_code r) = false -> raise_for_status r s = (Ok tt, s).
Proof. unfold raise_for_status. intros ->. reflexivity. Qed.

Lemma http_err_raise r s : http_error (status_code r) = true ->
  raise_for_status r s = (Raise (HTTPError (status_code r)), s).
Proof. unfold raise_for_status. intros ->. reflexivity. Qed.

(** One step of symbolic execution: the head computation of a [bind] is
    resolved from a hypothesis or by evaluation. *)
Ltac run_head :=
  solve [ eassumption
        | apply http_ok_raise; eassumption
        | apply http_err_raise; eassumption
        | reflexivity ].

Ltac mstep :=
  first [ erewrite bind_ok by run_head
        | erewrite bind_raise by run_head ];
  cbv beta iota.

Lemma sd_page_inv f r :
  is_page (SponsoredDisplay f) r = true ->
  http_error (status_code r) = false /\
  exists xs, json_body r = Some (JArr xs) /\ items (SponsoredDisplay f) r = xs
             /\ more (SponsoredDisplay f) r = (100 <=? Z.of_nat (List.length xs)).
Proof.
  unfold is_page, items, more, page_items.
  destruct (http_error (status_code r)); [discriminate|].
  destruct (json_body r) as [[| | | |xs|]|]; try discriminate.
  intros _. split; [reflexivity|]. exists xs. auto.
Qed.

(** One iteration of the offset loop on a page. *)
Lemma sd_iteration self pid f fuel i acc s r tl :
  net s = Answer r :: tl ->
  is_page (SponsoredDisplay f) r = true ->
  exists s1, advanced 1 tl s s1 /\
    Amazon.sd_loop (S fuel) self pid f i acc s
    = if more (SponsoredDisplay f) r
      then Amazon.sd_loop fuel self pid f (i + 100)
             (acc ++ items (SponsoredDisplay f) r) s1
      else (Ok (acc ++ items (SponsoredDisplay f) r)%list, s1).
Proof.
  intros Hnet Hp.
  destruct (sd_page_inv _ _ Hp) as (Hst & xs & Hb & Hi & Hmore).
  destruct (get_headers_pure self (Some pid) s) as [h Hh].
  destruct (request_answer (mkRequest GET (Amazon.base_url self ++ "/sd/campaigns") h
             (Query (JObj [("stateFilter", JStr f); ("count", JNum 100);
                           ("startIndex", JNum i)]))) s r tl Hnet) as (s1 & Hreq & Hadv).
  exists s1. split; [exact Hadv|].
  cbn [Amazon.sd_loop]. unfold requests_get, response_json.
  do 3 mstep. rewrite Hb. mstep. rewrite Hmore, Hi.
  destruct xs as [|x xs'].
  - simpl. rewrite app_nil_r. reflexivity.
  - cbn [truthy negb]. unfold lift. cbn [py_iter py_len]. do 2 mstep.
    destruct (100 <=? Z.of_nat (List.length (x :: xs'))) eqn:E.
    + replace (Z.of_nat (List.length (x :: xs')) <? 100) with false; [reflexivity|].
      symmetry. apply Z.ltb_ge. apply Z.leb_le. exact E.
    + replace (Z.of_nat (List.length (x :: xs')) <? 100) with true; [reflexivity|].
      symmetry. apply Z.ltb_lt. apply Z.leb_gt. exact E.
Qed.

Lemma sd_loop_inner self pid f full : forall fuel i acc s tl,
  net s = (map Answer full ++ tl)%list ->
  forallb (inner_page (SponsoredDisplay f)) full = true ->
  exists s' i',
    Amazon.sd_loop (List.length full + fuel) self pid f i acc s
    = Amazon.sd_loop fuel self pid f i'
        (acc ++ flat_map (items (SponsoredDisplay f)) full) s'
    /\ advanced (List.length full) tl s s'.
Proof.
  induction full as [|r full IH]; intros fuel i acc s tl Hnet Hall.
  - exists s, i. simpl. rewrite app_nil_r. split; [reflexivity|].
    simpl in Hnet. rewrite <- Hnet. apply advanced_refl.
  - simpl in Hall. apply andb_prop in Hall as [Hr Hall].
    unfold inner_page in Hr. apply andb_prop in Hr as [Hp Hm].
    simpl in Hnet.
    destruct (sd_iteration self pid f (List.length full + fuel) i acc s r _ Hnet Hp)
      as (s1 & Hadv & Hit).
    rewrite Hm in Hit.
    destruct (IH fuel (i + 100) (acc ++ items (SponsoredDisplay f) r)%list s1 tl)
      as (s' & i' & Hloop & Hadv'); [apply Hadv | exact Hall |].
    exists s', i'. split.
    + change (List.length (r :: full) + fuel)%nat with (S (List.length full + fuel)).
      rewrite Hit, Hloop. cbn [flat_map]. rewrite app_assoc. reflexivity.
    + change (List.length (r :: full)) with (1 + List.length full)%nat.
      eapply advanced_trans; eauto.
Qed.


Lemma keyed_page_inv l r :
  is_keyed l = true ->
  is_page l r = true ->
  http_error (status_code r) = false /\
  exists d, json_body r = Some (JObj d)
    /\ (lookup (items_key l) d = None \/ lookup (items_key l) d = Some (JArr (items l r)))
    /\ (lookup (items_key l) d = None -> items l r = [])
    /\ more l r = match lookup (next_key l) d with Some t => truthy t | None => false end.
Proof.
  intros Hk. unfold is_page, items, more, page_items.
  destruct (http_error (status_code r)); [discriminate|].
  destruct l; try discriminate;
  (destruct (json_body r) as [[| | | | |d]|]; try discriminate;
   intros H; split; [reflexivity|]; exists d; split; [reflexivity|];
   destruct (lookup _ d) as [[| | | |xs|]|] eqn:E in H |- *; try discriminate;
   repeat split; auto; discriminate).
Qed.

Lemma status_400_error st : (st =? 400) = true -> http_error st = true.
Proof. intros H. apply Z.eqb_eq in H. subst. reflexivity. Qed.

(** One iteration of the token / cursor loop on a page. *)
Lemma keyed_iteration l u gh fuel payload acc s r tl :
  is_keyed l = true -> pure_reader gh ->
  net s = Answer r :: tl ->
  is_page l r = true ->
  exists s1 payload', advanced 1 tl s s1 /\
    Amazon.keyed_loop (S fuel) (stops_on_400 l) (items_key l) (next_key l) u gh payload acc s
    = if more l r
      then Amazon.keyed_loop fuel (stops_on_400 l) (items_key l) (next_key l) u gh
             payload' (acc ++ items l r) s1
      else (Ok (acc ++ items l r)%list, s1).
Proof.
  intros Hk Hgh Hnet Hp.
  destruct (keyed_page_inv _ _ Hk Hp) as (Hst & d & Hb & Hitems & Hnil & Hmore).
  destruct (Hgh s) as [h Hh].
  destruct (request_answer (mkRequest POST u h (Json (JObj payload))) s r tl Hnet)
    as (s1 & Hreq & Hadv).
  assert (H400 : (stops_on_400 l && (status_code r =? 400)) = false).
  { destruct (status_code r =? 400) eqn:E; [|apply andb_false_r].
    apply status_400_error in E. congruence. }
  destruct (lookup (next_key l) d) as [t|] eqn:Hn.
  - exists s1, (dict_set (next_key l) t payload). split; [exact Hadv|].
    cbn [Amazon.keyed_loop]. unfold requests_post, response_json.
    do 2 mstep. rewrite H400. mstep. rewrite Hb. mstep.
    unfold lift. cbn [py_contains py_getitem]. unfold has_key. rewrite Hn, Hmore.
    destruct Hitems as [Hi|Hi]; rewrite Hi.
    + rewrite (Hnil Hi), app_nil_r. repeat mstep.
      destruct (truthy t); reflexivity.
    + cbn [res_bind py_iter]. repeat mstep.
      destruct (truthy t); reflexivity.
  - exists s1, payload. split; [exact Hadv|].
    cbn [Amazon.keyed_loop]. unfold requests_post, response_json.
    do 2 mstep. rewrite H400. mstep. rewrite Hb. mstep.
    unfold lift. cbn [py_contains py_getitem]. unfold has_key. rewrite Hn, Hmore.
    destruct Hitems as [Hi|Hi]; rewrite Hi.
    + rewrite (Hnil Hi), app_nil_r. repeat mstep. reflexivity.
    + cbn [res_bind py_iter]. repeat mstep. reflexivity.
Qed.

Lemma keyed_loop_inner l u gh full : forall fuel payload acc s tl,
  is_keyed l = true -> pure_reader gh ->
  net s = (map Answer full ++ tl)%list ->
  forallb (inner_page l) full = true ->
  exists s' payload',
    Amazon.keyed_loop (List.length full + fuel) (stops_on_400 l) (items_key l) (next_key l)
      u gh payload acc s
    = Amazon.keyed_loop fuel (stops_on_400 l) (items_key l) (next_key l) u gh payload'
        (acc ++ flat_map (items l) full) s'
    /\ advanced (List.length full) tl s s'.
Proof.
  induction full as [|r full IH]; intros fuel payload acc s tl Hk Hgh Hnet Hall.
  - exists s, payload. simpl. rewrite app_nil_r. split; [reflexivity|].
    simpl in Hnet. rewrite <- Hnet. apply advanced_refl.
  - simpl in Hall. apply andb_prop in Hall as [Hr Hall].
    unfold inner_page in Hr. apply andb_prop in Hr as [Hp Hm].
    simpl in Hnet.
    destruct (keyed_iteration l u gh (List.length full + fuel) payload acc s r _ Hk Hgh Hnet Hp)
      as (s1 & p1 & Hadv & Hit).
    rewrite Hm in Hit.
    destruct (IH fuel p1 (acc ++ items l r)%list s1 tl Hk Hgh)
      as (s' & p' & Hloop & Hadv'); [apply Hadv | exact Hall |].
    exists s', p'. split.
    + change (List.length (r :: full) + fuel)%nat with (S (List.length full + fuel)).
      rewrite Hit, Hloop. cbn [flat_map]. rewrite app_assoc. reflexivity.
    + change (List.length (r :: full)) with (1 + List.length full)%nat.
      eapply advanced_trans; eauto.
Qed.

(** The call after the pages fails: the loop raises. *)
Lemma sd_iteration_fails self pid f fuel i acc s :
  call_fails (SponsoredDisplay f) (net s) = true ->
  exists e s1, advanced 1 (tl (net s)) s s1 /\
    Amazon.sd_loop (S fuel) self pid f i acc s = (Raise e, s1).
Proof.
  intros Hf.
  destruct (get_headers_pure self (Some pid) s) as [h Hh].
  set (q := mkRequest GET (Amazon.base_url self ++ "/sd/campaigns") h
             (Query (JObj [("stateFilter", JStr f); ("count", JNum 100);
                           ("startIndex", JNum i)]))).
  destruct (net s) as [|[|r] t] eqn:E.
  - destruct (request_refused q s) as (s1 & Hreq & Hadv); [rewrite E; exact I|].
    exists ConnectionError, s1. rewrite E in Hadv. split; [exact Hadv|].
    cbn [Amazon.sd_loop]. unfold requests_get. do 2 mstep. reflexivity.
  - destruct (request_refused q s) as (s1 & Hreq & Hadv); [rewrite E; exact I|].
    exists ConnectionError, s1. rewrite E in Hadv. split; [exact Hadv|].
    cbn [Amazon.sd_loop]. unfold requests_get. do 2 mstep. reflexivity.
  - destruct (request_answer q s r t E) as (s1 & Hreq & Hadv).
    simpl in Hf. rewrite andb_true_r in Hf.
    exists (HTTPError (status_code r)), s1. split; [exact Hadv|].
    cbn [Amazon.sd_loop]. unfold requests_get. do 3 mstep. reflexivity.
Qed.

Lemma keyed_iteration_fails l u gh fuel payload acc s :
  is_keyed l = true -> pure_reader gh ->
  call_fails l (net s) = true ->
  exists e s1, advanced 1 (tl (net s)) s s1 /\
    Amazon.keyed_loop (S fuel) (stops_on_400 l) (items_key l) (next_key l) u gh payload acc s
    = (Raise e, s1).
Proof.
  intros Hk Hgh Hf.
  destruct (Hgh s) as [h Hh].
  set (q := mkRequest POST u h (Json (JObj payload))).
  destruct (net s) as [|[|r] t] eqn:E.
  - destruct (request_refused q s) as (s1 & Hreq & Hadv); [rewrite E; exact I|].
    exists ConnectionError, s1. rewrite E in Hadv. split; [exact Hadv|].
    cbn [Amazon.keyed_loop]. unfold requests_post. do 2 mstep. reflexivity.
  - destruct (request_refused q s) as (s1 & Hreq & Hadv); [rewrite E; exact I|].
    exists ConnectionError, s1. rewrite E in Hadv. split; [exact Hadv|].
    cbn [Amazon.keyed_loop]. unfold requests_post. do 2 mstep. reflexivity.
  - destruct (request_answer q s r t E) as (s1 & Hreq & Hadv).
    simpl in Hf. apply andb_prop in Hf as [Herr H4].
    exists (HTTPError (status_code r)), s1. split; [exact Hadv|].
    cbn [Amazon.keyed_loop]. unfold requests_post. do 2 mstep.
    assert (H400 : (stops_on_400 l && (status_code r =? 400)) = false).
    { destruct l; try reflexivity. simpl. apply negb_true_iff in H4. exact H4. }
    rewrite H400. mstep. reflexivity.
Qed.

(** The attribution report's answer has status 400: the loop ends normally. *)
Lemma keyed_iteration_400 l u gh fuel payload acc s r tl :
  stops_on_400 l = true -> pure_reader gh ->
  net s = Answer r :: tl -> status_code r = 400 ->
  exists s1, advanced 1 tl s s1 /\
    Amazon.keyed_loop (S fuel) (stops_on_400 l) (items_key l) (next_key l) u gh payload acc s
    = (Ok acc, s1).
Proof.
  intros Hs Hgh Hnet H4.
  destruct (Hgh s) as [h Hh].
  destruct (request_answer (mkRequest POST u h (Json (JObj payload))) s r tl Hnet)
    as (s1 & Hreq & Hadv).
  exists s1. split; [exact Hadv|].
  cbn [Amazon.keyed_loop]. unfold requests_post. do 2 mstep.
  rewrite Hs, H4. reflexivity.
Qed.


Lemma media_headers_pure self pid mt : pure_reader (Amazon.media_headers self pid mt).
Proof.
  intros s. unfold Amazon.media_headers.
  destruct (get_headers_pure self (Some pid) s) as [h Hh].
  eexists. mstep. reflexivity.
Qed.

Lemma fetch_shape l self pid s :
  exists loop, loop_of l self pid loop /\
    fetch l self pid s
    = try_except (fun s => loop (loop_bound s) s)
        (fun e => print (LogError (error_context l) e) ;; ret []) s.
Proof.
  destruct l as [f|f|f|tz].
  - eexists. split; reflexivity.
  - destruct (media_headers_pure self pid "application/vnd.sbcampaignresource.v4+json" s)
      as [h Hh].
    eexists. split.
    + cbn [loop_of]. exists (Amazon.base_url self ++ "/sb/v4/campaigns/list"), (ret h),
        (Amazon.list_payload f). split; [apply ret_pure | reflexivity].
    + cbn [fetch]. unfold Amazon.get_sponsored_brands_campaigns. mstep. reflexivity.
  - destruct (media_headers_pure self pid "application/vnd.spCampaign.v3+json" s)
      as [h Hh].
    eexists. split.
    + cbn [loop_of]. exists (Amazon.base_url self ++ "/sp/campaigns/list"), (ret h),
        (Amazon.list_payload f). split; [apply ret_pure | reflexivity].
    + cbn [fetch]. unfold Amazon.get_sponsored_products_campaigns. mstep. reflexivity.
  - eexists. split.
    + cbn [loop_of]. do 3 eexists. split; [apply (get_headers_pure self (Some pid)) | reflexivity].
    + reflexivity.
Qed.

(** The loop on a script that starts with inner pages. *)
Lemma loop_inner l self pid loop full s tl fuel :
  loop_of l self pid loop ->
  net s = (map Answer full ++ tl)%list ->
  forallb (inner_page l) full = true ->
  exists (rest_loop : nat -> M (list json)) s',
    loop (List.length full + S fuel)%nat s = rest_loop (S fuel) s'
    /\ advanced (List.length full) tl s s'
    /\ (forall r tl', net s' = Answer r :: tl' -> is_page l r = true ->
          more l r = false ->
          exists s1, advanced 1 tl' s' s1 /\
            rest_loop (S fuel) s' = (Ok (flat_map (items l) full ++ items l r)%list, s1))
    /\ (call_fails l (net s') = true ->
          exists e s1, advanced 1 (List.tl (net s')) s' s1 /\
            rest_loop (S fuel) s' = (Raise e, s1))
    /\ (forall r tl', stops_on_400 l = true -> net s' = Answer r :: tl' ->
          status_code r = 400 ->
          exists s1, advanced 1 tl' s' s1 /\
            rest_loop (S fuel) s' = (Ok (flat_map (items l) full), s1)).
Proof.
  intros Hl Hnet Hall. destruct l as [f|f|f|tz]; cbn [loop_of] in Hl.
  - subst loop.
    destruct (sd_loop_inner self pid f full (S fuel) 0 [] s tl Hnet Hall)
      as (s' & i' & Heq & Hadv).
    exists (fun n => Amazon.sd_loop n self pid f i' ([] ++ flat_map (items (SponsoredDisplay f)) full)), s'.
    cbn [app]. split; [exact Heq|]. split; [exact Hadv|]. split; [|split].
    + intros r tl' Hn Hp Hm.
      destruct (sd_iteration self pid f fuel i' (flat_map (items (SponsoredDisplay f)) full)
                  s' r tl' Hn Hp) as (s1 & Ha & Hit).
      rewrite Hm in Hit. eauto.
    + intros Hf. apply sd_iteration_fails. exact Hf.
    + intros r tl' Hs. discriminate.
  - destruct Hl as (u & gh & payload & Hgh & ->).
    destruct (keyed_loop_inner (SponsoredBrands f) u gh full (S fuel) payload [] s tl
                eq_refl Hgh Hnet Hall) as (s' & p' & Heq & Hadv).
    eexists (fun n => Amazon.keyed_loop n _ _ _ u gh p' _), s'.
    cbn [app] in *. split; [exact Heq|]. split; [exact Hadv|]. split; [|split].
    + intros r tl' Hn Hp Hm.
      destruct (keyed_iteration (SponsoredBrands f) u gh fuel p' (flat_map (items (SponsoredBrands f)) full)
                  s' r tl' eq_refl Hgh Hn Hp) as (s1 & p1 & Ha & Hit).
      rewrite Hm in Hit. eauto.
    + intros Hf. apply (keyed_iteration_fails (SponsoredBrands f)); auto.
    + intros r tl' Hs. discriminate.
  - destruct Hl as (u & gh & payload & Hgh & ->).
    destruct (keyed_loop_inner (SponsoredProducts f) u gh full (S fuel) payload [] s tl
                eq_refl Hgh Hnet Hall) as (s' & p' & Heq & Hadv).
    eexists (fun n => Amazon.keyed_loop n _ _ _ u gh p' _), s'.
    cbn [app] in *. split; [exact Heq|]. split; [exact Hadv|]. split; [|split].
    + intros r tl' Hn Hp Hm.
      destruct (keyed_iteration (SponsoredProducts f) u gh fuel p' (flat_map (items (SponsoredProducts f)) full)
                  s' r tl' eq_refl Hgh Hn Hp) as (s1 & p1 & Ha & Hit).
      rewrite Hm in Hit. eauto.
    + intros Hf. apply (keyed_iteration_fails (SponsoredProducts f)); auto.
    + intros r tl' Hs. discriminate.
  - destruct Hl as (u & gh & payload & Hgh & ->).
    destruct (keyed_loop_inner (AttributionReport tz) u gh full (S fuel) payload [] s tl
                eq_refl Hgh Hnet Hall) as (s' & p' & Heq & Hadv).
    eexists (fun n => Amazon.keyed_loop n _ _ _ u gh p' _), s'.
    cbn [app] in *. split; [exact Heq|]. split; [exact Hadv|]. split; [|split].
    + intros r tl' Hn Hp Hm.
      destruct (keyed_iteration (AttributionReport tz) u gh fuel p' (flat_map (items (AttributionReport tz)) full)
                  s' r tl' eq_refl Hgh Hn Hp) as (s1 & p1 & Ha & Hit).
      rewrite Hm in Hit. eauto.
    + intros Hf. apply (keyed_iteration_fails (AttributionReport tz)); auto.
    + intros r tl' Hs Hn H4.
      apply (keyed_iteration_400 (AttributionReport tz) u gh fuel p' _ s' r tl'); auto.
Qed.

Lemma loop_bound_app s full tl :
  net s = (map Answer full ++ tl)%list ->
  loop_bound s = (List.length full + S (List.length tl))%nat.
Proof.
  intros H. unfold loop_bound. rewrite H, length_app, length_map. lia.
Qed.

Lemma print_spec l s :
  exists s', print l s = (Ok tt, s') /\ net s' = net s /\ trace s' = trace s
             /\ stderr s' = (stderr s ++ [l])%list /\ same_frame s s'.
Proof. eexists. split; [reflexivity|]. unfold same_frame. simpl. auto 10. Qed.

(** C1: for each of the four paginated fetches, on a script that starts with
    any number of pages meeting the continuation condition followed by a page
    that does not (an empty or short page for the offset variant, a page
    without a non-empty [nextToken] / [cursorId] for the token and cursor
    variants), the fetch returns the concatenation of the item lists of these
    pages in order of arrival, issues exactly one call per page, leaves the
    rest of the script untouched and prints nothing. *)
Theorem paginated_fetch_concatenates_pages :
  forall (l : Listing) (self : Amazon.AmazonAdsFetcher) (profile_id : string)
         (s : State) (full : list Response) (last : Response) (rest : list Reply),
    net s = (map Answer full ++ Answer last :: rest)%list ->
    forallb (inner_page l) full = true ->
    final_page l last = true ->
    exists s',
      fetch l self profile_id s = (Ok (flat_map (items l) (full ++ [last])), s')
      /\ net s' = rest
      /\ calls (trace s') = (calls (trace s) + List.length full + 1)%nat
      /\ stderr s' = stderr s.
Proof.
  intros l self pid s full last rest Hnet Hall Hlast.
  destruct (fetch_shape l self pid s) as (loop & Hl & Hfetch).
  destruct (loop_inner l self pid loop full s (Answer last :: rest) (S (List.length rest)) Hl Hnet Hall)
    as (k & s1 & Heq & Hadv & Hfin & _).
  unfold final_page in Hlast. apply andb_prop in Hlast as [Hp Hm].
  apply negb_true_iff in Hm.
  destruct (Hfin last rest (proj1 Hadv) Hp Hm) as (s2 & Hadv2 & Hk).
  exists s2. split.
  - rewrite Hfetch. erewrite try_ok; [reflexivity|].
    rewrite (loop_bound_app s full (Answer last :: rest) Hnet). cbn [List.length].
    rewrite Heq, Hk. rewrite flat_map_app. cbn [flat_map]. rewrite app_nil_r. reflexivity.
  - pose proof (advanced_trans _ _ _ _ _ _ _ Hadv Hadv2) as (H1 & H2 & H3 & _).
    repeat split; auto. lia.
Qed.


(** C2 (amended): when the call for a page fails -- no response, or an error
    status other than the 400 the attribution report stops on -- after any
    number of pages fetched successfully, the fetch issues no further call,
    prints one error line, and returns normally with the EMPTY list: the
    items accumulated from the earlier pages are dropped. *)
Theorem failed_page_request_returns_empty :
  forall (l : Listing) (self : Amazon.AmazonAdsFetcher) (profile_id : string)
         (s : State) (full : list Response) (rest : list Reply),
    net s = (map Answer full ++ rest)%list ->
    forallb (inner_page l) full = true ->
    call_fails l rest = true ->
    exists e s',
      fetch l self profile_id s = (Ok [], s')
      /\ net s' = List.tl rest
      /\ calls (trace s') = (calls (trace s) + List.length full + 1)%nat
      /\ stderr s' = (stderr s ++ [LogError (error_context l) e])%list.
Proof.
  intros l self pid s full rest Hnet Hall Hfail.
  destruct (fetch_shape l self pid s) as (loop & Hl & Hfetch).
  destruct (loop_inner l self pid loop full s rest (List.length rest) Hl Hnet Hall)
    as (k & s1 & Heq & Hadv & _ & Hf & _).
  rewrite (proj1 Hadv) in Hf.
  destruct (Hf Hfail) as (e & s2 & Hadv2 & Hk).
  destruct (print_spec (LogError (error_context l) e) s2) as (s3 & Hp & Hn3 & Ht3 & He3 & _).
  exists e, s3. split.
  - rewrite Hfetch. erewrite try_raise.
    + mstep. reflexivity.
    + cbv beta. rewrite (loop_bound_app s full rest Hnet). rewrite Heq. exact Hk.
  - pose proof (advanced_trans _ _ _ _ _ _ _ Hadv Hadv2) as (H1 & H2 & H3 & _).
    rewrite Hn3, Ht3, He3, H1, H2, H3. repeat split; auto. lia.
Qed.

(** C9: in the attribution-report fetch an HTTP 400 answer ends the loop
    without an error: no further call, nothing printed, and the items of all
    previous pages are returned normally. *)
Theorem attribution_400_ends_fetch :
  forall (self : Amazon.AmazonAdsFetcher) (profile_id : string) (timezone : json)
         (s : State) (full : list Response) (r : Response) (rest : list Reply),
    net s = (map Answer full ++ Answer r :: rest)%list ->
    forallb (inner_page (AttributionReport timezone)) full = true ->
    status_code r = 400 ->
    exists s',
      Amazon.get_attribution_performance_campaign self profile_id timezone s
      = (Ok (flat_map (items (AttributionReport timezone)) full), s')
      /\ net s' = rest
      /\ calls (trace s') = (calls (trace s) + List.length full + 1)%nat
      /\ stderr s' = stderr s.
Proof.
  intros self pid tz s full r rest Hnet Hall H4.
  set (l := AttributionReport tz).
  destruct (fetch_shape l self pid s) as (loop & Hl & Hfetch).
  destruct (loop_inner l self pid loop full s (Answer r :: rest) (S (List.length rest))
              Hl Hnet Hall) as (k & s1 & Heq & Hadv & _ & _ & H400).
  destruct (H400 r rest eq_refl (proj1 Hadv) H4) as (s2 & Hadv2 & Hk).
  exists s2. split.
  - change (Amazon.get_attribution_performance_campaign self pid tz s)
      with (fetch l self pid s).
    rewrite Hfetch. erewrite try_ok; [reflexivity|].
    cbv beta. rewrite (loop_bound_app s full (Answer r :: rest) Hnet). cbn [List.length].
    rewrite Heq. exact Hk.
  - pose proof (advanced_trans _ _ _ _ _ _ _ Hadv Hadv2) as (H1 & H2 & H3 & _).
    repeat split; auto. lia.
Qed.

(** C10: a region code outside NA / EU / FE does not make the constructor
    fail; it selects the NA base URL.  Each known code selects its own URL. *)
Theorem unknown_region_selects_NA :
  forall (client_id client_secret refresh_token region : string),
    (region <> "NA" -> region <> "EU" -> region <> "FE" ->
     Amazon.base_url (Amazon.__init__ client_id client_secret refresh_token region)
     = "https://advertising-api.amazon.com")
    /\ Amazon.base_url (Amazon.__init__ client_id client_secret refresh_token "NA")
       = "https://advertising-api.amazon.com"
    /\ Amazon.base_url (Amazon.__init__ client_id client_secret refresh_token "EU")
       = "https://advertising-api-eu.amazon.com"
    /\ Amazon.base_url (Amazon.__init__ client_id client_secret refresh_token "FE")
       = "https://advertising-api-fe.amazon.com".
Proof.
  intros cid cs rt region. split; [|repeat split].
  intros HNA HEU HFE. unfold Amazon.__init__. cbn [Amazon.base_url].
  unfold Amazon.REGION_URLS. cbn [Amazon.region_get].
  apply String.eqb_neq in HNA, HEU, HFE. rewrite HNA, HEU, HFE. reflexivity.
Qed.

(** Token acquisition of the Bing extractor raises when the token endpoint
    answers with an error status, and when the answer has no [access_token]. *)
Lemma get_access_token_raises :
  forall (self : Bing.BingAdsExtractor) (s : State) (r : Response) (rest : list Reply),
    truthy (access_token s) = false ->
    net s = Answer r :: rest ->
    (http_error (status_code r) = true ->
     fst (Bing.get_access_token self s) = Raise (HTTPError (status_code r)))
    /\ (forall d, http_error (status_code r) = false -> json_body r = Some (JObj d) ->
        lookup "access_token" d = None ->
        fst (Bing.get_access_token self s) = Raise (KeyError "access_token")).
Proof.
  intros self s r rest Htok Hnet.
  unfold Bing.get_access_token.
  split.
  - intros Herr. unfold bind at 1. cbn [get_state]. rewrite Htok.
    unfold requests_post.
    destruct (request_answer (mkRequest POST (Bing.token_url self) []
                (Form (JObj [("grant_type", JStr "refresh_token");
                             ("client_id", JStr (Bing.client_id self));
                             ("client_secret", JStr (Bing.client_secret self));
                             ("refresh_token", JStr (Bing.refresh_token self));
                             ("scope", JStr "https://ads.microsoft.com/msads.manage offline_access")])))
                s r rest Hnet) as (s1 & Hreq & _).
    do 2 mstep. reflexivity.
  - intros d Hok Hb Hl. unfold bind at 1. cbn [get_state]. rewrite Htok.
    unfold requests_post.
    destruct (request_answer (mkRequest POST (Bing.token_url self) []
                (Form (JObj [("grant_type", JStr "refresh_token");
                             ("client_id", JStr (Bing.client_id self));
                             ("client_secret", JStr (Bing.client_secret self));
                             ("refresh_token", JStr (Bing.refresh_token self));
                             ("scope", JStr "https://ads.microsoft.com/msads.manage offline_access")])))
                s r rest Hnet) as (s1 & Hreq & _).
    do 2 mstep. unfold response_json. rewrite Hb. mstep.
    unfold lift. cbn [py_getitem]. rewrite Hl. mstep. reflexivity.
Qed.

(** Text never starts with the gzip magic number: 8B cannot follow 1F in
    UTF-8. *)
Lemma text_has_no_gzip_magic (data : list byte) (text : list N) :
  decode_utf8_sig data = Ok text -> has_gzip_magic data = false.
Proof.
  intros H. destruct (has_gzip_magic data) eqn:E; [|reflexivity].
  destruct data as [|b0 [|b1 rest]]; try discriminate.
  simpl in E. apply andb_prop in E as [E0 E1].
  apply Byte.byte_dec_bl in E0, E1. subst.
  unfold decode_utf8_sig in H. simpl in H. discriminate.
Qed.

(** C8: a download whose payload is the gzip compression of a CSV text and
    one whose payload is the raw bytes of the same text give the same result:
    the records the CSV reader makes of the text decoded as UTF-8 without its
    byte-order mark.  What is used of gzip: decompression inverts compression;
    data without the magic number is rejected with [BadGzipFile], empty data
    decompressing to nothing. *)
Theorem download_report_gzip_or_plain :
  forall (compress : list byte -> list byte),
    (forall data, gzip_decompress (compress data) = inr data) ->
    (forall data, has_gzip_magic data = false ->
       gzip_decompress data = match data with [] => inr [] | _ => inl BadGzipFile end) ->
    forall (csv : list byte) (text : list N) (download_url : json) (status : Z)
           (doc : option json) (s : State) (rest : list Reply),
      decode_utf8_sig csv = Ok text ->
      let zipped := set_net (Answer (mkResponse status doc (compress csv)) :: rest) s in
      let plain := set_net (Answer (mkResponse status doc csv) :: rest) s in
      fst (Bing.download_report download_url zipped)
      = fst (Bing.download_report download_url plain)
      /\ (forall u, download_url = JStr u -> http_error status = false ->
          fst (Bing.download_report download_url zipped) = of_sum (csv_DictReader text)
          /\ fst (Bing.download_report download_url plain) = of_sum (csv_DictReader text)).
Proof.
  intros compress Hround Hbad csv text url status doc s rest Htext zipped plain.
  assert (Hplain : forall u, http_error status = false ->
            fst (Bing.download_report (JStr u) plain) = of_sum (csv_DictReader text)).
  { intros u Hok. unfold Bing.download_report, Bing.get_url, requests_get.
    destruct (request_answer (mkRequest GET u [] NoBody) plain _ rest eq_refl)
      as (s1 & Hreq & _).
    mstep. rewrite (bind_ok _ (http_ok_raise (mkResponse status doc csv) s1 Hok)). cbn [content].
    pose proof (Hbad csv (text_has_no_gzip_magic csv text Htext)) as Hg.
    destruct csv as [|b csv'].
    - assert (Ht : try_except
               (decompressed <- lift (of_sum (gzip_decompress []));; lift (decode_utf8_sig decompressed))
               (fun e => if is_OSError e then lift (decode_utf8_sig []) else raise e) s1
               = (Ok text, s1)).
      { unfold try_except, bind, lift. rewrite Hg. cbn [of_sum]. rewrite Htext. reflexivity. }
      rewrite (bind_ok _ Ht). reflexivity.
    - assert (Ht : try_except
               (decompressed <- lift (of_sum (gzip_decompress (b :: csv')));; lift (decode_utf8_sig decompressed))
               (fun e => if is_OSError e then lift (decode_utf8_sig (b :: csv')) else raise e) s1
               = (Ok text, s1)).
      { unfold try_except, bind, lift. rewrite Hg. cbn [of_sum is_OSError]. rewrite Htext. reflexivity. }
      rewrite (bind_ok _ Ht). reflexivity. }
  assert (Hzip : forall u, http_error status = false ->
            fst (Bing.download_report (JStr u) zipped) = of_sum (csv_DictReader text)).
  { intros u Hok. unfold Bing.download_report, Bing.get_url, requests_get.
    destruct (request_answer (mkRequest GET u [] NoBody) zipped _ rest eq_refl)
      as (s1 & Hreq & _).
    mstep. rewrite (bind_ok _ (http_ok_raise (mkResponse status doc (compress csv)) s1 Hok)). cbn [content].
    assert (Ht : try_except
               (decompressed <- lift (of_sum (gzip_decompress (compress csv)));; lift (decode_utf8_sig decompressed))
               (fun e => if is_OSError e then lift (decode_utf8_sig (compress csv)) else raise e) s1
               = (Ok text, s1)).
    { unfold try_except, bind, lift. rewrite Hround. cbn [of_sum]. rewrite Htext. reflexivity. }
    rewrite (bind_ok _ Ht). reflexivity. }
  split.
  - destruct url as [| | |u| |]; try reflexivity.
    destruct (http_error status) eqn:Hst.
    + unfold Bing.download_report, Bing.get_url, requests_get.
      destruct (request_answer (mkRequest GET u [] NoBody) plain _ rest eq_refl)
        as (s1 & Hreq & _).
      destruct (request_answer (mkRequest GET u [] NoBody) zipped _ rest eq_refl)
        as (s2 & Hreq2 & _).
      rewrite (bind_ok _ Hreq), (bind_ok _ Hreq2).
      rewrite (bind_raise _ (http_err_raise (mkResponse status doc csv) s1 Hst)).
      rewrite (bind_raise _ (http_err_raise (mkResponse status doc (compress csv)) s2 Hst)). reflexivity.
    + rewrite (Hzip u eq_refl), (Hplain u eq_refl). reflexivity.
  - intros u -> Hok. split; [apply Hzip | apply Hplain]; exact Hok.
Qed.


(** ** The report poll loop *)

Lemma get_access_token_cached self s :
  truthy (access_token s) = true ->
  Bing.get_access_token self s = (Ok (access_token s), s).
Proof.
  intros H. unfold Bing.get_access_token, bind, get_state. rewrite H. reflexivity.
Qed.

Lemma auth_headers_cached self a c s :
  truthy (access_token s) = true ->
  exists h, Bing._get_auth_headers self a c s = (Ok h, s).
Proof.
  intros H. unfold Bing._get_auth_headers.
  eexists. rewrite (bind_ok _ (get_access_token_cached self s H)). reflexivity.
Qed.

Lemma bearer_headers_cached self s :
  truthy (access_token s) = true ->
  Bing._get_auth_headers self None None s = (Ok (bearer_headers self (access_token s)), s).
Proof.
  intros H. unfold Bing._get_auth_headers.
  rewrite (bind_ok _ (get_access_token_cached self s H)). reflexivity.
Qed.

Lemma pending_inv r :
  pending r = true ->
  http_error (status_code r) = false /\
  exists d rrs st, json_body r = Some (JObj d)
    /\ py_get (JObj d) "ReportRequestStatus" (JObj []) = Ok rrs
    /\ py_get rrs "Status" JNull = Ok st
    /\ is_str "Success" st = false /\ is_str "Error" st = false.
Proof.
  unfold pending, poll_status.
  destruct (http_error (status_code r)); [discriminate|].
  destruct (json_body r) as [[| | | | |d]|]; try discriminate.
  intros H. split; [reflexivity|].
  cbn [py_get].
  destruct (lookup "ReportRequestStatus" d) as [[| | | | |rrs]|] eqn:E; try discriminate.
  - exists d, (JObj rrs). eexists. split; [reflexivity|]. rewrite E.
    split; [reflexivity|]. cbn [py_get]. split; [reflexivity|].
    apply andb_prop in H as [H1 H2]. apply negb_true_iff in H1, H2. auto.
  - exists d, (JObj []), JNull. rewrite E. repeat split; reflexivity.
Qed.

Lemma calls_app t1 t2 : calls (t1 ++ t2) = (calls t1 + calls t2)%nat.
Proof. unfold calls. rewrite filter_app, length_app. reflexivity. Qed.

Lemma sleeps_app t1 t2 : sleeps (t1 ++ t2) = (sleeps t1 + sleeps t2)%nat.
Proof. unfold sleeps. rewrite filter_app, length_app. reflexivity. Qed.

Lemma polled_refl s : polled 0 (net s) s s.
Proof. unfold polled. repeat split; auto. Qed.

Lemma polled_trans k1 k2 t1 t2 s s1 s2 :
  polled k1 t1 s s1 -> polled k2 t2 s1 s2 -> polled (k1 + k2) t2 s s2.
Proof. unfold polled. intuition (congruence || lia). Qed.

Lemma request_sleeps q s r s' :
  request q s = (r, s') -> sleeps (trace s') = sleeps (trace s).
Proof.
  unfold request. cbn [emit net trace set_net].
  destruct (net s) as [|[|x] t]; intros H; inversion H; subst; cbn [trace set_net emit];
    rewrite sleeps_app; cbn; lia.
Qed.

(** One turn of the poll loop on a pending answer, with budget left: the
    poll, then the sleep of ten seconds. *)
Lemma poll_iteration self rid start max_wait fuel s r tl :
  truthy (access_token s) = true ->
  net s = Answer r :: tl ->
  pending r = true ->
  float_lt_int (clock s (ticks s) - start)%float max_wait = true ->
  exists s1, polled 1 tl s s1
    /\ trace s1 = (trace s ++ [Sent (poll_request self (access_token s) rid); Slept 10])%list
    /\ Bing.poll_loop (S fuel) self rid start max_wait s
       = Bing.poll_loop fuel self rid start max_wait s1.
Proof.
  intros Htok Hnet Hpend Hbud.
  destruct (pending_inv r Hpend) as (Hst & d & rrs & st & Hb & Hrrs & Hstatus & HnS & HnE).
  set (s0 := snd (time_time s)).
  assert (Htime : time_time s = (Ok (clock s (ticks s)), s0)) by reflexivity.
  assert (Htok0 : truthy (access_token s0) = true) by exact Htok.
  pose proof (bearer_headers_cached self s0 Htok0) as Hh.
  change (access_token s0) with (access_token s) in Hh.
  destruct (request_answer (poll_request self (access_token s) rid) s0 r tl Hnet)
    as (s1 & Hreq & Hadv).
  assert (Hpoll : Bing.poll_report_status self rid s0 = (Ok (JObj d), s1)).
  { unfold Bing.poll_report_status, requests_post, response_json.
    rewrite (bind_ok _ Hh). fold (poll_request self (access_token s) rid).
    do 2 mstep. rewrite Hb. reflexivity. }
  assert (Htr : trace s1 = (trace s ++ [Sent (poll_request self (access_token s) rid)])%list).
  { pose proof (request_trace (poll_request self (access_token s) rid) s0) as E.
    rewrite Hreq in E. exact E. }
  eexists. split; [|split].
  3:{ cbn [Bing.poll_loop]. mstep. rewrite Hbud. mstep.
      unfold lift. rewrite Hrrs. mstep. rewrite Hstatus. do 2 mstep.
      rewrite HnS, HnE. mstep. reflexivity. }
  - destruct Hadv as (H1 & H2 & H3 & H4 & H5 & H6 & _).
    assert (Hs : sleeps (trace s1) = sleeps (trace s)).
    { rewrite (request_sleeps _ _ _ _ Hreq). reflexivity. }
    unfold polled, print, time_sleep, emit;
      cbn [net trace ticks clock access_token stderr today now_iso].
    rewrite calls_app, sleeps_app, H1, H2, Hs, H4, H5, H6. cbn.
    repeat split; auto; lia.
  - unfold print, time_sleep, emit; cbn [snd trace].
    rewrite Htr, <- app_assoc. reflexivity.
Qed.

Lemma poll_loop_pending self rid start max_wait polls : forall fuel s tl,
  truthy (access_token s) = true ->
  net s = (map Answer polls ++ tl)%list ->
  forallb pending polls = true ->
  (forall j, (j < List.length polls)%nat ->
     float_lt_int (clock s (ticks s + j) - start)%float max_wait = true) ->
  exists s', polled (List.length polls) tl s s'
    /\ trace s' = (trace s ++ waiting (poll_request self (access_token s) rid)
                                (List.length polls))%list
    /\ Bing.poll_loop (List.length polls + fuel) self rid start max_wait s
       = Bing.poll_loop fuel self rid start max_wait s'.
Proof.
  induction polls as [|r polls IH]; intros fuel s tl Htok Hnet Hall Hbud.
  - exists s. split; [|split; [|reflexivity]].
    + simpl in Hnet. rewrite <- Hnet. apply polled_refl.
    + cbn [List.length waiting]. rewrite app_nil_r. reflexivity.
  - simpl in Hall. apply andb_prop in Hall as [Hr Hall]. simpl in Hnet.
    assert (H0 : float_lt_int (clock s (ticks s) - start)%float max_wait = true).
    { rewrite <- (Nat.add_0_r (ticks s)) at 1. apply Hbud. simpl. lia. }
    destruct (poll_iteration self rid start max_wait (List.length polls + fuel) s r _
                Htok Hnet Hr H0) as (s1 & Hp1 & Htr1 & Heq1).
    pose proof Hp1 as (Hn1 & _ & _ & Ht1 & Hc1 & Ha1).
    destruct (IH fuel s1 tl) as (s' & Hp & Htr & Heq); auto.
    { rewrite Ha1. exact Htok. }
    { intros j Hj. rewrite Hc1, Ht1.
      replace (ticks s + 1 + j)%nat with (ticks s + S j)%nat by lia.
      apply Hbud. simpl. lia. }
    exists s'. split; [|split].
    + change (List.length (r :: polls)) with (1 + List.length polls)%nat.
      eapply polled_trans; eauto.
    + rewrite Htr, Htr1, Ha1, <- app_assoc. reflexivity.
    + change (List.length (r :: polls) + fuel)%nat with (S (List.length polls + fuel)).
      rewrite Heq1. exact Heq.
Qed.

Lemma poll_loop_expired self rid start max_wait fuel s :
  float_lt_int (clock s (ticks s) - start)%float max_wait = false ->
  Bing.poll_loop (S fuel) self rid start max_wait s
  = (Raise (TimeoutError max_wait), snd (time_time s)).
Proof.
  intros H. cbn [Bing.poll_loop]. unfold bind at 1. cbn [time_time]. rewrite H. reflexivity.
Qed.

Lemma digits2_size p : digits2_pos p = Pos.size p.
Proof. induction p; simpl; congruence. Qed.

(** The mantissa of a double is below 2^53, and at least 2^52 unless the
    exponent is the least one. *)
Lemma canonical_bounds m e :
  canonical_mantissa prec emax m e = true ->
  Z.pos m < 2 ^ 53 /\ SpecFloat.emin prec emax <= e
  /\ (SpecFloat.emin prec emax < e -> 2 ^ 52 <= Z.pos m).
Proof.
  unfold canonical_mantissa, fexp, SpecFloat.emin, prec, emax. intros H.
  apply Z.eqb_eq in H. rewrite digits2_size in H.
  pose proof (Pos.size_gt m) as Hgt. pose proof (Pos.size_le m) as Hle.
  assert (Hs : Z.pos (Pos.size m) <= 53) by lia.
  assert (G : Z.pos m < 2 ^ Z.pos (Pos.size m)).
  { change 2 with (Z.pos 2). rewrite <- Pos2Z.inj_pow. apply Pos2Z.pos_lt_pos. exact Hgt. }
  assert (L : 2 ^ Z.pos (Pos.size m) <= 2 * Z.pos m).
  { change 2 with (Z.pos 2) at 1. rewrite <- Pos2Z.inj_pow.
    change (2 * Z.pos m) with (Z.pos m~0). apply Pos2Z.pos_le_pos. exact Hle. }
  split; [|split].
  - eapply Z.lt_le_trans; [exact G|]. apply Z.pow_le_mono_r; lia.
  - lia.
  - intros He. assert (Hd : Z.pos (Pos.size m) = 53) by lia.
    rewrite Hd in L. change (2 ^ 53) with (2 * 2 ^ 52) in L. lia.
Qed.

Lemma shl_align_value m e e' :
  e' <= e -> Z.pos (fst (shl_align m e e')) = Z.pos m * 2 ^ (e - e').
Proof.
  intros H. unfold shl_align. destruct (e' - e) as [|d|d] eqn:E; try lia.
  - replace (e - e') with 0 by lia. cbn [fst]. lia.
  - cbn [fst]. change (Pos.iter xO m d) with (shift_pos d m).
    rewrite shift_pos_correct, Z.pow_pos_fold. replace (e - e') with (Z.pos d) by lia. lia.
Qed.

(** Rounding keeps the sign. *)
Lemma binary_round_aux_sign sx mx ex lx :
  sx = false -> not_negative (binary_round_aux prec emax sx mx ex lx).
Proof.
  intros ->. unfold binary_round_aux.
  destruct (shr_fexp prec emax mx ex lx) as [mrs' e'].
  destruct (shr_fexp prec emax _ e' loc_Exact) as [mrs'' e''].
  destruct (shr_m mrs''); cbn; auto. destruct (e'' <=? 971); cbn; auto.
Qed.

Lemma binary_normalize_sign m e :
  0 <= m -> not_negative (binary_normalize prec emax m e false).
Proof.
  intros H. destruct m as [|p|p]; cbn; auto; [|lia].
  unfold binary_round. destruct (shl_align _ _ _) as [mz ez].
  apply binary_round_aux_sign. reflexivity.
Qed.

(** Of two positive doubles, the one with the lower exponent is the lower. *)
Lemma canonical_le m1 e1 m2 e2 :
  canonical_mantissa prec emax m1 e1 = true ->
  canonical_mantissa prec emax m2 e2 = true ->
  e1 < e2 -> Z.pos m1 <= Z.pos m2 * 2 ^ (e2 - e1).
Proof.
  intros H1 H2 He.
  destruct (canonical_bounds _ _ H1) as (U1 & L1 & _).
  destruct (canonical_bounds _ _ H2) as (_ & _ & N2).
  specialize (N2 ltac:(lia)).
  assert (2 ^ 1 <= 2 ^ (e2 - e1)) by (apply Z.pow_le_mono_r; lia).
  change (2 ^ 53) with (2 ^ 52 * 2 ^ 1) in U1. nia.
Qed.

(** [x - y] is not negative when [y <= x]: the difference is rounded, but
    rounding keeps the sign. *)
Lemma SFsub_not_negative x y :
  valid_binary x = true -> valid_binary y = true ->
  SFleb y x = true -> not_negative (SF64sub x y).
Proof.
  intros Vx Vy H. unfold SFleb in H.
  destruct x as [sx|sx| |sx mx ex], y as [sy|sy| |sy my ey]; cbn in H |- *;
    try discriminate; try exact I;
    try (destruct sx; try discriminate; try exact I; reflexivity);
    try (destruct sy; try discriminate; try exact I; reflexivity);
    try (destruct sx, sy; try discriminate; cbn; auto; fail).
  cbn in Vx, Vy. unfold bounded in Vx, Vy.
  apply andb_prop in Vx as [Cx _]. apply andb_prop in Vy as [Cy _].
  apply binary_normalize_sign.
  destruct sy, sx; cbn [cond_Zopp]; try discriminate; try lia.
  - destruct (Z.compare_spec ey ex) as [E|E|E]; try discriminate.
    + subst. rewrite Z.min_id. rewrite !shl_align_value, Z.sub_diag by lia.
      destruct (Pos.compare_cont Eq my mx) eqn:C; try discriminate.
      * apply Pcompare_Eq_eq in C. subst. lia.
      * change (Pos.compare_cont Eq my mx) with (Z.pos my ?= Z.pos mx) in C.
        apply -> Z.compare_gt_iff in C. lia.
    + rewrite Z.min_l by lia. rewrite !shl_align_value, Z.sub_diag by lia.
      pose proof (canonical_le _ _ _ _ Cx Cy E). lia.
  - destruct (Z.compare_spec ey ex) as [E|E|E]; try discriminate.
    + subst. rewrite Z.min_id. rewrite !shl_align_value, Z.sub_diag by lia.
      destruct (Pos.compare_cont Eq my mx) eqn:C; try discriminate.
      * apply Pcompare_Eq_eq in C. subst. lia.
      * change (Pos.compare_cont Eq my mx) with (Z.pos my ?= Z.pos mx) in C.
        apply -> Z.compare_lt_iff in C. lia.
    + rewrite Z.min_r by lia. rewrite !shl_align_value, Z.sub_diag by lia.
      pose proof (canonical_le _ _ _ _ Cy Cx E). lia.
Qed.

(** A float that is not negative is not below an int that is not positive. *)
Lemma not_negative_not_below x n :
  not_negative (Prim2SF x) -> n <= 0 -> float_lt_int x n = false.
Proof.
  unfold float_lt_int. destruct (Prim2SF x) as [s|s| |s m e]; cbn; intros H Hn; subst; auto.
  - apply Z.ltb_ge. lia.
  - destruct (0 <=? e) eqn:E; apply Z.ltb_ge.
    + apply Z.leb_le in E. pose proof (Z.pow_nonneg 2 e). nia.
    + apply Z.leb_gt in E. assert (0 < 2 ^ (- e)) by (apply Z.pow_pos_nonneg; lia). nia.
Qed.

(** Between two readings of a clock that did not go back, the time elapsed,
    as the subtraction of doubles computes it, is not below zero. *)
Lemma elapsed_not_below (start now : float) (n : Z) :
  (start <=? now)%float = true -> n <= 0 -> float_lt_int (now - start)%float n = false.
Proof.
  intros H Hn. apply not_negative_not_below; [|exact Hn].
  rewrite sub_spec. rewrite leb_spec in H.
  apply SFsub_not_negative; auto using Prim2SF_valid.
Qed.

(** With a clock that does not run backwards, a budget of zero seconds or
    less is spent at the first test. *)
Lemma no_budget_left s max_wait :
  max_wait <= 0 ->
  (clock s (ticks s) <=? clock s (ticks s + 1))%float = true ->
  budget_left s max_wait 1 = false.
Proof.
  intros Hm Hc. unfold budget_left. apply elapsed_not_below; assumption.
Qed.

Lemma report_times_out self account_id report_type start_date end_date max_wait
    s0 rid s1 polls rest :
  Bing.submit_performance_report self account_id report_type start_date end_date "Daily"
    (snd (print (LogInfo ("Submitting " ++ report_type ++ " for account "
                          ++ str_of_Z account_id ++ "...")) s0)) = (Ok rid, s1) ->
  truthy (access_token s1) = true ->
  net s1 = (map Answer polls ++ rest)%list ->
  forallb pending polls = true ->
  forallb (budget_left s1 max_wait) (seq 1 (List.length polls)) = true ->
  budget_left s1 max_wait (S (List.length polls)) = false ->
  exists s',
    Bing.get_performance_report self account_id report_type start_date end_date
      max_wait s0 = (Raise (TimeoutError max_wait), s')
    /\ net s' = rest
    /\ calls (trace s') = (calls (trace s1) + List.length polls)%nat
    /\ sleeps (trace s') = (sleeps (trace s1) + List.length polls)%nat.
Proof.
  intros Hsub Htok Hnet Hall Hbud Hexp.
  set (sp := snd (print (LogInfo "Polling for report completion...")
               (snd (print (LogInfo ("Report ID: " ++ py_str rid)) s1)))).
  set (s2 := snd (time_time sp)).
  destruct (poll_loop_pending self rid (clock s1 (ticks s1)) max_wait polls
              (S (List.length rest)) s2 rest) as (s3 & Hp & _ & Heq); auto.
  { intros j Hj. change (clock s2) with (clock s1). change (ticks s2) with (S (ticks s1)).
    rewrite forallb_forall in Hbud.
    assert (Hb : budget_left s1 max_wait (S j) = true) by (apply Hbud, in_seq; lia).
    unfold budget_left in Hb.
    replace (S (ticks s1) + j)%nat with (ticks s1 + S j)%nat by lia. exact Hb. }
  destruct Hp as (Hn3 & Hc3 & Hs3 & Ht3 & Hk3 & _).
  exists (snd (time_time s3)). split.
  - unfold Bing.get_performance_report.
    unfold bind at 1. cbn [print fst snd]. cbn [print snd] in Hsub.
    rewrite (bind_ok _ Hsub). do 2 mstep.
    rewrite (bind_ok _ (s := sp) (a := clock s1 (ticks s1)) (s' := s2)) by reflexivity.
    unfold bind at 1. cbn [get_state].
    replace (loop_bound s2) with (List.length polls + S (List.length rest))%nat.
    2:{ unfold loop_bound. change (net s2) with (net s1).
        rewrite Hnet, length_app, length_map. lia. }
    rewrite Heq. apply poll_loop_expired.
    rewrite Hk3, Ht3. change (clock s2) with (clock s1).
    change (ticks s2) with (S (ticks s1)). unfold budget_left in Hexp.
    replace (S (ticks s1) + List.length polls)%nat with (ticks s1 + S (List.length polls))%nat
      by lia.
    exact Hexp.
  - cbn [time_time snd net trace]. rewrite Hn3, Hc3, Hs3.
    repeat split; reflexivity.
Qed.

(** C3: the budget is tested before every poll; the test is the one of the
    code, [time.time() - start_time < max_wait_seconds] on the doubles the
    clock returns.  (i) When the first test already fails, no poll is issued
    and [TimeoutError] is raised at once; (ii) that is so for a budget of zero
    seconds or less, on a clock that does not run backwards; (iii) when
    every poll issued while the test passes is answered with a status that
    is neither Success nor Error, the test that fails raises [TimeoutError],
    after exactly those polls. *)
Theorem report_poll_times_out :
  forall (self : Bing.BingAdsExtractor) (account_id : Z) (report_type : string)
         (start_date end_date : option string) (max_wait_seconds : Z)
         (s0 : State) (report_id : json) (s1 : State),
    Bing.submit_performance_report self account_id report_type start_date end_date "Daily"
      (snd (print (LogInfo ("Submitting " ++ report_type ++ " for account "
                            ++ str_of_Z account_id ++ "...")) s0)) = (Ok report_id, s1) ->
    (budget_left s1 max_wait_seconds 1 = false ->
     exists s',
       Bing.get_performance_report self account_id report_type start_date end_date
         max_wait_seconds s0 = (Raise (TimeoutError max_wait_seconds), s')
       /\ net s' = net s1 /\ trace s' = trace s1)
    /\ (max_wait_seconds <= 0 ->
        (clock s1 (ticks s1) <=? clock s1 (ticks s1 + 1))%float = true ->
        budget_left s1 max_wait_seconds 1 = false)
    /\ (forall (polls : list Response) (rest : list Reply),
          truthy (access_token s1) = true ->
          net s1 = (map Answer polls ++ rest)%list ->
          forallb pending polls = true ->
          forallb (budget_left s1 max_wait_seconds) (seq 1 (List.length polls)) = true ->
          budget_left s1 max_wait_seconds (S (List.length polls)) = false ->
          exists s',
            Bing.get_performance_report self account_id report_type start_date end_date
              max_wait_seconds s0 = (Raise (TimeoutError max_wait_seconds), s')
            /\ net s' = rest
            /\ calls (trace s') = (calls (trace s1) + List.length polls)%nat
            /\ sleeps (trace s') = (sleeps (trace s1) + List.length polls)%nat).
Proof.
  intros self aid rt sd ed mw s0 rid s1 Hsub. split; [|split].
  - intros Hexp.
    set (sp := snd (print (LogInfo "Polling for report completion...")
                 (snd (print (LogInfo ("Report ID: " ++ py_str rid)) s1)))).
    set (s2 := snd (time_time sp)).
    exists (snd (time_time s2)). split; [|split; reflexivity].
    unfold Bing.get_performance_report.
    unfold bind at 1. cbn [print fst snd]. cbn [print snd] in Hsub.
    rewrite (bind_ok _ Hsub). do 2 mstep.
    rewrite (bind_ok _ (s := sp) (a := clock s1 (ticks s1)) (s' := s2)) by reflexivity.
    unfold bind at 1. cbn [get_state]. unfold loop_bound.
    apply poll_loop_expired. unfold budget_left in Hexp.
    rewrite Nat.add_1_r in Hexp. exact Hexp.
  - apply no_budget_left.
  - intros polls rest. apply (report_times_out _ _ _ _ _ _ _ rid). exact Hsub.
Qed.

(** ** Hoare rules *)

Lemma hoare_bind {A B} (P : State -> Prop) (m : M A) (f : A -> M B) K K' E :
  hoare P m (within K E) ->
  (forall a, hoare K (f a) (within K' E)) ->
  hoare P (bind m f) (within K' E).
Proof.
  intros Hm Hf s Hs. specialize (Hm s Hs). unfold bind.
  destruct (m s) as [[a|e|] s1]; simpl in *; auto. apply Hf. exact Hm.
Qed.

Lemma hoare_try {A} (P : State -> Prop) (m : M A) (h : exn -> M A) K E E' :
  hoare P m (within K E') ->
  (forall e, hoare E' (h e) (within K E)) ->
  hoare P (try_except m h) (within K E).
Proof.
  intros Hm Hh s Hs. specialize (Hm s Hs). unfold try_except.
  destruct (m s) as [[a|e|] s1]; simpl in *; auto. apply Hh. exact Hm.
Qed.

Lemma hoare_weaken {A} (P P' : State -> Prop) (m : M A) (K K' E E' : State -> Prop) :
  hoare P m (within K E) ->
  (forall s, P' s -> P s) -> (forall s, K s -> K' s) -> (forall s, E s -> E' s) ->
  hoare P' m (within K' E').
Proof.
  intros Hm HP HK HE s Hs. specialize (Hm s (HP s Hs)).
  destruct (m s) as [[a|e|] s1]; simpl in *; auto.
Qed.

Lemma hoare_get_state {A} (P : State -> Prop) (f : State -> M A) Q :
  (forall s, P s -> Q (fst (f s s)) (snd (f s s))) ->
  hoare P (bind get_state f) Q.
Proof. intros H s Hs. unfold bind, get_state. apply H. exact Hs. Qed.

Lemma returns_keeps {A} (I : State -> Prop) (m : M A) : returns I m -> keeps I m.
Proof. intros H. eapply hoare_weaken; eauto. intros s []. Qed.

Lemma returns_ok {A} (I : State -> Prop) (m : M A) s :
  returns I m -> I s -> exists a s', m s = (Ok a, s') /\ I s'.
Proof.
  intros H Hs. specialize (H s Hs). destruct (m s) as [[a|e|] s1]; simpl in H;
    try contradiction. eauto.
Qed.

Lemma keeps_ret {A} (I : State -> Prop) (a : A) : keeps I (ret a).
Proof. intros s Hs. exact Hs. Qed.

Lemma returns_ret {A} (I : State -> Prop) (a : A) : returns I (ret a).
Proof. intros s Hs. exact Hs. Qed.

Lemma keeps_raise {A} (I : State -> Prop) (e : exn) : keeps I (raise (A := A) e).
Proof. intros s Hs. exact Hs. Qed.

Lemma keeps_lift {A} (I : State -> Prop) (r : Res A) : r <> Diverge -> keeps I (lift r).
Proof. intros Hr s Hs. unfold lift. destruct r; simpl; auto. Qed.

Lemma keeps_bind {A B} (I : State -> Prop) (m : M A) (f : A -> M B) :
  keeps I m -> (forall a, keeps I (f a)) -> keeps I (bind m f).
Proof. intros. eapply hoare_bind; eauto. Qed.

Lemma keeps_try {A} (I : State -> Prop) (m : M A) (h : exn -> M A) :
  keeps I m -> (forall e, keeps I (h e)) -> keeps I (try_except m h).
Proof. intros. eapply hoare_try; eauto. Qed.

Lemma returns_try {A} (I : State -> Prop) (m : M A) (h : exn -> M A) :
  keeps I m -> (forall e, returns I (h e)) -> returns I (try_except m h).
Proof. intros. eapply hoare_try; eauto. Qed.

Lemma returns_bind {A B} (I : State -> Prop) (m : M A) (f : A -> M B) :
  returns I m -> (forall a, returns I (f a)) -> returns I (bind m f).
Proof. intros. eapply hoare_bind; eauto. Qed.

Lemma keeps_get_state (I : State -> Prop) : keeps I get_state.
Proof. intros s Hs. exact Hs. Qed.

Lemma keeps_datetime_now (I : State -> Prop) : keeps I datetime_now.
Proof. intros s Hs. exact Hs. Qed.

(** The operations on decoded values return or raise. *)
Lemma py_get_total v k d : py_get v k d <> Diverge.
Proof. destruct v; discriminate. Qed.

Lemma py_getitem_total v k : py_getitem v k <> Diverge.
Proof. destruct v; try discriminate. simpl. destruct (lookup k kvs); discriminate. Qed.

Lemma py_setitem_total v k x : py_setitem v k x <> Diverge.
Proof. destruct v; discriminate. Qed.

Lemma py_contains_total k v : py_contains k v <> Diverge.
Proof. destruct v; discriminate. Qed.

Lemma py_iter_total v : py_iter v <> Diverge.
Proof. destruct v; discriminate. Qed.

Lemma py_len_total v : py_len v <> Diverge.
Proof. destruct v; discriminate. Qed.

Lemma py_int_total v : py_int v <> Diverge.
Proof. destruct v; try discriminate. simpl. destruct (int_of_str s); discriminate. Qed.

Lemma res_bind_total {A B} (r : Res A) (f : A -> Res B) :
  r <> Diverge -> (forall a, f a <> Diverge) -> res_bind r f <> Diverge.
Proof. destruct r; simpl; auto; discriminate. Qed.

Lemma decode_total data : decode_utf8_sig data <> Diverge.
Proof. unfold decode_utf8_sig. destruct (utf8_decode _); discriminate. Qed.

(** ** The run invariant *)

Section Invariant.
Variable P : Request -> bool.
Variable with_token : bool.
Variable logged : list LogEntry.
Variable c : nat.

Lemma counted_snoc_sent t q : counted P (t ++ [Sent q]) = (counted P t + (if P q then 1 else 0))%nat.
Proof.
  unfold counted. rewrite filter_app, length_app. simpl. destruct (P q); reflexivity.
Qed.

Lemma counted_snoc_slept t n : counted P (t ++ [Slept n]) = counted P t.
Proof. unfold counted. rewrite filter_app, length_app. simpl. lia. Qed.

Lemma inv_mono B B' s : (B <= B')%nat -> inv P with_token logged c B s -> inv P with_token logged c B' s.
Proof. unfold inv. intuition lia. Qed.

Lemma keeps_print B l : keeps (inv P with_token logged c B) (print l).
Proof.
  intros s (H1 & H2 & H3 & more & H4). unfold inv, print.
  cbn [fst snd within trace net access_token stderr]. repeat split; auto.
  exists (more ++ [l])%list. rewrite H4, app_assoc. reflexivity.
Qed.

Lemma returns_print B l : returns (inv P with_token logged c B) (print l).
Proof. intros s Hs. exact (keeps_print B l s Hs). Qed.

Lemma keeps_time_time B : keeps (inv P with_token logged c B) time_time.
Proof. intros s Hs. exact Hs. Qed.

Lemma keeps_time_sleep B n : keeps (inv P with_token logged c B) (time_sleep n).
Proof.
  intros s (H1 & H2 & H3 & H4). unfold inv, time_sleep, emit.
  cbn [fst snd within trace net access_token stderr]. rewrite counted_snoc_slept. auto.
Qed.

(** A request that is not counted: an answer takes one entry off the script. *)
Lemma request_consumes B q :
  P q = false ->
  hoare (inv P with_token logged c B) (request q)
    (within (fun s => exists B', B = S B' /\ inv P with_token logged c B' s)
            (inv P with_token logged c B)).
Proof.
  intros Hq s (H1 & H2 & H3 & H4). unfold request. cbn [emit net].
  destruct (net s) as [|[|r] rest] eqn:E; cbn [fst snd within].
  - unfold inv, emit. cbn [trace net access_token stderr].
    rewrite counted_snoc_sent, Hq, E. repeat split; auto; lia.
  - unfold inv, emit, set_net. cbn [trace net access_token stderr].
    rewrite counted_snoc_sent, Hq. cbn [List.length] in H2. repeat split; auto; lia.
  - destruct B as [|B']; [cbn in H2; lia|]. exists B'. split; [reflexivity|].
    unfold inv, emit, set_net. cbn [trace net access_token stderr].
    rewrite counted_snoc_sent, Hq. cbn [List.length] in H2. repeat split; auto; lia.
Qed.

Lemma keeps_request B q : P q = false -> keeps (inv P with_token logged c B) (request q).
Proof.
  intros Hq. eapply hoare_weaken; [apply (request_consumes B q Hq) | auto | | auto].
  intros s (B' & -> & H). eapply inv_mono; [|exact H]. lia.
Qed.

Lemma keeps_raise_for_status (I : State -> Prop) r : keeps I (raise_for_status r).
Proof.
  unfold raise_for_status. destruct (http_error (status_code r));
    [apply keeps_raise | apply keeps_ret].
Qed.

Lemma keeps_response_json (I : State -> Prop) r : keeps I (response_json r).
Proof.
  unfold response_json. destruct (json_body r); [apply keeps_ret | apply keeps_raise].
Qed.

End Invariant.

Lemma hoare_pre_exists {A X} (phi : X -> Prop) (Px : X -> State -> Prop) (m : M A) Q :
  (forall x, phi x -> hoare (Px x) m Q) ->
  hoare (fun s => exists x, phi x /\ Px x s) m Q.
Proof. intros H s (x & Hx & Hs). exact (H x Hx s Hs). Qed.

Lemma keeps_pure_reader {A} (I : State -> Prop) (m : M A) : pure_reader m -> keeps I m.
Proof. intros H s Hs. destruct (H s) as [a Ha]. rewrite Ha. exact Hs. Qed.

Lemma returns_pure_reader {A} (I : State -> Prop) (m : M A) : pure_reader m -> returns I m.
Proof. intros H s Hs. destruct (H s) as [a Ha]. rewrite Ha. exact Hs. Qed.

Lemma datetime_now_pure : pure_reader datetime_now.
Proof. intros s. eexists. reflexivity. Qed.

Ltac total :=
  first [ apply py_get_total | apply py_getitem_total | apply py_setitem_total
        | apply py_contains_total | apply py_iter_total | apply py_len_total
        | apply py_int_total | apply decode_total
        | apply res_bind_total; [total | intros; total]
        | discriminate ].

(** Symbolic execution of a computation against an invariant it keeps. *)
Ltac kstep HP :=
  lazymatch goal with
  | |- keeps _ (bind _ _) => apply keeps_bind; [| intros ?]
  | |- keeps _ (ret _) => apply keeps_ret
  | |- keeps _ (raise _) => apply keeps_raise
  | |- keeps _ (lift _) => apply keeps_lift; total
  | |- keeps _ (try_except _ _) => apply keeps_try; [| intros ?]
  | |- keeps _ (print _) => apply keeps_print
  | |- keeps _ (raise_for_status _) => apply keeps_raise_for_status
  | |- keeps _ (response_json _) => apply keeps_response_json
  | |- keeps _ time_time => apply keeps_time_time
  | |- keeps _ (time_sleep _) => apply keeps_time_sleep
  | |- keeps _ datetime_now => apply keeps_datetime_now
  | |- keeps _ get_state => apply keeps_get_state
  | |- keeps _ (requests_post _ _ _) => apply keeps_request; apply HP; reflexivity
  | |- keeps _ (requests_get _ _ _) => apply keeps_request; apply HP; reflexivity
  | |- keeps _ (if ?b then _ else _) => destruct b
  | |- keeps _ (match ?x with _ => _ end) => destruct x
  end.

(** ** The Amazon fetcher under the invariant *)

Section AmazonRun.
Variable P : Request -> bool.
Variable with_token : bool.
Variable logged : list LogEntry.
Hypothesis HP : forall q, is_form (body q) = false -> P q = false.

Lemma keeps_amazon_headers c B self p :
  keeps (inv P with_token logged c B) (Amazon._get_headers self p).
Proof. apply keeps_pure_reader, get_headers_pure. Qed.

Lemma keeps_media_headers c B self pid mt :
  keeps (inv P with_token logged c B) (Amazon.media_headers self pid mt).
Proof. apply keeps_pure_reader, media_headers_pure. Qed.

Lemma sd_loop_keeps c self pid f : forall fuel B i acc,
  (B < fuel)%nat ->
  keeps (inv P with_token logged c B) (Amazon.sd_loop fuel self pid f i acc).
Proof.
  induction fuel as [|fuel IH]; intros B i acc HB; [lia|].
  cbn [Amazon.sd_loop]. cbv zeta.
  apply keeps_bind; [apply keeps_amazon_headers | intros h].
  eapply hoare_bind; [apply request_consumes; apply HP; reflexivity | intros resp].
  apply hoare_pre_exists. intros B' ->.
  eapply hoare_weaken with (P := inv P with_token logged c B') (K := inv P with_token logged c B')
                           (E := inv P with_token logged c B');
    [ | auto | intros s; apply inv_mono; lia | intros s; apply inv_mono; lia ].
  match goal with |- hoare ?I ?m (within ?I ?I) => change (keeps I m) end.
  repeat kstep HP. apply IH. lia.
Qed.

Lemma keyed_loop_keeps c stop ik nk u gh :
  (forall B, keeps (inv P with_token logged c B) gh) ->
  forall fuel B payload acc,
    (B < fuel)%nat ->
    keeps (inv P with_token logged c B) (Amazon.keyed_loop fuel stop ik nk u gh payload acc).
Proof.
  intros Hgh. induction fuel as [|fuel IH]; intros B payload acc HB; [lia|].
  cbn [Amazon.keyed_loop].
  apply keeps_bind; [apply Hgh | intros h].
  eapply hoare_bind; [apply request_consumes; apply HP; reflexivity | intros resp].
  apply hoare_pre_exists. intros B' ->.
  eapply hoare_weaken with (P := inv P with_token logged c B') (K := inv P with_token logged c B')
                           (E := inv P with_token logged c B');
    [ | auto | intros s; apply inv_mono; lia | intros s; apply inv_mono; lia ].
  match goal with |- hoare ?I ?m (within ?I ?I) => change (keeps I m) end.
  repeat kstep HP. all: try (apply IH; lia).
Qed.

(** A loop started under the bound of the current script. *)
Lemma bounded_loop_keeps c B (loop : nat -> M (list json)) :
  (forall fuel B', (B' < fuel)%nat -> keeps (inv P with_token logged c B') (loop fuel)) ->
  keeps (inv P with_token logged c B) (s <- get_state ;; loop (loop_bound s)).
Proof.
  intros H. apply hoare_get_state. intros s Hs.
  assert (Hs' : inv P with_token logged c (List.length (net s)) s).
  { destruct Hs as (H1 & H2 & H3 & H4). repeat split; auto. }
  pose proof (H (loop_bound s) (List.length (net s)) (Nat.lt_succ_diag_r _) s Hs') as Hl.
  destruct (loop (loop_bound s) s) as [[a|e|] s1]; cbn [fst snd within] in *; auto;
    (eapply inv_mono; [|exact Hl]; apply Hs).
Qed.

(** None of the four fetches raises: a failure is printed and an empty list
    returned. *)
Lemma fetch_returns c B l self pid :
  returns (inv P with_token logged c B) (fetch l self pid).
Proof.
  assert (Hh : forall e : exn,
             returns (inv P with_token logged c B)
               (print (LogError (error_context l) e) ;; ret (@nil json))).
  { intros e. apply returns_bind; [apply returns_print | intros; apply returns_ret]. }
  destruct l as [f|f|f|tz]; cbn [fetch].
  - unfold Amazon.get_sponsored_display_campaigns.
    apply returns_try; [|exact Hh].
    apply (bounded_loop_keeps c B (fun fuel => Amazon.sd_loop fuel self pid f 0 [])).
    intros. apply sd_loop_keeps. assumption.
  - unfold Amazon.get_sponsored_brands_campaigns.
    apply returns_bind; [apply returns_pure_reader, media_headers_pure | intros h].
    apply returns_try; [|exact Hh].
    apply (bounded_loop_keeps c B
             (fun fuel => Amazon.keyed_loop fuel false "campaigns" "nextToken"
                            (Amazon.base_url self ++ "/sb/v4/campaigns/list") (ret h)
                            (Amazon.list_payload f) [])).
    intros. apply keyed_loop_keeps; [|assumption]. intros. apply keeps_ret.
  - unfold Amazon.get_sponsored_products_campaigns.
    apply returns_bind; [apply returns_pure_reader, media_headers_pure | intros h].
    apply returns_try; [|exact Hh].
    apply (bounded_loop_keeps c B
             (fun fuel => Amazon.keyed_loop fuel false "campaigns" "nextToken"
                            (Amazon.base_url self ++ "/sp/campaigns/list") (ret h)
                            (Amazon.list_payload f) [])).
    intros. apply keyed_loop_keeps; [|assumption]. intros. apply keeps_ret.
  - unfold Amazon.get_attribution_performance_campaign.
    apply returns_bind; [apply returns_pure_reader, datetime_now_pure | intros d].
    cbv zeta.
    apply returns_try; [|exact Hh].
    apply (bounded_loop_keeps c B
             (fun fuel => Amazon.keyed_loop fuel true "reports" "cursorId"
                            (Amazon.base_url self ++ "/attribution/report")
                            (Amazon._get_headers self (Some pid)) _ [])).
    intros. apply keyed_loop_keeps; [|assumption]. intros. apply keeps_amazon_headers.
Qed.

End AmazonRun.

Lemma of_sum_total {A} (r : exn + A) : of_sum r <> Diverge.
Proof. destruct r; discriminate. Qed.

Lemma tag_campaigns_total a c cs : Bing.tag_campaigns a c cs <> Diverge.
Proof.
  induction cs as [|x cs IH]; [discriminate|]. cbn [Bing.tag_campaigns].
  apply res_bind_total; [apply py_setitem_total | intros c1].
  apply res_bind_total; [apply py_setitem_total | intros c2].
  apply res_bind_total; [exact IH | intros; discriminate].
Qed.

(** ** The Bing extractor under the invariant

    Either a token is cached throughout ([with_token]), or the requests
    counted are none at all. *)

Section BingRun.
Variable P : Request -> bool.
Variable with_token : bool.
Variable logged : list LogEntry.
Hypothesis HP : forall q, is_form (body q) = false -> P q = false.
Hypothesis Htok : with_token = true \/ forall q, P q = false.

Lemma keeps_set_access_token c B v :
  with_token = false -> keeps (inv P with_token logged c B) (set_access_token v).
Proof.
  intros Hw s (H1 & H2 & H3 & H4). unfold inv, set_access_token.
  cbn [fst snd within trace net access_token stderr]. repeat split; auto.
  rewrite Hw. discriminate.
Qed.

Lemma keeps_get_access_token c B self :
  keeps (inv P with_token logged c B) (Bing.get_access_token self).
Proof.
  unfold Bing.get_access_token. apply hoare_get_state. intros s Hs.
  destruct (truthy (access_token s)) eqn:Ht; [exact Hs|].
  assert (Hw : with_token = false).
  { destruct with_token; [|reflexivity]. destruct Hs as (_ & _ & H3 & _).
    rewrite (H3 eq_refl) in Ht. discriminate. }
  assert (HPq : forall q, P q = false).
  { destruct Htok as [H|H]; [congruence | exact H]. }
  revert s Hs Ht.
  match goal with
  | |- forall s, _ -> _ -> within _ _ (fst (?m s)) (snd (?m s)) =>
      enough (H : keeps (inv P with_token logged c B) m) by (intros s Hs _; exact (H s Hs))
  end.
  apply keeps_bind; [apply keeps_request, HPq | intros resp].
  apply keeps_bind; [apply keeps_raise_for_status | intros _].
  apply keeps_bind; [apply keeps_response_json | intros d].
  apply keeps_bind; [apply keeps_lift, py_getitem_total | intros tok].
  apply keeps_bind; [apply keeps_set_access_token, Hw | intros _].
  apply keeps_ret.
Qed.

Lemma keeps_auth_headers c B self a b :
  keeps (inv P with_token logged c B) (Bing._get_auth_headers self a b).
Proof.
  unfold Bing._get_auth_headers.
  apply keeps_bind; [apply keeps_get_access_token | intros tok]. apply keeps_ret.
Qed.

Ltac bstep :=
  lazymatch goal with
  | |- keeps _ (Bing._get_auth_headers _ _ _) => apply keeps_auth_headers
  | |- keeps _ (lift (of_sum _)) => apply keeps_lift, of_sum_total
  | |- keeps _ (lift (Bing.tag_campaigns _ _ _)) => apply keeps_lift, tag_campaigns_total
  | |- _ => kstep HP
  end.

Lemma keeps_get_users c B self : keeps (inv P with_token logged c B) (Bing.get_users self).
Proof. unfold Bing.get_users. repeat bstep. Qed.

Lemma keeps_get_accounts c B self u :
  keeps (inv P with_token logged c B) (Bing.get_accounts self u).
Proof. unfold Bing.get_accounts. repeat bstep. Qed.

Lemma keeps_get_campaigns c B self a cu :
  keeps (inv P with_token logged c B) (Bing.get_campaigns self a cu).
Proof. unfold Bing.get_campaigns. repeat bstep. Qed.

Lemma keeps_strptime (I : State -> Prop) d : keeps I (Bing.strptime d).
Proof.
  unfold Bing.strptime. destruct (strptime_ymd d); [apply keeps_ret | apply keeps_raise].
Qed.

Lemma keeps_submit c B self a rt sd ed ag :
  keeps (inv P with_token logged c B) (Bing.submit_performance_report self a rt sd ed ag).
Proof.
  unfold Bing.submit_performance_report.
  repeat first [ apply keeps_strptime | bstep ].
Qed.

Lemma poll_report_status_consumes c B self rid :
  hoare (inv P with_token logged c B) (Bing.poll_report_status self rid)
    (within (fun s => exists B', B = S B' /\ inv P with_token logged c B' s)
            (inv P with_token logged c B)).
Proof.
  unfold Bing.poll_report_status.
  eapply hoare_bind; [apply keeps_auth_headers | intros h].
  eapply hoare_bind; [apply request_consumes; apply HP; reflexivity | intros resp].
  apply hoare_pre_exists. intros B' ->.
  eapply hoare_weaken with (P := inv P with_token logged c B') (K := inv P with_token logged c B')
                           (E := inv P with_token logged c B');
    [ | auto | intros s Hs; exists B'; auto | intros s; apply inv_mono; lia ].
  match goal with |- hoare ?I ?m (within ?I ?I) => change (keeps I m) end.
  repeat bstep.
Qed.

Lemma keeps_download_report c B u :
  keeps (inv P with_token logged c B) (Bing.download_report u).
Proof. unfold Bing.download_report, Bing.get_url. repeat bstep. Qed.

Lemma poll_loop_keeps c self rid start mw : forall fuel B,
  (B < fuel)%nat ->
  keeps (inv P with_token logged c B) (Bing.poll_loop fuel self rid start mw).
Proof.
  induction fuel as [|fuel IH]; intros B HB; [lia|].
  cbn [Bing.poll_loop].
  apply keeps_bind; [apply keeps_time_time | intros now].
  destruct (float_lt_int (now - start)%float mw); [|apply keeps_raise].
  eapply hoare_bind; [apply poll_report_status_consumes | intros resp].
  apply hoare_pre_exists. intros B' ->.
  eapply hoare_weaken with (P := inv P with_token logged c B') (K := inv P with_token logged c B')
                           (E := inv P with_token logged c B');
    [ | auto | intros s; apply inv_mono; lia | intros s; apply inv_mono; lia ].
  match goal with |- hoare ?I ?m (within ?I ?I) => change (keeps I m) end.
  repeat first [ apply keeps_download_report | bstep ].
  apply IH. lia.
Qed.

Lemma keeps_get_performance_report c B self a rt sd ed mw :
  keeps (inv P with_token logged c B) (Bing.get_performance_report self a rt sd ed mw).
Proof.
  unfold Bing.get_performance_report.
  apply keeps_bind; [apply keeps_print | intros _].
  apply keeps_bind; [apply keeps_submit | intros rid].
  apply keeps_bind; [apply keeps_print | intros _].
  apply keeps_bind; [apply keeps_print | intros _].
  apply keeps_bind; [apply keeps_time_time | intros start].
  apply hoare_get_state. intros s Hs.
  assert (Hs' : inv P with_token logged c (List.length (net s)) s).
  { destruct Hs as (H1 & H2 & H3 & H4). repeat split; auto. }
  pose proof (poll_loop_keeps c self rid start mw (loop_bound s) (List.length (net s))
                (Nat.lt_succ_diag_r _) s Hs') as Hl.
  destruct (Bing.poll_loop (loop_bound s) self rid start mw s) as [[x|e|] s1];
    cbn [fst snd within] in *; auto; (eapply inv_mono; [|exact Hl]; apply Hs).
Qed.

Lemma keeps_try_campaigns c B self id cid result :
  keeps (inv P with_token logged c B) (Bing.try_campaigns self id cid result).
Proof.
  unfold Bing.try_campaigns. repeat first [ apply keeps_get_campaigns | bstep ].
Qed.

Lemma returns_try_campaigns c B self id cid result :
  returns (inv P with_token logged c B) (Bing.try_campaigns self id cid result).
Proof.
  unfold Bing.try_campaigns. apply returns_try.
  - repeat first [ apply keeps_get_campaigns | bstep ].
  - intros e. apply returns_bind; [apply returns_print | intros; apply returns_ret].
Qed.

Lemma returns_try_performance c B self sd ed id name result :
  returns (inv P with_token logged c B) (Bing.try_performance self sd ed id name result).
Proof.
  unfold Bing.try_performance. apply returns_try.
  - repeat first [ apply keeps_get_performance_report | bstep ].
  - intros e. apply returns_bind; [apply returns_print | intros; apply returns_ret].
Qed.

Lemma keeps_extract_account c B self inc sd ed account result :
  keeps (inv P with_token logged c B) (Bing.extract_account self inc sd ed account result).
Proof.
  unfold Bing.extract_account.
  apply keeps_bind; [apply keeps_lift, py_get_total | intros account_id].
  apply keeps_bind; [apply keeps_lift, py_get_total | intros customer_id].
  apply keeps_bind; [apply keeps_lift, py_get_total | intros account_name].
  destruct (negb (truthy account_id) || negb (truthy customer_id)); [apply keeps_ret|].
  apply keeps_bind; [apply keeps_print | intros _].
  apply keeps_bind; [apply keeps_try_campaigns | intros result'].
  destruct inc; [|apply keeps_ret].
  apply keeps_bind; [apply keeps_print | intros _].
  apply returns_keeps, returns_try_performance.
Qed.

(** On a decoded object the body of the account loop always returns. *)
Lemma returns_extract_account c B self inc sd ed d result :
  returns (inv P with_token logged c B)
    (Bing.extract_account self inc sd ed (JObj d) result).
Proof.
  unfold Bing.extract_account. cbn [py_get]. unfold lift at 1 2 3.
  apply returns_bind; [intros s Hs; exact Hs | intros account_id].
  apply returns_bind; [intros s Hs; exact Hs | intros customer_id].
  apply returns_bind; [intros s Hs; exact Hs | intros account_name].
  destruct (negb (truthy account_id) || negb (truthy customer_id)); [apply returns_ret|].
  apply returns_bind; [apply returns_print | intros _].
  apply returns_bind; [apply returns_try_campaigns | intros result'].
  destruct inc; [|apply returns_ret].
  apply returns_bind; [apply returns_print | intros _].
  apply returns_try_performance.
Qed.

Lemma returns_for_accounts c B self inc sd ed accts : forall result,
  forallb is_object accts = true ->
  returns (inv P with_token logged c B) (Bing.for_accounts self inc sd ed accts result).
Proof.
  induction accts as [|a accts IH]; intros result Hall; [apply returns_ret|].
  cbn [Bing.for_accounts]. simpl in Hall. apply andb_prop in Hall as [Ha Hall].
  destruct a; try discriminate.
  apply returns_bind; [apply returns_extract_account | intros r; apply IH; exact Hall].
Qed.

Lemma keeps_for_accounts c B self inc sd ed accts : forall result,
  keeps (inv P with_token logged c B) (Bing.for_accounts self inc sd ed accts result).
Proof.
  induction accts as [|a accts IH]; intros result; [apply keeps_ret|].
  cbn [Bing.for_accounts].
  apply keeps_bind; [apply keeps_extract_account | intros r; apply IH].
Qed.

Lemma keeps_extract_user c B self inc sd ed user result :
  keeps (inv P with_token logged c B) (Bing.extract_user self inc sd ed user result).
Proof.
  unfold Bing.extract_user.
  repeat first [ apply keeps_get_accounts | apply keeps_for_accounts | bstep ].
Qed.

Lemma keeps_for_users c B self inc sd ed us : forall result,
  keeps (inv P with_token logged c B) (Bing.for_users self inc sd ed us result).
Proof.
  induction us as [|u us IH]; intros result; [apply keeps_ret|].
  cbn [Bing.for_users].
  apply keeps_bind; [apply keeps_extract_user | intros r; apply IH].
Qed.

Lemma keeps_users_loop c B self inc sd ed users result :
  keeps (inv P with_token logged c B)
    (print (LogInfo ("Found " ++ str_of_Z (Z.of_nat (List.length users)) ++ " user(s)")) ;;
     Bing.for_users self inc sd ed users result).
Proof. apply keeps_bind; [apply keeps_print | intros _; apply keeps_for_users]. Qed.

(** A run whose first token acquisition, started in [K], establishes the
    invariant keeps it to the end. *)
Lemma extract_all_from (K : State -> Prop) c B self inc sd ed :
  (forall l s, K s -> K (snd (print l s))) ->
  hoare K (Bing.get_access_token self)
    (within (inv P with_token logged c B) (inv P with_token logged c B)) ->
  hoare K (Bing.extract_all self inc sd ed)
    (within (inv P with_token logged c B) (inv P with_token logged c B)).
Proof.
  intros Hprint Hfirst. unfold Bing.extract_all.
  eapply hoare_bind with (K := K); [first [apply returns_print | intros s Hs; exact Hs] | intros s0]. cbv zeta.
  eapply hoare_bind with (K := K); [intros s Hs; apply Hprint; exact Hs | intros _].
  eapply hoare_bind with (K := inv P with_token logged c B).
  - unfold Bing.get_users.
    eapply hoare_bind with (K := inv P with_token logged c B).
    + unfold Bing._get_auth_headers.
      eapply hoare_bind; [exact Hfirst | intros tok]. apply keeps_ret.
    + intros h. apply keeps_bind; [|intros resp]; repeat bstep.
  - intros users. cbv zeta. apply keeps_users_loop.
Qed.

End BingRun.

(** ** Token-endpoint calls of a run *)

Lemma not_form_not_token endpoint q :
  is_form (body q) = false -> is_token_request endpoint q = false.
Proof. intros H. unfold is_token_request. rewrite H. apply andb_false_r. Qed.

Lemma inv_here P s : inv P false (stderr s) (counted P (trace s)) (List.length (net s)) s.
Proof.
  unfold inv. repeat split; auto; [discriminate|]. exists []. rewrite app_nil_r. reflexivity.
Qed.

(** A counted request. *)
Lemma request_counted P wt logged c B q :
  P q = true ->
  hoare (inv P wt logged c B) (request q) (within (inv P wt logged (S c) B) (inv P wt logged (S c) B)).
Proof.
  intros Hq s (H1 & H2 & H3 & H4). unfold request. cbn [emit net].
  destruct (net s) as [|[|r] rest] eqn:E; cbn [fst snd within];
    unfold inv, emit, set_net; cbn [trace net access_token stderr];
    rewrite counted_snoc_sent, Hq; try rewrite E; cbn [List.length] in *;
    repeat split; auto; lia.
Qed.

Lemma refresh_access_token_counted logged c B self :
  hoare (inv (is_token_request amazon_token_url) false logged c B)
    (Amazon.refresh_access_token self)
    (within (inv (is_token_request amazon_token_url) false logged (S c) B)
            (inv (is_token_request amazon_token_url) false logged (S c) B)).
Proof.
  unfold Amazon.refresh_access_token. cbv zeta.
  eapply hoare_try with (E' := inv (is_token_request amazon_token_url) false logged (S c) B).
  - eapply hoare_bind; [apply request_counted; reflexivity | intros resp].
    match goal with |- hoare ?I ?m (within ?I ?I) => change (keeps I m) end.
    apply keeps_bind; [apply keeps_raise_for_status | intros _].
    apply keeps_bind; [apply keeps_response_json | intros d].
    apply keeps_bind; [apply keeps_lift, py_get_total | intros tok].
    apply keeps_bind; [apply keeps_set_access_token; reflexivity | intros _].
    apply keeps_ret.
  - intros e.
    match goal with |- hoare ?I ?m (within ?I ?I) => change (keeps I m) end.
    apply keeps_bind; [apply keeps_print | intros _]. apply keeps_raise.
Qed.

Lemma keeps_get_profiles P wt logged c B self :
  (forall q, is_form (body q) = false -> P q = false) ->
  keeps (inv P wt logged c B) (Amazon.get_profiles self).
Proof.
  intros HP. unfold Amazon.get_profiles. cbv zeta.
  apply keeps_try.
  - apply keeps_bind; [apply keeps_amazon_headers | intros h].
    repeat kstep HP.
  - intros e. repeat kstep HP.
Qed.

Lemma keeps_fetch P wt logged c B l self pid :
  (forall q, is_form (body q) = false -> P q = false) ->
  keeps (inv P wt logged c B) (fetch l self pid).
Proof. intros HP. apply returns_keeps, fetch_returns, HP. Qed.

Lemma keeps_fetch_profile P wt logged c B self profile all_data :
  (forall q, is_form (body q) = false -> P q = false) ->
  keeps (inv P wt logged c B) (Amazon.fetch_profile self profile all_data).
Proof.
  intros HP. unfold Amazon.fetch_profile.
  apply keeps_bind; [apply keeps_lift, py_getitem_total | intros pid]. cbv zeta.
  apply keeps_bind; [apply keeps_lift, py_get_total | intros info].
  apply keeps_bind; [apply keeps_lift, py_get_total | intros name].
  apply keeps_bind; [apply keeps_print | intros _].
  apply keeps_bind;
    [apply (keeps_fetch P wt logged c B (SponsoredDisplay "enabled,paused,archived")), HP
    | intros sd].
  apply keeps_bind; [apply (keeps_fetch P wt logged c B (SponsoredBrands None)), HP | intros sb].
  apply keeps_bind; [apply (keeps_fetch P wt logged c B (SponsoredProducts None)), HP | intros sp].
  apply keeps_bind; [apply keeps_lift, py_get_total | intros tz].
  apply keeps_bind; [apply (keeps_fetch P wt logged c B (AttributionReport tz)), HP | intros rep].
  apply keeps_ret.
Qed.

Lemma keeps_for_profiles P wt logged c B self ps :
  (forall q, is_form (body q) = false -> P q = false) ->
  forall all_data, keeps (inv P wt logged c B) (Amazon.for_profiles self ps all_data).
Proof.
  intros HP. induction ps as [|p ps IH]; intros all_data; [apply keeps_ret|].
  cbn [Amazon.for_profiles].
  apply keeps_bind; [apply keeps_fetch_profile, HP | intros r; apply IH].
Qed.

Lemma fetch_all_data_run self s :
  within (inv (is_token_request amazon_token_url) false (stderr s)
            (S (token_calls amazon_token_url (trace s))) (List.length (net s)))
         (inv (is_token_request amazon_token_url) false (stderr s)
            (S (token_calls amazon_token_url (trace s))) (List.length (net s)))
         (fst (Amazon.fetch_all_data self s)) (snd (Amazon.fetch_all_data self s)).
Proof.
  set (P := is_token_request amazon_token_url).
  assert (HP : forall q, is_form (body q) = false -> P q = false)
    by (intros; apply not_form_not_token; assumption).
  assert (H : hoare (inv P false (stderr s) (counted P (trace s)) (List.length (net s)))
                (Amazon.fetch_all_data self)
                (within (inv P false (stderr s) (S (counted P (trace s))) (List.length (net s)))
                        (inv P false (stderr s) (S (counted P (trace s))) (List.length (net s))))).
  { unfold Amazon.fetch_all_data.
    eapply hoare_bind; [apply refresh_access_token_counted | intros _].
    apply keeps_bind; [apply keeps_get_profiles, HP | intros profiles]. cbv zeta.
    apply keeps_bind; [apply keeps_lift, py_iter_total | intros ps].
    apply keeps_for_profiles, HP. }
  exact (H s (inv_here P s)).
Qed.

Lemma fetch_all_data_one_token_call self s :
  token_calls amazon_token_url (trace (snd (Amazon.fetch_all_data self s)))
  = S (token_calls amazon_token_url (trace s)).
Proof.
  pose proof (fetch_all_data_run self s) as H.
  destruct (Amazon.fetch_all_data self s) as [[a|e|] s']; cbn [fst snd within] in *;
    try contradiction; apply H.
Qed.

Lemma refresh_access_token_one_token_call self s :
  token_calls amazon_token_url (trace (snd (Amazon.refresh_access_token self s)))
  = S (token_calls amazon_token_url (trace s)).
Proof.
  pose proof (refresh_access_token_counted _ _ _ self s
                (inv_here (is_token_request amazon_token_url) s)) as H.
  destruct (Amazon.refresh_access_token self s) as [[a|e|] s']; cbn [fst snd within] in *;
    try contradiction; apply H.
Qed.

Lemma grants_token_inv r :
  grants_token r = true ->
  http_error (status_code r) = false /\
  exists d tok, json_body r = Some (JObj d) /\ lookup "access_token" d = Some tok
                /\ truthy tok = true.
Proof.
  unfold grants_token. intros H. apply andb_prop in H as [H1 H2].
  apply negb_true_iff in H1. split; [exact H1|].
  destruct (json_body r) as [[| | | | |d]|]; try discriminate.
  destruct (lookup "access_token" d) as [tok|] eqn:E; try discriminate.
  exists d, tok. auto.
Qed.

(** The first acquisition of a run: one token request, and a token cached. *)
Lemma first_token_acquisition self s r rest :
  truthy (access_token s) = false ->
  net s = Answer r :: rest ->
  grants_token r = true ->
  hoare (fun s0 => access_token s0 = access_token s /\ net s0 = net s
                   /\ trace s0 = trace s /\ exists more, stderr s0 = (stderr s ++ more)%list)
    (Bing.get_access_token self)
    (within (inv (is_token_request (Bing.token_url self)) true (stderr s)
               (S (token_calls (Bing.token_url self) (trace s))) (List.length rest))
            (inv (is_token_request (Bing.token_url self)) true (stderr s)
               (S (token_calls (Bing.token_url self) (trace s))) (List.length rest))).
Proof.
  intros Htok Hnet Hgr s0 (Ha & Hn & Ht & Hst).
  destruct (grants_token_inv r Hgr) as (Hok & d & tok & Hb & Hl & Htr).
  assert (Hnet0 : net s0 = Answer r :: rest) by congruence.
  assert (Htok0 : truthy (access_token s0) = false) by congruence.
  set (q := mkRequest POST (Bing.token_url self) []
              (Form (JObj [ ("grant_type", JStr "refresh_token");
                            ("client_id", JStr (Bing.client_id self));
                            ("client_secret", JStr (Bing.client_secret self));
                            ("refresh_token", JStr (Bing.refresh_token self));
                            ("scope", JStr "https://ads.microsoft.com/msads.manage offline_access") ]))).
  destruct (request_answer q s0 r rest Hnet0) as (s1 & Hreq & Hadv).
  assert (Hc : counted (is_token_request (Bing.token_url self)) (trace s1)
               = S (token_calls (Bing.token_url self) (trace s))).
  { unfold request in Hreq. cbn [emit net] in Hreq. rewrite Hnet0 in Hreq.
    inversion Hreq; subst s1. unfold set_net, emit. cbn [trace].
    rewrite counted_snoc_sent, Ht. unfold is_token_request at 2. cbn [url method body q].
    rewrite String.eqb_refl. cbn. unfold token_calls. lia. }
  assert (Heq : Bing.get_access_token self s0
                = (Ok tok, snd (set_access_token tok s1))).
  { unfold Bing.get_access_token. unfold bind at 1. cbn [get_state]. rewrite Htok0.
    unfold requests_post. fold q. do 2 mstep. unfold response_json. rewrite Hb. mstep.
    unfold lift. cbn [py_getitem]. rewrite Hl. mstep. reflexivity. }
  rewrite Heq. cbn [fst snd within set_access_token].
  unfold inv. cbn [trace net access_token stderr]. rewrite Hc.
  destruct Hadv as (H1 & _ & H3 & _). rewrite H1, H3. repeat split; auto.
Qed.

Lemma extract_all_one_token_call self inc sd ed s r rest :
  truthy (access_token s) = false ->
  net s = Answer r :: rest ->
  grants_token r = true ->
  token_calls (Bing.token_url self) (trace (snd (Bing.extract_all self inc sd ed s)))
  = S (token_calls (Bing.token_url self) (trace s)).
Proof.
  intros Htok Hnet Hgr.
  pose proof (extract_all_from (is_token_request (Bing.token_url self)) true (stderr s)
                (not_form_not_token (Bing.token_url self)) (or_introl eq_refl)
                (fun s0 => access_token s0 = access_token s /\ net s0 = net s
                           /\ trace s0 = trace s
                           /\ exists more, stderr s0 = (stderr s ++ more)%list)
                (S (token_calls (Bing.token_url self) (trace s))) (List.length rest)
                self inc sd ed) as H.
  assert (Hprint : forall l s0,
             access_token s0 = access_token s /\ net s0 = net s /\ trace s0 = trace s
             /\ (exists more, stderr s0 = (stderr s ++ more)%list) ->
             access_token (snd (print l s0)) = access_token s
             /\ net (snd (print l s0)) = net s /\ trace (snd (print l s0)) = trace s
             /\ (exists more, stderr (snd (print l s0)) = (stderr s ++ more)%list)).
  { intros l s0 (H1 & H2 & H3 & more & H4). cbn. repeat split; auto.
    exists (more ++ [l])%list. rewrite H4, app_assoc. reflexivity. }
  specialize (H Hprint (first_token_acquisition self s r rest Htok Hnet Hgr)).
  assert (Hs : access_token s = access_token s /\ net s = net s /\ trace s = trace s
               /\ (exists more, stderr s = (stderr s ++ more)%list)).
  { repeat split. exists []. rewrite app_nil_r. reflexivity. }
  specialize (H s Hs).
  destruct (Bing.extract_all self inc sd ed s) as [[a|e|] s']; cbn [fst snd within] in *;
    try contradiction; apply H.
Qed.

(** C7 (amended): (1) once a non-empty bearer is stored, [get_access_token]
    returns it and leaves the state as it is: no call is issued; (2) a Bing
    run that starts without a token and is granted a non-empty bearer issues
    exactly one token-endpoint call, whatever happens afterwards; (3) a run of
    the Amazon fetcher issues exactly one token-endpoint call; (4)
    [refresh_access_token] itself keeps no cache: every call of it issues a
    token-endpoint call. *)
Theorem token_is_fetched_once :
  (forall (self : Bing.BingAdsExtractor) (s : State),
     truthy (access_token s) = true ->
     Bing.get_access_token self s = (Ok (access_token s), s))
  /\ (forall (self : Bing.BingAdsExtractor) (include_performance_reports : bool)
             (start_date end_date : option string)
             (s : State) (r : Response) (rest : list Reply),
        truthy (access_token s) = false ->
        net s = Answer r :: rest ->
        grants_token r = true ->
        token_calls (Bing.token_url self)
          (trace (snd (Bing.extract_all self include_performance_reports
                         start_date end_date s)))
        = S (token_calls (Bing.token_url self) (trace s)))
  /\ (forall (self : Amazon.AmazonAdsFetcher) (s : State),
        token_calls amazon_token_url (trace (snd (Amazon.fetch_all_data self s)))
        = S (token_calls amazon_token_url (trace s)))
  /\ (forall (self : Amazon.AmazonAdsFetcher) (s : State),
        token_calls amazon_token_url (trace (snd (Amazon.refresh_access_token self s)))
        = S (token_calls amazon_token_url (trace s))).
Proof.
  split; [|split; [|split]].
  - apply get_access_token_cached.
  - apply extract_all_one_token_call.
  - apply fetch_all_data_one_token_call.
  - apply refresh_access_token_one_token_call.
Qed.

(** ** Entity-level containment *)

Lemma nothing_counted q : is_form (body q) = false -> (fun _ : Request => false) q = false.
Proof. reflexivity. Qed.

Lemma keeps_total {A} (m : M A) :
  (forall L c B, keeps (inv (fun _ => false) false L c B) m) ->
  forall s, fst (m s) <> Diverge.
Proof.
  intros H s Hd. specialize (H _ _ _ s (inv_here _ s)). rewrite Hd in H. exact H.
Qed.

Lemma returns_total {A} (m : M A) :
  (forall L c B, returns (inv (fun _ => false) false L c B) m) ->
  forall s, exists a s', m s = (Ok a, s').
Proof.
  intros H s. destruct (returns_ok _ m s (H _ _ _) (inv_here _ s)) as (a & s' & Heq & _).
  eauto.
Qed.



Lemma bind_ok_inv {A B} (m : M A) (f : A -> M B) s b s' :
  bind m f s = (Ok b, s') -> exists a s1, m s = (Ok a, s1) /\ f a s1 = (Ok b, s').
Proof.
  unfold bind. destruct (m s) as [[a|e|] s1]; intros H; try discriminate. eauto.
Qed.























Lemma fetch_always_returns l self pid s :
  exists xs s', fetch l self pid s = (Ok xs, s').
Proof.
  apply returns_total. intros. apply fetch_returns. apply nothing_counted.
Qed.

Lemma well_formed_profile_inv p :
  well_formed_profile p = true ->
  exists d pid info, p = JObj d /\ lookup "profileId" d = Some pid
    /\ py_get (JObj d) "accountInfo" (JObj []) = Ok (JObj info).
Proof.
  destruct p as [| | | | |d]; try discriminate. cbn [well_formed_profile].
  intros H. apply andb_prop in H as [H1 H2]. unfold has_key in H1.
  destruct (lookup "profileId" d) as [pid|] eqn:E; try discriminate.
  destruct (lookup "accountInfo" d) as [[| | | | |info]|] eqn:E2; try discriminate.
  - exists d, pid, info. cbn [py_get]. rewrite E2. auto.
  - exists d, pid, []. cbn [py_get]. rewrite E2. auto.
Qed.

(** One profile: its three campaign lists and its attribution report are
    stored under its id, as the fetches returned them. *)
Lemma fetch_profile_outcome self profile all_data s :
  well_formed_profile profile = true ->
  exists pid sd sb sp rep s',
    py_getitem profile "profileId" = Ok pid /\
    Amazon.fetch_profile self profile all_data s
    = (Ok (Amazon.mkAllData (Amazon.profiles all_data)
             (dict_set (py_str pid)
                (JObj [ ("sponsored_display", JArr sd);
                        ("sponsored_brands", JArr sb);
                        ("sponsored_products", JArr sp) ])
                (Amazon.campaigns all_data))
             (dict_set (py_str pid) (JObj [("attribution_campaign", JArr rep)])
                (Amazon.performance all_data))), s').
Proof.
  intros Hwf.
  destruct (well_formed_profile_inv profile Hwf) as (d & pid & info & -> & Hpid & Hinfo).
  unfold Amazon.fetch_profile. unfold lift at 1 2 3 4.
  cbn [py_getitem]. rewrite Hpid, Hinfo. cbn [py_get].
  do 4 mstep.
  match goal with
  | |- context [bind (Amazon.get_sponsored_display_campaigns ?self ?pid ?f) _ ?s1] =>
      destruct (fetch_always_returns (SponsoredDisplay f) self pid s1) as (sd & s2 & Hsd)
  end.
  cbn [fetch] in Hsd. rewrite (bind_ok _ Hsd).
  match goal with
  | |- context [bind (Amazon.get_sponsored_brands_campaigns ?self ?pid ?f) _ ?s1] =>
      destruct (fetch_always_returns (SponsoredBrands f) self pid s1) as (sb & s3 & Hsb)
  end.
  cbn [fetch] in Hsb. rewrite (bind_ok _ Hsb).
  match goal with
  | |- context [bind (Amazon.get_sponsored_products_campaigns ?self ?pid ?f) _ ?s1] =>
      destruct (fetch_always_returns (SponsoredProducts f) self pid s1) as (sp & s4 & Hsp)
  end.
  cbn [fetch] in Hsp. rewrite (bind_ok _ Hsp).
  mstep.
  match goal with
  | |- context [bind (Amazon.get_attribution_performance_campaign ?self ?pid ?tz) _ ?s1] =>
      destruct (fetch_always_returns (AttributionReport tz) self pid s1) as (rep & s5 & Hrep)
  end.
  cbn [fetch] in Hrep. rewrite (bind_ok _ Hrep).
  exists pid, sd, sb, sp, rep, s5. split; reflexivity.
Qed.


(** Other entries of a dictionary are left alone by an assignment. *)
Lemma lookup_dict_set_other k k' v d :
  k' <> k -> lookup k' (dict_set k v d) = lookup k' d.
Proof.
  intros Hne. induction d as [|[k0 v0] d IH]; cbn [dict_set lookup].
  - apply String.eqb_neq in Hne. rewrite Hne. reflexivity.
  - destruct (String.eqb k k0) eqn:E; cbn [lookup].
    + apply String.eqb_eq in E. subst k0.
      apply String.eqb_neq in Hne. rewrite Hne. reflexivity.
    + destruct (String.eqb k' k0); [reflexivity | exact IH].
Qed.

(** Token acquisition fails: the run is over. *)
Lemma request_fails_raises q s :
  request_fails (net s) = true ->
  (exists s', request q s = (Raise ConnectionError, s'))
  \/ (exists r s', request q s = (Ok r, s') /\ http_error (status_code r) = true).
Proof.
  unfold request_fails, request. cbn [emit net].
  destruct (net s) as [|[|r] rest]; intros H; eauto.
Qed.


Lemma fetch_all_data_aborts self s :
  request_fails (net s) = true ->
  exists e s', Amazon.fetch_all_data self s = (Raise e, s').
Proof.
  intros Hfail.
  assert (Hget : exists e s', Amazon.refresh_access_token self s = (Raise e, s')).
  { unfold Amazon.refresh_access_token. cbv zeta. unfold requests_post.
    match goal with
    | |- context [request ?q] =>
        destruct (request_fails_raises q s Hfail) as [(s2 & Hreq)|(r & s2 & Hreq & Herr)]
    end.
    - do 2 eexists. erewrite try_raise; [|mstep; reflexivity]. mstep. reflexivity.
    - do 2 eexists. erewrite try_raise; [|do 2 mstep; reflexivity]. mstep. reflexivity. }
  destruct Hget as (e & s2 & Hget). exists e, s2.
  unfold Amazon.fetch_all_data. rewrite (bind_raise _ Hget). reflexivity.
Qed.

Lemma lookup_dict_set_same k v d : lookup k (dict_set k v d) = Some v.
Proof.
  induction d as [|[k0 v0] d IH]; cbn [dict_set lookup].
  - rewrite String.eqb_refl. reflexivity.
  - destruct (String.eqb k k0) eqn:E; cbn [lookup]; rewrite E; [reflexivity | exact IH].
Qed.


(** The iteration bounds are never reached: neither run is ever cut off. *)
Lemma runs_are_never_cut_off :
  (forall (self : Bing.BingAdsExtractor) (include_performance_reports : bool)
          (start_date end_date : option string) (s : State),
     fst (Bing.extract_all self include_performance_reports start_date end_date s)
     <> Diverge)
  /\ (forall (self : Amazon.AmazonAdsFetcher) (s : State),
        fst (Amazon.fetch_all_data self s) <> Diverge).
Proof.
  split.
  - intros self inc sd ed. apply keeps_total. intros L c B.
    apply (extract_all_from (fun _ => false) false L nothing_counted
             (or_intror (fun _ => eq_refl))).
    + intros l s Hs. exact (keeps_print _ _ _ _ _ l s Hs).
    + apply keeps_get_access_token. right. reflexivity.
  - intros self s Hd. pose proof (fetch_all_data_run self s) as H.
    rewrite Hd in H. exact H.
Qed.

(** * Further properties of the fetcher and of the extractor *)

(** ** The Amazon token refresh and profile listing *)

(** X1: [refresh_access_token] issues exactly one request, the form-encoded POST of
    the four credentials fields to the token endpoint, without headers.  When
    it returns, the value returned is the one now cached, it was read from a
    JSON object received with a success status (None when that object has no
    [access_token]), and nothing was printed.  When it raises, the cached
    token is what it was and exactly one line, "Error refreshing token: e",
    was printed for the exception [e] that is raised again. *)
Theorem refresh_access_token_outcome :
  forall (self : Amazon.AmazonAdsFetcher) (s : State),
    trace (snd (Amazon.refresh_access_token self s))
    = (trace s
       ++ [Sent (mkRequest POST "https://api.amazon.com/auth/o2/token" []
                   (Form (JObj [ ("grant_type", JStr "refresh_token");
                                 ("refresh_token", JStr (Amazon.refresh_token self));
                                 ("client_id", JStr (Amazon.client_id self));
                                 ("client_secret", JStr (Amazon.client_secret self)) ])))])%list
    /\ match Amazon.refresh_access_token self s with
       | (Ok tok, s') =>
           access_token s' = tok /\ stderr s' = stderr s
           /\ exists r rest d,
                net s = Answer r :: rest /\ net s' = rest
                /\ http_error (status_code r) = false
                /\ json_body r = Some (JObj d)
                /\ tok = match lookup "access_token" d with Some t => t | None => JNull end
       | (Raise e, s') =>
           access_token s' = access_token s
           /\ stderr s' = (stderr s ++ [LogError "Error refreshing token" e])%list
       | (Diverge, _) => False
       end.
Proof.
  intros self s.
  unfold Amazon.refresh_access_token, try_except, bind, requests_post, request,
    raise_for_status, response_json, lift, set_access_token, ret, raise, print, emit, set_net.
  cbn [net trace access_token stderr clock ticks today now_iso].
  destruct (net s) as [|[|r] rest] eqn:E; cbn; auto.
  destruct (http_error (status_code r)) eqn:Hs; cbn; auto.
  destruct (json_body r) as [v|] eqn:Hb; cbn; auto.
  destruct v; cbn; auto.
  split; [reflexivity|]. split; [reflexivity|]. split; [reflexivity|].
  exists r, rest, kvs. auto.
Qed.

(** X2: [get_profiles] never raises.  It issues exactly one request and leaves the
    token alone; it returns either the decoded body of a success answer, as it
    is and without a line printed, or the empty list after printing one line
    "Error fetching profiles: e". *)
Theorem get_profiles_never_raises :
  forall (self : Amazon.AmazonAdsFetcher) (s : State),
  exists v s',
    Amazon.get_profiles self s = (Ok v, s')
    /\ calls (trace s') = S (calls (trace s))
    /\ net s' = List.tl (net s)
    /\ access_token s' = access_token s
    /\ ((stderr s' = stderr s
         /\ exists r, List.hd_error (net s) = Some (Answer r)
              /\ http_error (status_code r) = false /\ json_body r = Some v)
        \/ (v = JArr []
            /\ exists e, stderr s' = (stderr s ++ [LogError "Error fetching profiles" e])%list)).
Proof.
  intros self s.
  unfold Amazon.get_profiles, Amazon._get_headers, try_except, bind, get_state, requests_get,
    request, raise_for_status, response_json, ret, raise, print, emit, set_net.
  cbn [net trace access_token stderr clock ticks today now_iso].
  destruct (net s) as [|[|r] rest] eqn:E; cbn [List.tl List.hd_error];
    [ | | destruct (http_error (status_code r)) eqn:Hs; cbv beta iota;
          [ | destruct (json_body r) as [v|] eqn:Hb; cbv beta iota ] ];
    (do 2 eexists; split; [reflexivity|];
     cbn [trace net access_token stderr List.tl snd fst]; rewrite calls_snoc;
     repeat split; eauto).
  left. split; eauto.
Qed.

(** Unfolds the monad and the primitive effects. *)
Ltac unfold_monad :=
  unfold try_except, bind, get_state, requests_get, requests_post, request,
    raise_for_status, response_json, lift, set_access_token, ret, raise, print,
    emit, set_net, datetime_now, time_time, time_sleep;
  cbn [net trace access_token stderr clock ticks today now_iso].

(** X3: when the token is received and the call that lists the profiles fails
    (no answer, or an error status), [fetch_all_data] does not fail: it
    returns the data with an empty profile list and empty [campaigns] and
    [performance] dictionaries, after two requests and one error line. *)
Theorem failed_profile_listing_gives_empty_data :
  forall (self : Amazon.AmazonAdsFetcher) (s : State) (r : Response) (d : dict)
         (rest : list Reply),
    net s = Answer r :: rest ->
    http_error (status_code r) = false ->
    json_body r = Some (JObj d) ->
    request_fails rest = true ->
    exists e s',
      Amazon.fetch_all_data self s = (Ok (Amazon.mkAllData (JArr []) [] []), s')
      /\ calls (trace s') = (calls (trace s) + 2)%nat
      /\ net s' = List.tl rest
      /\ stderr s' = (stderr s ++ [LogError "Error fetching profiles" e])%list.
Proof.
  intros self s r d rest Hnet Hok Hbody Hfail.
  unfold Amazon.fetch_all_data, Amazon.refresh_access_token, Amazon.get_profiles,
    Amazon._get_headers.
  unfold_monad. rewrite Hnet. cbv beta iota. rewrite Hok. cbv beta iota.
  rewrite Hbody. cbn [py_get]. cbv beta iota.
  cbn [net trace access_token stderr clock ticks today now_iso].
  destruct rest as [|[|r2] rest2]; cbv beta iota.
  - do 2 eexists. split; [reflexivity|].
    cbn [trace net stderr List.tl]. rewrite !calls_snoc. repeat split. lia.
  - do 2 eexists. split; [reflexivity|].
    cbn [trace net stderr List.tl]. rewrite !calls_snoc. repeat split. lia.
  - cbn [request_fails] in Hfail. rewrite Hfail. cbv beta iota.
    do 2 eexists. split; [reflexivity|].
    cbn [trace net stderr List.tl]. rewrite !calls_snoc. repeat split. lia.
Qed.

(** The run of [fetch_all_data] up to its loop, when the token and the
    profiles are received. *)
Lemma fetch_all_data_reaches_loop self s r0 d0 r v rest :
  net s = Answer r0 :: Answer r :: rest ->
  http_error (status_code r0) = false -> json_body r0 = Some (JObj d0) ->
  http_error (status_code r) = false -> json_body r = Some v ->
  exists s2,
    Amazon.fetch_all_data self s
    = (ps <- lift (py_iter v) ;; Amazon.for_profiles self ps (Amazon.mkAllData v [] [])) s2
    /\ net s2 = rest
    /\ calls (trace s2) = (calls (trace s) + 2)%nat
    /\ stderr s2 = stderr s.
Proof.
  intros Hnet Hok0 Hb0 Hok Hb.
  unfold Amazon.fetch_all_data, Amazon.refresh_access_token, Amazon.get_profiles,
    Amazon._get_headers.
  unfold_monad. rewrite Hnet. cbv beta iota. rewrite Hok0. cbv beta iota.
  rewrite Hb0. cbn [py_get]. cbv beta iota.
  cbn [net trace access_token stderr clock ticks today now_iso].
  rewrite Hok. cbv beta iota. rewrite Hb. cbv beta iota.
  eexists. split; [reflexivity|].
  cbn [trace net stderr]. rewrite !calls_snoc. repeat split. lia.
Qed.

Lemma for_profiles_aborts self done d rest : forall all_data s,
  forallb well_formed_profile done = true ->
  lookup "profileId" d = None ->
  exists s', Amazon.for_profiles self (done ++ JObj d :: rest) all_data s
             = (Raise (KeyError "profileId"), s').
Proof.
  induction done as [|p done IH]; intros all_data s Hwf Hd.
  - cbn [app Amazon.for_profiles]. unfold Amazon.fetch_profile.
    eexists. unfold bind at 1. unfold bind at 1. unfold lift at 1.
    cbn [py_getitem]. rewrite Hd. reflexivity.
  - cbn [forallb] in Hwf. apply andb_prop in Hwf as [Hp Hwf].
    destruct (fetch_profile_outcome self p all_data s Hp)
      as (pid & sd & sb & sp & rep & s1 & _ & Hrun).
    cbn [app Amazon.for_profiles]. mstep. apply IH; assumption.
Qed.

(** X4: a profile dictionary without [profileId] makes [fetch_all_data] raise
    [KeyError("profileId")], also when the profiles before it were read: what
    was fetched for them is not returned. *)
Theorem profile_without_id_aborts :
  forall (self : Amazon.AmazonAdsFetcher) (s : State) (r0 : Response) (d0 : dict)
         (r : Response) (done : list json) (d : dict) (others : list json)
         (rest : list Reply),
    net s = Answer r0 :: Answer r :: rest ->
    http_error (status_code r0) = false -> json_body r0 = Some (JObj d0) ->
    http_error (status_code r) = false ->
    json_body r = Some (JArr (done ++ JObj d :: others)) ->
    forallb well_formed_profile done = true ->
    lookup "profileId" d = None ->
    fst (Amazon.fetch_all_data self s) = Raise (KeyError "profileId").
Proof.
  intros self s r0 d0 r done d others rest Hnet Hok0 Hb0 Hok Hb Hwf Hd.
  destruct (fetch_all_data_reaches_loop self s r0 d0 r _ rest Hnet Hok0 Hb0 Hok Hb)
    as (s2 & Hrun & _).
  rewrite Hrun. unfold lift. cbn [py_iter]. unfold bind at 1.
  destruct (for_profiles_aborts self done d others
              (Amazon.mkAllData (JArr (done ++ JObj d :: others)) [] []) s2 Hwf Hd)
    as [s' Hs'].
  rewrite Hs'. reflexivity.
Qed.

(** A decoded document that [for profile in profiles] cannot go through, or
    whose first element is no profile: anything but a list, the empty dict and
    the empty string. *)
(** X5: [get_profiles] returns the decoded answer unchecked.  When that answer is
    anything but a list (and neither the empty dictionary nor the empty
    string, which the loop goes through without a turn), [fetch_all_data]
    raises [TypeError]. *)
Theorem profiles_that_are_no_list_abort :
  forall (self : Amazon.AmazonAdsFetcher) (s : State) (r0 : Response) (d0 : dict)
         (r : Response) (v : json) (rest : list Reply),
    net s = Answer r0 :: Answer r :: rest ->
    http_error (status_code r0) = false -> json_body r0 = Some (JObj d0) ->
    http_error (status_code r) = false ->
    json_body r = Some v ->
    is_list v = false -> v <> JObj [] -> v <> JStr EmptyString ->
    fst (Amazon.fetch_all_data self s) = Raise TypeError.
Proof.
  intros self s r0 d0 r v rest Hnet Hok0 Hb0 Hok Hb Hl Hobj Hstr.
  destruct (fetch_all_data_reaches_loop self s r0 d0 r _ rest Hnet Hok0 Hb0 Hok Hb)
    as (s2 & Hrun & _).
  rewrite Hrun. unfold lift.
  destruct v as [| | |str| |kvs]; try discriminate; try reflexivity.
  - destruct str as [|c str]; [congruence|]. reflexivity.
  - destruct kvs as [|[k x] kvs]; [congruence|]. reflexivity.
Qed.

(** ** The shape of the data [fetch_all_data] returns *)

Lemma keys_dict_set k x y : forall d1 d2,
  map fst d1 = map fst d2 ->
  map fst (dict_set k x d1) = map fst (dict_set k y d2).
Proof.
  induction d1 as [|[k1 v1] d1 IH]; intros [|[k2 v2] d2] H; try discriminate.
  - reflexivity.
  - cbn [map fst] in H. injection H as Hk Hd. subst k2. cbn [dict_set].
    destruct (String.eqb k k1); cbn [map fst]; [congruence|].
    f_equal. apply IH. exact Hd.
Qed.

Lemma Forall_dict_set (Q : string * json -> Prop) k x : forall d,
  (forall k', Q (k', x)) -> Forall Q d -> Forall Q (dict_set k x d).
Proof.
  induction d as [|[k1 v1] d IH]; intros Hx Hd; cbn [dict_set].
  - constructor; auto.
  - inversion Hd; subst. destruct (String.eqb k k1); constructor; auto.
Qed.

Lemma ret_ok_inv {A} (a b : A) s s' : ret a s = (Ok b, s') -> a = b /\ s = s'.
Proof. unfold ret. intros H. inversion H. auto. Qed.

Lemma fetch_profile_shape self p all_data s all_data' s' :
  Amazon.fetch_profile self p all_data s = (Ok all_data', s') ->
  well_shaped all_data -> 
  well_shaped all_data' /\ Amazon.profiles all_data' = Amazon.profiles all_data.
Proof.
  unfold Amazon.fetch_profile. intros H (Hk & Hc & Hp).
  repeat (apply bind_ok_inv in H as (? & ? & _ & H)).
  apply ret_ok_inv in H as [<- _]. split; [|reflexivity].
  unfold well_shaped. cbn [Amazon.campaigns Amazon.performance]. split; [|split].
  - apply keys_dict_set. exact Hk.
  - apply Forall_dict_set; [|exact Hc]. intros k'. unfold campaign_lists. cbn [snd]. eauto.
  - apply Forall_dict_set; [|exact Hp]. intros k'. unfold attribution_list. cbn [snd]. eauto.
Qed.

Lemma for_profiles_shape self ps : forall all_data s all_data' s',
  Amazon.for_profiles self ps all_data s = (Ok all_data', s') ->
  well_shaped all_data -> 
  well_shaped all_data' /\ Amazon.profiles all_data' = Amazon.profiles all_data.
Proof.
  induction ps as [|p ps IH]; intros all_data s all_data' s' H Hw; cbn [Amazon.for_profiles] in H.
  - apply ret_ok_inv in H as [<- _]. auto.
  - apply bind_ok_inv in H as (ad1 & s1 & H1 & H).
    destruct (fetch_profile_shape _ _ _ _ _ _ H1 Hw) as [Hw1 Hp1].
    destruct (IH _ _ _ _ H Hw1) as [Hw2 Hp2]. split; [exact Hw2|congruence].
Qed.

(** X6: whenever [fetch_all_data] returns, [campaigns] and [performance] have the
    same keys in the same order, every entry of [campaigns] holds exactly the
    three lists [sponsored_display], [sponsored_brands] and
    [sponsored_products], and every entry of [performance] exactly the list
    [attribution_campaign]. *)
Theorem fetch_all_data_is_well_shaped :
  forall (self : Amazon.AmazonAdsFetcher) (s : State) (all_data : Amazon.AllData)
         (s' : State),
    Amazon.fetch_all_data self s = (Ok all_data, s') ->
    map fst (Amazon.campaigns all_data) = map fst (Amazon.performance all_data)
    /\ Forall campaign_lists (Amazon.campaigns all_data)
    /\ Forall attribution_list (Amazon.performance all_data).
Proof.
  intros self s all_data s' H. unfold Amazon.fetch_all_data in H.
  apply bind_ok_inv in H as (tok & s1 & _ & H).
  apply bind_ok_inv in H as (v & s2 & Hv & H).
  apply bind_ok_inv in H as (ps & s3 & _ & H).
  destruct (for_profiles_shape _ _ _ _ _ _ H) as [(Hk & Hc & Hp) Hprof].
  { repeat split; constructor. }
  auto.
Qed.

(** ** The requests of the paginated fetches *)

Lemma get_headers_frame self p s s1 h :
  access_token s1 = access_token s ->
  Amazon._get_headers self p s = (Ok h, s) ->
  Amazon._get_headers self p s1 = (Ok h, s1).
Proof.
  unfold Amazon._get_headers, bind, get_state, ret. intros Ht H. rewrite Ht.
  destruct p as [p|]; [destruct (String.eqb p EmptyString)|]; inversion H; reflexivity.
Qed.

Lemma request_token q s : access_token (snd (request q s)) = access_token s.
Proof. unfold request. simpl. destruct (net s) as [|[|r] t]; reflexivity. Qed.

Lemma map_seq_S {A} (g : nat -> A) n :
  map g (seq 0 (S n)) = g 0%nat :: map (fun j => g (S j)) (seq 0 n).
Proof. cbn [seq map]. f_equal. rewrite <- seq_shift, map_map. reflexivity. Qed.

Lemma sd_loop_sends self pid f h : forall fuel i acc s,
  Amazon._get_headers self (Some pid) s = (Ok h, s) ->
  exists n, (fuel <> 0 -> n <> 0)%nat /\
    trace (snd (Amazon.sd_loop fuel self pid f (100 * Z.of_nat i) acc s))
    = (trace s ++ map (fun j => Sent (sd_request self h f (i + j))) (seq 0 n))%list.
Proof.
  induction fuel as [|fuel IH]; intros i acc s Hh.
  - exists 0%nat. split; [congruence|]. cbn. rewrite app_nil_r. reflexivity.
  - cbn [Amazon.sd_loop]. rewrite (bind_ok _ Hh). unfold requests_get.
    set (q := mkRequest GET _ h _).
    assert (Hq : q = sd_request self h f (i + 0)) by (rewrite Nat.add_0_r; reflexivity).
    pose proof (request_trace q s) as Htr. pose proof (request_token q s) as Htok.
    destruct (request q s) as [res s1] eqn:Hreq. cbn [snd] in Htr, Htok.
    assert (Hone : trace s1 = (trace s ++ map (fun j => Sent (sd_request self h f (i + j)))
                                               (seq 0 1))%list).
    { rewrite Htr, Hq. reflexivity. }
    destruct res as [r|e|]; [|exists 1%nat; rewrite (bind_raise _ Hreq); auto
                             |exists 1%nat; unfold bind at 1; rewrite Hreq; auto].
    rewrite (bind_ok _ Hreq).
    unfold raise_for_status, response_json, lift, raise, ret.
    unfold bind at 1. destruct (http_error (status_code r)); [exists 1%nat; auto|].
    unfold bind at 1. destruct (json_body r) as [data|]; [|exists 1%nat; auto].
    destruct (negb (truthy data)); [exists 1%nat; auto|].
    unfold bind at 1. destruct (py_iter data) as [its| |]; [|exists 1%nat; auto|exists 1%nat; auto].
    unfold bind at 1. destruct (py_len data) as [n| |]; [|exists 1%nat; auto|exists 1%nat; auto].
    destruct (n <? 100); [exists 1%nat; auto|].
    destruct (IH (S i) (acc ++ its)%list s1 (get_headers_frame _ _ _ _ _ Htok Hh))
      as (m & _ & Hm).
    exists (S m). split; [congruence|].
    replace (100 * Z.of_nat i + 100) with (100 * Z.of_nat (S i)) by lia.
    rewrite Hm, Htr, Hq, map_seq_S, <- app_assoc. cbn [app]. do 2 f_equal.
    apply map_ext. intros j. rewrite Nat.add_succ_r. reflexivity.
Qed.

(** X7: whatever the answers are, the requests [get_sponsored_display_campaigns]
    issues are, in this order, the GETs of [/sd/campaigns] with [count] 100
    and [startIndex] 0, 100, 200, ...: there is at least one, none is skipped
    or repeated, and all carry the same headers and state filter. *)
Theorem sponsored_display_requests_are_consecutive :
  forall (self : Amazon.AmazonAdsFetcher) (profile_id state_filter : string) (s : State),
  exists (headers : list (string * string)) (n : nat),
    Amazon._get_headers self (Some profile_id) s = (Ok headers, s)
    /\ n <> 0%nat
    /\ trace (snd (Amazon.get_sponsored_display_campaigns self profile_id state_filter s))
       = (trace s ++ map (fun j => Sent (sd_request self headers state_filter j)) (seq 0 n))%list.
Proof.
  intros self pid f s.
  destruct (get_headers_pure self (Some pid) s) as [h Hh].
  destruct (sd_loop_sends self pid f h (loop_bound s) 0 [] s Hh) as (n & Hn & Htr).
  exists h, n. split; [exact Hh|]. split; [apply Hn; discriminate|].
  unfold Amazon.get_sponsored_display_campaigns, try_except.
  unfold bind at 1. unfold get_state at 1.
  change (100 * Z.of_nat 0) with 0 in Htr.
  destruct (Amazon.sd_loop (loop_bound s) self pid f 0 [] s) as [[xs|e|] s1]; exact Htr.
Qed.

Lemma dict_set_twice k v1 v2 : forall d,
  dict_set k v2 (dict_set k v1 d) = dict_set k v2 d.
Proof.
  induction d as [|[k' v'] d IH]; cbn [dict_set].
  - rewrite String.eqb_refl. reflexivity.
  - destruct (String.eqb k k') eqn:E; cbn [dict_set]; rewrite E; [reflexivity|].
    rewrite IH. reflexivity.
Qed.

(** One iteration of the token / cursor loop on a page, with the request it
    sends and the payload of the next one. *)
Lemma keyed_iteration_sent l u gh h fuel payload acc s r tl :
  is_keyed l = true -> gh s = (Ok h, s) ->
  net s = Answer r :: tl ->
  is_page l r = true ->
  let s1 := set_net tl (emit (Sent (mkRequest POST u h (Json (JObj payload)))) s) in
  Amazon.keyed_loop (S fuel) (stops_on_400 l) (items_key l) (next_key l) u gh payload acc s
  = if more l r
    then Amazon.keyed_loop fuel (stops_on_400 l) (items_key l) (next_key l) u gh
           (dict_set (next_key l) (next_token l r) payload) (acc ++ items l r) s1
    else (Ok (acc ++ items l r)%list, s1).
Proof.
  intros Hk Hh Hnet Hp s1.
  destruct (keyed_page_inv _ _ Hk Hp) as (Hst & d & Hb & Hitems & Hnil & Hmore).
  assert (Hreq : request (mkRequest POST u h (Json (JObj payload))) s = (Ok r, s1)).
  { unfold request. cbn [net emit]. rewrite Hnet. reflexivity. }
  assert (H400 : (stops_on_400 l && (status_code r =? 400)) = false).
  { destruct (status_code r =? 400) eqn:E; [|apply andb_false_r].
    apply status_400_error in E. congruence. }
  unfold next_token. rewrite Hb.
  cbn [Amazon.keyed_loop]. unfold requests_post, response_json.
  do 2 mstep. rewrite H400. mstep. rewrite Hb. mstep.
  unfold lift. cbn [py_contains py_getitem]. unfold has_key. rewrite Hmore.
  destruct (lookup (next_key l) d) as [t|] eqn:Hn.
  - destruct Hitems as [Hi|Hi]; rewrite Hi.
    + rewrite (Hnil Hi), app_nil_r. repeat mstep.
      destruct (truthy t); reflexivity.
    + cbn [res_bind py_iter]. repeat mstep.
      destruct (truthy t); reflexivity.
  - destruct Hitems as [Hi|Hi]; rewrite Hi.
    + rewrite (Hnil Hi), app_nil_r. repeat mstep. reflexivity.
    + cbn [res_bind py_iter]. repeat mstep. reflexivity.
Qed.

Lemma keyed_loop_sent l u gh h full : forall fuel payload acc s tl,
  is_keyed l = true ->
  (forall s', access_token s' = access_token s -> gh s' = (Ok h, s')) ->
  net s = (map Answer full ++ tl)%list ->
  forallb (inner_page l) full = true ->
  exists s' payload',
    Amazon.keyed_loop (List.length full + fuel) (stops_on_400 l) (items_key l) (next_key l)
      u gh payload acc s
    = Amazon.keyed_loop fuel (stops_on_400 l) (items_key l) (next_key l) u gh payload'
        (acc ++ flat_map (items l) full) s'
    /\ net s' = tl
    /\ access_token s' = access_token s
    /\ trace s' = (trace s ++ map (fun p => Sent (mkRequest POST u h (Json (JObj p))))
                                  (payloads l payload full))%list
    /\ payload' = fold_left (fun p r => dict_set (next_key l) (next_token l r) p) full payload.
Proof.
  induction full as [|r full IH]; intros fuel payload acc s tl Hk Hgh Hnet Hall.
  - exists s, payload. cbn. rewrite !app_nil_r. auto.
  - cbn [forallb] in Hall. apply andb_prop in Hall as [Hr Hall].
    unfold inner_page in Hr. apply andb_prop in Hr as [Hp Hm].
    cbn [map app] in Hnet.
    pose proof (keyed_iteration_sent l u gh h (List.length full + fuel) payload acc s r _
                  Hk (Hgh s eq_refl) Hnet Hp) as Hit.
    cbv zeta in Hit. rewrite Hm in Hit.
    set (s1 := set_net _ _) in Hit.
    destruct (IH fuel (dict_set (next_key l) (next_token l r) payload)
                (acc ++ items l r)%list s1 tl Hk)
      as (s' & p' & Hloop & Hn' & Ht' & Htr' & Hp'); [ | reflexivity | exact Hall | ].
    { intros s2 H2. apply Hgh. rewrite H2. reflexivity. }
    exists s', p'. split; [|split; [|split; [|split]]].
    + change (List.length (r :: full) + fuel)%nat with (S (List.length full + fuel)).
      rewrite Hit, Hloop. cbn [flat_map]. rewrite app_assoc. reflexivity.
    + exact Hn'.
    + rewrite Ht'. reflexivity.
    + rewrite Htr'. cbn [payloads map]. subst s1. cbn [trace set_net emit].
      rewrite <- app_assoc. reflexivity.
    + exact Hp'.
Qed.

Lemma payloads_app l y : forall xs p,
  payloads l p (xs ++ [y])
  = (payloads l p xs
     ++ [fold_left (fun p r => dict_set (next_key l) (next_token l r) p) xs p])%list.
Proof.
  induction xs as [|x xs IH]; intros p; cbn [app payloads fold_left]; [reflexivity|].
  rewrite IH. reflexivity.
Qed.

Lemma payloads_nth l last : forall pages base k r,
  nth_error pages k = Some r ->
  exists p, nth_error (payloads l base (pages ++ [last])) (S k) = Some p
    /\ lookup (next_key l) p = Some (next_token l r)
    /\ forall key, key <> next_key l -> lookup key p = lookup key base.
Proof.
  induction pages as [|r0 pages IH]; intros base k r Hk; [destruct k; discriminate|].
  cbn [app payloads nth_error]. destruct k as [|k].
  - cbn [nth_error] in Hk. injection Hk as ->.
    exists (dict_set (next_key l) (next_token l r) base). split; [|split].
    + destruct pages; reflexivity.
    + apply lookup_dict_set_same.
    + intros key Hkey. apply lookup_dict_set_other. exact Hkey.
  - cbn [nth_error] in Hk.
    destruct (IH (dict_set (next_key l) (next_token l r0) base) k r Hk) as (p & Hp & Ht & Ho).
    exists p. split; [exact Hp|]. split; [exact Ht|].
    intros key Hkey. rewrite (Ho key Hkey). apply lookup_dict_set_other. exact Hkey.
Qed.

Lemma keyed_fetch_sent l u gh h base (handler : exn -> M (list json)) s full last rest :
  is_keyed l = true ->
  (forall s', access_token s' = access_token s -> gh s' = (Ok h, s')) ->
  net s = (map Answer full ++ Answer last :: rest)%list ->
  forallb (inner_page l) full = true ->
  final_page l last = true ->
  trace (snd (try_except
                (s0 <- get_state ;;
                 Amazon.keyed_loop (loop_bound s0) (stops_on_400 l) (items_key l) (next_key l)
                   u gh base [])
                handler s))
  = (trace s ++ map (fun p => Sent (mkRequest POST u h (Json (JObj p))))
                   (payloads l base (full ++ [last])))%list.
Proof.
  intros Hk Hgh Hnet Hall Hlast.
  unfold final_page in Hlast. apply andb_prop in Hlast as [Hp Hm].
  apply negb_true_iff in Hm.
  destruct (keyed_loop_sent l u gh h full (S (S (List.length rest))) base [] s
              (Answer last :: rest) Hk Hgh Hnet Hall)
    as (s' & p' & Hloop & Hn' & Ht' & Htr' & Hp').
  pose proof (keyed_iteration_sent l u gh h (S (List.length rest)) p'
                ([] ++ flat_map (items l) full) s' last rest Hk (Hgh s' Ht') Hn' Hp) as Hit.
  cbv zeta in Hit. rewrite Hm in Hit.
  unfold try_except. unfold bind at 1. unfold get_state at 1. cbv beta iota.
  rewrite (loop_bound_app s full (Answer last :: rest) Hnet). cbn [List.length].
  rewrite Hloop, Hit. cbn [snd trace set_net emit].
  rewrite Htr', payloads_app, map_app, <- app_assoc, Hp'. reflexivity.
Qed.

(** X8: for the token and cursor variants, on pages that continue followed by a
    final page, the requests issued are POSTs to the endpoint of the listing,
    all with the same headers; the first payload has no continuation value,
    and the payload that follows a page carries the [nextToken] / [cursorId]
    of that page and is otherwise the first payload. *)
Theorem continuation_token_is_forwarded :
  forall (l : Listing) (self : Amazon.AmazonAdsFetcher) (profile_id : string)
         (s : State) (full : list Response) (last : Response) (rest : list Reply),
    is_keyed l = true ->
    net s = (map Answer full ++ Answer last :: rest)%list ->
    forallb (inner_page l) full = true ->
    final_page l last = true ->
    exists (headers : list (string * string)) (base : dict),
      lookup (next_key l) base = None
      /\ trace (snd (fetch l self profile_id s))
         = (trace s ++ map (fun p => Sent (mkRequest POST (endpoint self l) headers
                                             (Json (JObj p))))
                          (payloads l base (full ++ [last])))%list
      /\ (forall k r, nth_error full k = Some r ->
          exists p, nth_error (payloads l base (full ++ [last])) (S k) = Some p
            /\ lookup (next_key l) p = Some (next_token l r)
            /\ forall key, key <> next_key l -> lookup key p = lookup key base).
Proof.
  intros l self pid s full last rest Hk Hnet Hall Hlast.
  destruct l as [f|f|f|tz]; [discriminate| | |].
  - destruct (media_headers_pure self pid "application/vnd.sbcampaignresource.v4+json" s)
      as [h Hh].
    exists h, (Amazon.list_payload f). split; [reflexivity|]. split.
    + cbn [fetch]. unfold Amazon.get_sponsored_brands_campaigns. mstep.
      eapply (keyed_fetch_sent (SponsoredBrands f)); eauto.
    + intros k r. apply payloads_nth.
  - destruct (media_headers_pure self pid "application/vnd.spCampaign.v3+json" s)
      as [h Hh].
    exists h, (Amazon.list_payload f). split; [reflexivity|]. split.
    + cbn [fetch]. unfold Amazon.get_sponsored_products_campaigns. mstep.
      eapply (keyed_fetch_sent (SponsoredProducts f)); eauto.
    + intros k r. apply payloads_nth.
  - destruct (get_headers_pure self (Some pid) s) as [h Hh].
    eexists h, _. split; [|split].
    2:{ cbn [fetch]. unfold Amazon.get_attribution_performance_campaign.
        unfold bind at 1. unfold datetime_now at 1.
        eapply (keyed_fetch_sent (AttributionReport tz)); eauto.
        intros s' Hs'. eapply get_headers_frame; eauto. }
    + reflexivity.
    + intros k r. apply payloads_nth.
Qed.

(** ** The Bing token, users, accounts and campaigns *)

(** X9: [get_access_token] prints nothing.  When it returns, the value returned is
    the one cached afterwards; with a true token cached before, the state is
    unchanged, otherwise exactly one request was issued.  It raises only when
    no true token was cached; the cache is then what it was, after exactly one
    request, so that the next call tries again. *)
Theorem get_access_token_outcome :
  forall (self : Bing.BingAdsExtractor) (s : State),
    match Bing.get_access_token self s with
    | (Ok tok, s') =>
        access_token s' = tok /\ stderr s' = stderr s
        /\ (truthy (access_token s) = true -> s' = s)
        /\ (truthy (access_token s) = false -> calls (trace s') = S (calls (trace s)))
    | (Raise e, s') =>
        truthy (access_token s) = false
        /\ access_token s' = access_token s /\ stderr s' = stderr s
        /\ calls (trace s') = S (calls (trace s))
    | (Diverge, _) => False
    end.
Proof.
  intros self s. unfold Bing.get_access_token. unfold_monad.
  destruct (truthy (access_token s)) eqn:Ht.
  - repeat split; auto. discriminate.
  - destruct (net s) as [|[|r] rest] eqn:E; cbv beta iota;
      cbn [trace access_token stderr]; rewrite ?calls_snoc; auto.
    destruct (http_error (status_code r)); cbv beta iota;
      cbn [trace access_token stderr]; rewrite ?calls_snoc; auto.
    destruct (json_body r) as [v|]; cbv beta iota;
      cbn [trace access_token stderr]; rewrite ?calls_snoc; auto.
    destruct (py_getitem v "access_token") as [tok|e|] eqn:Hg; cbv beta iota;
      cbn [trace access_token stderr]; rewrite ?calls_snoc; auto.
    + repeat split; auto. discriminate.
    + exact (py_getitem_total _ _ Hg).
Qed.

(** X10: on a success answer that is a JSON object, [get_users] returns a list: the
    value of [User] when it is a list, the one-element list of that value when
    it is anything else that is true, and the empty list when it is missing or
    not true. *)
Theorem get_users_normalises :
  forall (self : Bing.BingAdsExtractor) (s : State) (r : Response) (d : dict)
         (rest : list Reply),
    truthy (access_token s) = true ->
    net s = Answer r :: rest ->
    http_error (status_code r) = false ->
    json_body r = Some (JObj d) ->
    fst (Bing.get_users self s)
    = Ok (match lookup "User" d with
          | Some (JArr users) => users
          | Some user => if truthy user then [user] else []
          | None => []
          end).
Proof.
  intros self s r d rest Ht Hnet Hok Hb.
  unfold Bing.get_users. destruct (auth_headers_cached self None None s Ht) as [h Hh].
  rewrite (bind_ok _ Hh).
  unfold_monad. rewrite Hnet. cbv beta iota. rewrite Hok. cbv beta iota.
  rewrite Hb. cbn [py_get]. cbv beta iota.
  destruct (lookup "User" d) as [[| | | | |]|]; cbn; try reflexivity;
    match goal with |- context [if ?b then _ else _] => destruct b; reflexivity end.
Qed.

Lemma get_accounts_answer self u s r d rest :
  truthy (access_token s) = true ->
  net s = Answer r :: rest ->
  http_error (status_code r) = false ->
  json_body r = Some (JObj d) ->
  exists s1,
    Bing.get_accounts self u s
    = (Ok (match lookup "Accounts" d with Some v => v | None => JArr [] end), s1).
Proof.
  intros Ht Hnet Hok Hb.
  unfold Bing.get_accounts. destruct (auth_headers_cached self None None s Ht) as [h Hh].
  rewrite (bind_ok _ Hh).
  unfold_monad. rewrite Hnet. cbv beta iota. rewrite Hok. cbv beta iota.
  rewrite Hb. cbn [py_get]. eexists. reflexivity.
Qed.

(** X11: [get_accounts] returns the value of [Accounts] as it is, the empty list
    when the key is missing.  A value the account loop cannot go through, such
    as null, makes the turn of [extract_all] for that user raise [TypeError],
    outside of any [try]. *)
Theorem accounts_are_not_normalised :
  forall (self : Bing.BingAdsExtractor) (include_performance_reports : bool)
         (start_date end_date : option string) (user : json) (result : Bing.Result)
         (s : State) (user_id : json) (u : Z) (r : Response) (d : dict) (rest : list Reply),
    py_get user "Id" JNull = Ok user_id -> truthy user_id = true -> py_int user_id = Ok u ->
    truthy (access_token s) = true ->
    net s = Answer r :: rest ->
    http_error (status_code r) = false ->
    json_body r = Some (JObj d) ->
    fst (Bing.get_accounts self u s)
    = Ok (match lookup "Accounts" d with Some v => v | None => JArr [] end)
    /\ (forall v, lookup "Accounts" d = Some v -> py_iter v = Raise TypeError ->
        fst (Bing.extract_user self include_performance_reports start_date end_date
               user result s) = Raise TypeError).
Proof.
  intros self inc sd ed user result s uid u r d rest Hid Htr Hint Ht Hnet Hok Hb.
  split.
  - destruct (get_accounts_answer self u s r d rest Ht Hnet Hok Hb) as [s1 H1].
    rewrite H1. reflexivity.
  - intros v Hv Hiter. unfold Bing.extract_user.
    unfold lift at 1. rewrite Hid. unfold bind at 1. rewrite Htr. cbn [negb].
    unfold bind at 1. unfold print at 1. unfold lift at 1. rewrite Hint. unfold bind at 1.
    match goal with |- fst (bind _ _ ?s0) = _ =>
      destruct (get_accounts_answer self u s0 r d rest Ht Hnet Hok Hb) as [s1 H1] end.
    rewrite (bind_ok _ H1). rewrite Hv. unfold lift at 1. rewrite Hiter. reflexivity.
Qed.

Lemma tag_campaigns_objects a c : forall raw,
  forallb is_object raw = true ->
  exists cs, Bing.tag_campaigns a c raw = Ok cs /\ Forall2 (tagged a c) raw cs.
Proof.
  induction raw as [|x raw IH]; intros H.
  - exists []. split; [reflexivity|constructor].
  - cbn [forallb] in H. apply andb_prop in H as [Hx H].
    destruct x as [| | | | |d]; try discriminate.
    destruct (IH H) as (cs & Hcs & Hall).
    eexists. cbn [Bing.tag_campaigns py_setitem res_bind]. rewrite Hcs. cbn [res_bind].
    split; [reflexivity|]. constructor; [|exact Hall].
    exists d. eexists. split; [reflexivity|]. split; [reflexivity|]. split; [|split].
    + rewrite lookup_dict_set_other by discriminate. apply lookup_dict_set_same.
    + apply lookup_dict_set_same.
    + intros key H1 H2. rewrite !lookup_dict_set_other by assumption. reflexivity.
Qed.

Lemma tag_campaigns_fails a c : forall raw,
  forallb is_object raw = false -> Bing.tag_campaigns a c raw = Raise TypeError.
Proof.
  induction raw as [|x raw IH]; intros H; [discriminate|].
  cbn [forallb] in H. destruct x as [| | | | |d]; try reflexivity.
  cbn [is_object andb] in H. cbn [Bing.tag_campaigns py_setitem res_bind].
  rewrite (IH H). reflexivity.
Qed.

(** X12: on a success answer whose [Campaigns] is a list of dictionaries,
    [get_campaigns] returns as many campaigns in the same order, each with
    [AccountId] and [CustomerId] set to the integers passed and every other
    field unchanged; when an element of the list is no dictionary it raises
    [TypeError]. *)
Theorem campaigns_are_tagged :
  forall (self : Bing.BingAdsExtractor) (account_id customer_id : Z) (s : State)
         (r : Response) (d : dict) (raw : list json) (rest : list Reply),
    truthy (access_token s) = true ->
    net s = Answer r :: rest ->
    http_error (status_code r) = false ->
    json_body r = Some (JObj d) ->
    lookup "Campaigns" d = Some (JArr raw) ->
    (forallb is_object raw = true ->
     exists campaigns,
       fst (Bing.get_campaigns self account_id customer_id s) = Ok (JArr campaigns)
       /\ Forall2 (tagged account_id customer_id) raw campaigns)
    /\ (forallb is_object raw = false ->
        fst (Bing.get_campaigns self account_id customer_id s) = Raise TypeError).
Proof.
  intros self a c s r d raw rest Ht Hnet Hok Hb Hc.
  assert (Hrun : fst (Bing.get_campaigns self a c s)
                 = res_bind (Bing.tag_campaigns a c raw) (fun t => Ok (JArr t))).
  { unfold Bing.get_campaigns.
    destruct (auth_headers_cached self (Some (str_of_Z a)) (Some (str_of_Z c)) s Ht) as [h Hh].
    rewrite (bind_ok _ Hh).
    unfold_monad. rewrite Hnet. cbv beta iota. rewrite Hok. cbv beta iota.
    rewrite Hb. cbn [py_get]. rewrite Hc. cbn [py_iter]. cbv beta iota.
    destruct (Bing.tag_campaigns a c raw); reflexivity. }
  split; intros H.
  - destruct (tag_campaigns_objects a c raw H) as (cs & Hcs & Hall).
    exists cs. rewrite Hrun, Hcs. auto.
  - rewrite Hrun, (tag_campaigns_fails a c raw H). reflexivity.
Qed.

(** ** Submitting a report request *)

Lemma after_request_trace {A} q (k : Response -> M A) s :
  (forall r s1, trace (snd (k r s1)) = trace s1) ->
  trace (snd ((r <- request q ;; k r) s)) = (trace s ++ [Sent q])%list.
Proof.
  intros Hk. pose proof (request_trace q s) as Htr.
  unfold bind. destruct (request q s) as [[r|e|] s1]; cbn [snd] in *; auto.
  rewrite Hk. exact Htr.
Qed.

Lemma read_answer_trace (key : string) r s1 :
  trace (snd ((raise_for_status r ;; data <- response_json r ;;
               lift (py_get data key JNull)) s1)) = trace s1.
Proof.
  unfold_monad. destruct (http_error (status_code r)); [reflexivity|].
  destruct (json_body r) as [v|]; [|reflexivity].
  destruct (py_get v key JNull); reflexivity.
Qed.

(** The dates [submit_performance_report] parses: the arguments when given,
    otherwise the last thirty days up to today. *)
Lemma submit_sends self a rt sd ed ag s dt1 dt2 :
  truthy (access_token s) = true ->
  strptime_ymd (match Bing.given sd with
                | Some d => d
                | None => strftime_ymd (days_before (today s) 30)
                end) = Some dt1 ->
  strptime_ymd (match Bing.given ed with
                | Some d => d
                | None => strftime_ymd (today s)
                end) = Some dt2 ->
  exists h fields time,
    trace (snd (Bing.submit_performance_report self a rt sd ed ag s))
    = (trace s ++ [Sent (mkRequest POST
                           (Bing.reporting_base self
                            ++ "/ReportingService.svc/SubmitGenerateReport") h
                           (Json (JObj [("ReportRequest", JObj fields)])))])%list
    /\ lookup "Type" fields = Some (JStr rt)
    /\ lookup "Aggregation" fields = Some (JStr ag)
    /\ lookup "ReportName" fields = Some (JStr (rt ++ "_" ++ strftime_compact (today s)))
    /\ lookup "Columns" fields
       = Some (JArr (map JStr (Bing.columns_get rt Bing.columns
                                 (Bing.columns_get "CampaignPerformanceReportRequest"
                                    Bing.columns []))))
    /\ lookup "Time" fields = Some (JObj time)
    /\ lookup "CustomDateRangeStart" time = Some (Bing.date_json dt1)
    /\ lookup "CustomDateRangeEnd" time = Some (Bing.date_json dt2).
Proof.
  intros Ht H1 H2. unfold Bing.submit_performance_report.
  destruct (auth_headers_cached self (Some (str_of_Z a)) None s Ht) as [h Hh].
  rewrite (bind_ok _ Hh).
  assert (E1 : forall (k : string -> M json),
             bind (match Bing.given sd with
                   | Some d => ret d
                   | None => now <- datetime_now ;; ret (strftime_ymd (days_before now 30))
                   end) k s
             = k (match Bing.given sd with
                  | Some d => d
                  | None => strftime_ymd (days_before (today s) 30)
                  end) s).
  { intros k. destruct (Bing.given sd); reflexivity. }
  assert (E2 : forall (k : string -> M json),
             bind (match Bing.given ed with
                   | Some d => ret d
                   | None => now <- datetime_now ;; ret (strftime_ymd now)
                   end) k s
             = k (match Bing.given ed with
                  | Some d => d
                  | None => strftime_ymd (today s)
                  end) s).
  { intros k. destruct (Bing.given ed); reflexivity. }
  rewrite E1, E2. unfold Bing.strptime. rewrite H1, H2.
  unfold bind at 1. unfold ret at 1. unfold bind at 1. unfold ret at 1.
  unfold bind at 1. unfold datetime_now at 1. unfold requests_post.
  do 3 eexists. split.
  - apply after_request_trace. intros r s1. apply read_answer_trace.
  - repeat split; reflexivity.
Qed.

(** X13: with a token cached, a start date that does not parse as [%Y-%m-%d], or
    an end date that does not while the start date does, makes
    [submit_performance_report] raise [ValueError] before anything is sent:
    the state is unchanged. *)
Theorem malformed_date_stops_submission :
  forall (self : Bing.BingAdsExtractor) (account_id : Z) (report_type : string)
         (start_date end_date : option string) (aggregation : string) (s : State)
         (d : string),
    truthy (access_token s) = true ->
    strptime_ymd d = None ->
    (Bing.given start_date = Some d
     \/ (Bing.given end_date = Some d
         /\ exists d1 dt1, Bing.given start_date = Some d1 /\ strptime_ymd d1 = Some dt1)) ->
    Bing.submit_performance_report self account_id report_type start_date end_date
      aggregation s = (Raise ValueError, s).
Proof.
  intros self a rt sd ed ag s d Ht Hd H. unfold Bing.submit_performance_report.
  destruct (auth_headers_cached self (Some (str_of_Z a)) None s Ht) as [h Hh].
  rewrite (bind_ok _ Hh).
  destruct H as [Hsd | (Hed & d1 & dt1 & Hsd & H1)]; rewrite Hsd.
  - destruct (Bing.given ed); unfold Bing.strptime, bind, ret, datetime_now; cbv beta iota;
      rewrite Hd; reflexivity.
  - rewrite Hed. unfold Bing.strptime, bind, ret. cbv beta iota. rewrite H1. cbv beta iota.
    rewrite Hd. reflexivity.
Qed.

(** X14: with a token cached, a date range that parses (the dates given, or
    the defaults the code computes for those not given) and a report type
    other than the two that have a column list,
    [submit_performance_report] sends exactly one request, whose [Type] is the
    report type given and whose [Columns] are the eleven columns of the
    campaign performance report. *)
Theorem unknown_report_type_gets_campaign_columns :
  forall (self : Bing.BingAdsExtractor) (account_id : Z) (report_type : string)
         (start_date end_date : option string) (aggregation : string) (s : State)
         (start_dt end_dt : Date),
    truthy (access_token s) = true ->
    report_type <> "CampaignPerformanceReportRequest" ->
    report_type <> "AdGroupPerformanceReportRequest" ->
    strptime_ymd (range_start s start_date) = Some start_dt ->
    strptime_ymd (range_end s end_date) = Some end_dt ->
    exists h fields,
      trace (snd (Bing.submit_performance_report self account_id report_type
                    start_date end_date aggregation s))
      = (trace s ++ [Sent (mkRequest POST
                             (Bing.reporting_base self
                              ++ "/ReportingService.svc/SubmitGenerateReport") h
                             (Json (JObj [("ReportRequest", JObj fields)])))])%list
      /\ lookup "Type" fields = Some (JStr report_type)
      /\ lookup "Columns" fields
         = Some (JArr (map JStr [ "TimePeriod"; "AccountId"; "CampaignId"; "CampaignName";
                                  "CampaignStatus"; "Impressions"; "Clicks"; "Spend";
                                  "Conversions"; "Revenue"; "Ctr" ])).
Proof.
  intros self a rt sd ed ag s dt1 dt2 Ht Hc Hg H1 H2.
  destruct (submit_sends self a rt sd ed ag s dt1 dt2 Ht H1 H2)
    as (h & fields & time & Htr & Hty & _ & _ & Hcol & _).
  exists h, fields. split; [exact Htr|]. split; [exact Hty|].
  rewrite Hcol. cbn [Bing.columns Bing.columns_get].
  apply String.eqb_neq in Hc, Hg. rewrite Hc, Hg. reflexivity.
Qed.

(** X15: with a token cached and neither date given (None or the empty string),
    on a library whose [strptime] reads back what [strftime] wrote for today
    and for the day thirty days before, the request sent ranges from that day
    to today and is named after the report type and today's date. *)
Theorem default_report_range_is_last_30_days :
  forall (self : Bing.BingAdsExtractor) (account_id : Z) (report_type : string)
         (start_date end_date : option string) (aggregation : string) (s : State),
    truthy (access_token s) = true ->
    Bing.given start_date = None ->
    Bing.given end_date = None ->
    strptime_ymd (strftime_ymd (days_before (today s) 30)) = Some (days_before (today s) 30) ->
    strptime_ymd (strftime_ymd (today s)) = Some (today s) ->
    exists h fields time,
      trace (snd (Bing.submit_performance_report self account_id report_type
                    start_date end_date aggregation s))
      = (trace s ++ [Sent (mkRequest POST
                             (Bing.reporting_base self
                              ++ "/ReportingService.svc/SubmitGenerateReport") h
                             (Json (JObj [("ReportRequest", JObj fields)])))])%list
      /\ lookup "Time" fields = Some (JObj time)
      /\ lookup "CustomDateRangeStart" time
         = Some (Bing.date_json (days_before (today s) 30))
      /\ lookup "CustomDateRangeEnd" time = Some (Bing.date_json (today s))
      /\ lookup "ReportName" fields
         = Some (JStr (report_type ++ "_" ++ strftime_compact (today s))).
Proof.
  intros self a rt sd ed ag s Ht Hsd Hed H1 H2.
  destruct (submit_sends self a rt sd ed ag s (days_before (today s) 30) (today s) Ht)
    as (h & fields & time & Htr & _ & _ & Hname & _ & Htime & Hs & He).
  { rewrite Hsd. exact H1. }
  { rewrite Hed. exact H2. }
  exists h, fields, time. auto 10.
Qed.

(** ** Reports that settle *)

Lemma poll_status_inv r st :
  poll_status r = Some st ->
  http_error (status_code r) = false /\
  exists d rrs, json_body r = Some (JObj d)
    /\ py_get (JObj d) "ReportRequestStatus" (JObj []) = Ok rrs
    /\ py_get rrs "Status" JNull = Ok st
    /\ (st <> JNull -> py_get rrs "ReportDownloadUrl" JNull = Ok (download_url_of r)).
Proof.
  unfold poll_status, download_url_of.
  destruct (http_error (status_code r)); [discriminate|].
  destruct (json_body r) as [[| | | | |d]|]; try discriminate.
  intros H. split; [reflexivity|]. cbn [py_get].
  destruct (lookup "ReportRequestStatus" d) as [[| | | | |rrs]|] eqn:E; try discriminate.
  - exists d, (JObj rrs). split; [reflexivity|]. rewrite E. split; [reflexivity|].
    cbn [py_get]. inversion H. split; [reflexivity|]. intros _. reflexivity.
  - exists d, (JObj []). split; [reflexivity|]. rewrite E. split; [reflexivity|].
    inversion H. split; [reflexivity|]. intros Hn. congruence.
Qed.

(** One turn of the poll loop on an answer that carries a status, with budget
    left. *)
Lemma poll_iteration_settled self rid start max_wait fuel s r tl st :
  truthy (access_token s) = true ->
  net s = Answer r :: tl ->
  poll_status r = Some st ->
  float_lt_int (clock s (ticks s) - start)%float max_wait = true ->
  exists s1 doc,
    json_body r = Some doc
    /\ net s1 = tl
    /\ calls (trace s1) = S (calls (trace s))
    /\ sleeps (trace s1) = sleeps (trace s)
    /\ access_token s1 = access_token s
    /\ trace s1 = (trace s ++ [Sent (poll_request self (access_token s) rid)])%list
    /\ stderr s1 = (stderr s ++ [LogInfo ("Status: " ++ py_str st)])%list
    /\ clock s1 = clock s /\ today s1 = today s /\ ticks s1 = S (ticks s)
    /\ Bing.poll_loop (S fuel) self rid start max_wait s
       = if is_str "Success" st then
           (print (LogInfo ("Downloading report from: " ++ py_str (download_url_of r))) ;;
            Bing.download_report (download_url_of r)) s1
         else if is_str "Error" st then (Raise (ReportGenerationFailed doc), s1)
         else (time_sleep 10 ;; Bing.poll_loop fuel self rid start max_wait) s1.
Proof.
  intros Htok Hnet Hst Hbud.
  destruct (poll_status_inv r st Hst) as (Hok & d & rrs & Hb & Hrrs & Hstatus & Hurl).
  set (s0 := snd (time_time s)).
  assert (Htime : time_time s = (Ok (clock s (ticks s)), s0)) by reflexivity.
  assert (Htok0 : truthy (access_token s0) = true) by exact Htok.
  pose proof (bearer_headers_cached self s0 Htok0) as Hh.
  change (access_token s0) with (access_token s) in Hh.
  destruct (request_answer (poll_request self (access_token s) rid) s0 r tl Hnet)
    as (s1 & Hreq & Hadv).
  assert (Hpoll : Bing.poll_report_status self rid s0 = (Ok (JObj d), s1)).
  { unfold Bing.poll_report_status, requests_post, response_json.
    rewrite (bind_ok _ Hh). fold (poll_request self (access_token s) rid).
    do 2 mstep. rewrite Hb. reflexivity. }
  assert (Htr : trace s1 = (trace s ++ [Sent (poll_request self (access_token s) rid)])%list).
  { pose proof (request_trace (poll_request self (access_token s) rid) s0) as E.
    rewrite Hreq in E. exact E. }
  destruct Hadv as (H1 & H2 & H3 & H4 & H5 & H6 & Hrest).
  exists (snd (print (LogInfo ("Status: " ++ py_str st)) s1)), (JObj d).
  split; [exact Hb|]. split; [exact H1|].
  split; [|split; [|split; [|split; [|split; [|split; [|split; [|split]]]]]]].
  - cbn [print snd trace]. rewrite H2. change (trace s0) with (trace s). lia.
  - cbn [print snd trace]. rewrite (request_sleeps _ _ _ _ Hreq). reflexivity.
  - cbn [print snd access_token]. rewrite H4. reflexivity.
  - cbn [print snd trace]. exact Htr.
  - cbn [print snd stderr]. rewrite H3. reflexivity.
  - cbn [print snd clock]. rewrite H5. reflexivity.
  - cbn [print snd today]. destruct Hrest as (Hd & _). rewrite Hd. reflexivity.
  - cbn [print snd ticks]. rewrite H6. reflexivity.
  - cbn [Bing.poll_loop]. mstep. rewrite Hbud. mstep.
    unfold lift. rewrite Hrrs. mstep. rewrite Hstatus. do 2 mstep.
    destruct (is_str "Success" st) eqn:HS.
    + mstep. rewrite Hurl; [reflexivity|].
      intros ->. discriminate.
    + destruct (is_str "Error" st); reflexivity.
Qed.

(** [get_performance_report] up to the poll that follows the pending ones. *)
Lemma report_after_pending self account_id report_type start_date end_date max_wait
    s0 rid s1 polls rest fuel :
  Bing.submit_performance_report self account_id report_type start_date end_date "Daily"
    (snd (print (LogInfo ("Submitting " ++ report_type ++ " for account "
                          ++ str_of_Z account_id ++ "...")) s0)) = (Ok rid, s1) ->
  truthy (access_token s1) = true ->
  net s1 = (map Answer polls ++ rest)%list ->
  S fuel = List.length rest ->
  forallb pending polls = true ->
  forallb (budget_left s1 max_wait) (seq 1 (S (List.length polls))) = true ->
  exists s3,
    Bing.get_performance_report self account_id report_type start_date end_date
      max_wait s0
    = Bing.poll_loop (S (S fuel)) self rid (clock s1 (ticks s1)) max_wait s3
    /\ net s3 = rest
    /\ calls (trace s3) = (calls (trace s1) + List.length polls)%nat
    /\ sleeps (trace s3) = (sleeps (trace s1) + List.length polls)%nat
    /\ truthy (access_token s3) = true
    /\ float_lt_int (clock s3 (ticks s3) - clock s1 (ticks s1))%float max_wait = true
    /\ access_token s3 = access_token s1
    /\ trace s3 = (trace s1 ++ waiting (poll_request self (access_token s1) rid)
                                 (List.length polls))%list.
Proof.
  intros Hsub Htok Hnet Hfuel Hall Hbud.
  set (sp := snd (print (LogInfo "Polling for report completion...")
               (snd (print (LogInfo ("Report ID: " ++ py_str rid)) s1)))).
  set (s2 := snd (time_time sp)).
  rewrite forallb_forall in Hbud.
  destruct (poll_loop_pending self rid (clock s1 (ticks s1)) max_wait polls
              (S (S fuel)) s2 rest) as (s3 & Hp & Htr & Heq); auto.
  { intros j Hj. change (clock s2) with (clock s1). change (ticks s2) with (S (ticks s1)).
    assert (Hb : budget_left s1 max_wait (S j) = true) by (apply Hbud, in_seq; lia).
    unfold budget_left in Hb.
    replace (S (ticks s1) + j)%nat with (ticks s1 + S j)%nat by lia. exact Hb. }
  destruct Hp as (Hn3 & Hc3 & Hs3 & Ht3 & Hk3 & Ha3).
  exists s3. split; [|split; [|split; [|split; [|split; [|split; [|split]]]]]].
  7:{ exact Ha3. }
  7:{ exact Htr. }
  - unfold Bing.get_performance_report.
    unfold bind at 1. cbn [print fst snd]. cbn [print snd] in Hsub.
    rewrite (bind_ok _ Hsub). do 2 mstep.
    rewrite (bind_ok _ (s := sp) (a := clock s1 (ticks s1)) (s' := s2)) by reflexivity.
    unfold bind at 1. cbn [get_state].
    replace (loop_bound s2) with (List.length polls + S (S fuel))%nat.
    2:{ unfold loop_bound. change (net s2) with (net s1).
        rewrite Hnet, length_app, length_map. lia. }
    exact Heq.
  - exact Hn3.
  - exact Hc3.
  - exact Hs3.
  - rewrite Ha3. exact Htok.
  - rewrite Hk3, Ht3. change (clock s2) with (clock s1).
    change (ticks s2) with (S (ticks s1)).
    assert (Hb : budget_left s1 max_wait (S (List.length polls)) = true)
      by (apply Hbud, in_seq; lia).
    unfold budget_left in Hb.
    replace (S (ticks s1) + List.length polls)%nat with (ticks s1 + S (List.length polls))%nat
      by lia.
    exact Hb.
Qed.

(** X16: when the polls issued while the budget lasts are answered with statuses
    that are neither Success nor Error and then with Success,
    [get_performance_report] ends as [download_report] does on the
    [ReportDownloadUrl] of that answer.  What has happened since the
    submission is exactly this: for each pending answer the poll of the
    report id followed by [time.sleep(10)], then the poll that is answered
    with Success, and no sleep after it; the script is at the answer that
    follows.  The budget is tested as the code tests it, on the doubles
    of the clock. *)
Theorem report_is_downloaded_on_success :
  forall (self : Bing.BingAdsExtractor) (account_id : Z) (report_type : string)
         (start_date end_date : option string) (max_wait_seconds : Z)
         (s0 : State) (report_id : json) (s1 : State)
         (polls : list Response) (answer : Response) (rest : list Reply),
    Bing.submit_performance_report self account_id report_type start_date end_date "Daily"
      (snd (print (LogInfo ("Submitting " ++ report_type ++ " for account "
                            ++ str_of_Z account_id ++ "...")) s0)) = (Ok report_id, s1) ->
    truthy (access_token s1) = true ->
    net s1 = (map Answer polls ++ Answer answer :: rest)%list ->
    forallb pending polls = true ->
    poll_status answer = Some (JStr "Success") ->
    forallb (budget_left s1 max_wait_seconds) (seq 1 (S (List.length polls))) = true ->
    exists s2,
      Bing.get_performance_report self account_id report_type start_date end_date
        max_wait_seconds s0
      = Bing.download_report (download_url_of answer) s2
      /\ net s2 = rest
      /\ trace s2
         = (trace s1
            ++ waiting (poll_request self (access_token s1) report_id) (List.length polls)
            ++ [Sent (poll_request self (access_token s1) report_id)])%list
      /\ calls (trace s2) = (calls (trace s1) + List.length polls + 1)%nat
      /\ sleeps (trace s2) = (sleeps (trace s1) + List.length polls)%nat.
Proof.
  intros self a rt sd ed mw s0 rid s1 polls ans rest Hsub Htok Hnet Hall Hst Hbud.
  destruct (report_after_pending self a rt sd ed mw s0 rid s1 polls (Answer ans :: rest)
              (List.length rest) Hsub Htok Hnet eq_refl Hall Hbud)
    as (s3 & Hrun & Hn3 & Hc3 & Hs3 & Ht3 & Hb3 & Ha3 & Htr3).
  destruct (poll_iteration_settled self rid (clock s1 (ticks s1)) mw (S (List.length rest))
              s3 ans rest _ Ht3 Hn3 Hst Hb3)
    as (s4 & doc & _ & Hn4 & Hc4 & Hs4 & _ & Htr4 & _ & _ & _ & _ & Hit).
  change (is_str "Success" (JStr "Success")) with true in Hit. cbv beta iota in Hit.
  eexists. split; [rewrite Hrun, Hit; unfold bind at 1; cbn [print]; reflexivity|].
  cbn [net trace]. rewrite Hn4, Hc4, Hs4, Hc3, Hs3, Htr4, Htr3, Ha3, <- app_assoc.
  repeat split; lia.
Qed.

(** X17: when the pending answers are followed by one whose status is Error,
    [get_performance_report] raises the "report generation failed" exception
    that carries this answer, without sleeping again, polling again or
    downloading anything: what has happened since the submission is the poll
    and the [time.sleep(10)] of each pending answer, and the poll answered
    with Error.  The budget is tested on the doubles of the clock. *)
Theorem failed_report_raises_at_once :
  forall (self : Bing.BingAdsExtractor) (account_id : Z) (report_type : string)
         (start_date end_date : option string) (max_wait_seconds : Z)
         (s0 : State) (report_id : json) (s1 : State)
         (polls : list Response) (answer : Response) (doc : json) (rest : list Reply),
    Bing.submit_performance_report self account_id report_type start_date end_date "Daily"
      (snd (print (LogInfo ("Submitting " ++ report_type ++ " for account "
                            ++ str_of_Z account_id ++ "...")) s0)) = (Ok report_id, s1) ->
    truthy (access_token s1) = true ->
    net s1 = (map Answer polls ++ Answer answer :: rest)%list ->
    forallb pending polls = true ->
    poll_status answer = Some (JStr "Error") ->
    json_body answer = Some doc ->
    forallb (budget_left s1 max_wait_seconds) (seq 1 (S (List.length polls))) = true ->
    exists s2,
      Bing.get_performance_report self account_id report_type start_date end_date
        max_wait_seconds s0
      = (Raise (ReportGenerationFailed doc), s2)
      /\ net s2 = rest
      /\ trace s2
         = (trace s1
            ++ waiting (poll_request self (access_token s1) report_id) (List.length polls)
            ++ [Sent (poll_request self (access_token s1) report_id)])%list
      /\ calls (trace s2) = (calls (trace s1) + List.length polls + 1)%nat
      /\ sleeps (trace s2) = (sleeps (trace s1) + List.length polls)%nat.
Proof.
  intros self a rt sd ed mw s0 rid s1 polls ans doc rest Hsub Htok Hnet Hall Hst Hdoc Hbud.
  destruct (report_after_pending self a rt sd ed mw s0 rid s1 polls (Answer ans :: rest)
              (List.length rest) Hsub Htok Hnet eq_refl Hall Hbud)
    as (s3 & Hrun & Hn3 & Hc3 & Hs3 & Ht3 & Hb3 & Ha3 & Htr3).
  destruct (poll_iteration_settled self rid (clock s1 (ticks s1)) mw (S (List.length rest))
              s3 ans rest _ Ht3 Hn3 Hst Hb3)
    as (s4 & doc' & Hdoc' & Hn4 & Hc4 & Hs4 & _ & Htr4 & _ & _ & _ & _ & Hit).
  change (is_str "Success" (JStr "Error")) with false in Hit.
  change (is_str "Error" (JStr "Error")) with true in Hit. cbv beta iota in Hit.
  assert (doc' = doc) by congruence. subst doc'.
  exists s4. split; [rewrite Hrun, Hit; reflexivity|].
  rewrite Hn4, Hc4, Hs4, Hc3, Hs3, Htr4, Htr3, Ha3, <- app_assoc. repeat split; lia.
Qed.

(** X18: the code does not check the [ReportDownloadUrl] of the answer that
    reports Success: when there is none, or one that is no string, the value
    is printed in the "Downloading report from" line and handed to
    [requests.get], and [get_performance_report] raises the exception with
    which the library refuses that value ([invalid_url], a parameter of the
    library; for [None] it is [MissingSchema] in the reference library), no
    download request having been issued. *)
Theorem success_without_url_raises :
  forall (self : Bing.BingAdsExtractor) (account_id : Z) (report_type : string)
         (start_date end_date : option string) (max_wait_seconds : Z)
         (s0 : State) (report_id : json) (s1 : State)
         (polls : list Response) (answer : Response) (rest : list Reply),
    Bing.submit_performance_report self account_id report_type start_date end_date "Daily"
      (snd (print (LogInfo ("Submitting " ++ report_type ++ " for account "
                            ++ str_of_Z account_id ++ "...")) s0)) = (Ok report_id, s1) ->
    truthy (access_token s1) = true ->
    net s1 = (map Answer polls ++ Answer answer :: rest)%list ->
    forallb pending polls = true ->
    poll_status answer = Some (JStr "Success") ->
    (forall u, download_url_of answer <> JStr u) ->
    forallb (budget_left s1 max_wait_seconds) (seq 1 (S (List.length polls))) = true ->
    exists s2 logged,
      Bing.get_performance_report self account_id report_type start_date end_date
        max_wait_seconds s0
      = (Raise (invalid_url (download_url_of answer)), s2)
      /\ net s2 = rest
      /\ calls (trace s2) = (calls (trace s1) + List.length polls + 1)%nat
      /\ stderr s2
         = (logged ++ [ LogInfo "Status: Success";
                        LogInfo ("Downloading report from: "
                                 ++ py_str (download_url_of answer)) ])%list.
Proof.
  intros self a rt sd ed mw s0 rid s1 polls ans rest Hsub Htok Hnet Hall Hst Hurl Hbud.
  destruct (report_after_pending self a rt sd ed mw s0 rid s1 polls (Answer ans :: rest)
              (List.length rest) Hsub Htok Hnet eq_refl Hall Hbud)
    as (s3 & Hrun & Hn3 & Hc3 & Hs3 & Ht3 & Hb3 & _).
  destruct (poll_iteration_settled self rid (clock s1 (ticks s1)) mw (S (List.length rest))
              s3 ans rest _ Ht3 Hn3 Hst Hb3)
    as (s4 & doc & _ & Hn4 & Hc4 & Hs4 & _ & _ & He4 & _ & _ & _ & Hit).
  change (is_str "Success" (JStr "Success")) with true in Hit. cbv beta iota in Hit.
  exists (snd (print (LogInfo ("Downloading report from: " ++ py_str (download_url_of ans)))
                 s4)), (stderr s3).
  split.
  - rewrite Hrun, Hit. unfold bind at 1. cbn [print]. unfold Bing.download_report, Bing.get_url.
    destruct (download_url_of ans) as [|b|n|u|xs|kvs] eqn:E; try reflexivity.
    exfalso. exact (Hurl u eq_refl).
  - cbn [print snd net trace stderr]. rewrite Hn4, Hc4, Hc3, He4, <- app_assoc.
    split; [reflexivity|]. split; [lia|reflexivity].
Qed.

(** ** Downloads that fail *)

Lemma download_report_answer u s r rest :
  net s = Answer r :: rest ->
  http_error (status_code r) = false ->
  fst (Bing.download_report (JStr u) s)
  = match gzip_decompress (content r) with
    | inr data => res_bind (decode_utf8_sig data) (fun t => of_sum (csv_DictReader t))
    | inl e => if is_OSError e
               then res_bind (decode_utf8_sig (content r)) (fun t => of_sum (csv_DictReader t))
               else Raise e
    end.
Proof.
  intros Hnet Hok. unfold Bing.download_report, Bing.get_url.
  unfold_monad. rewrite Hnet. cbv beta iota. rewrite Hok. cbv beta iota.
  destruct (gzip_decompress (content r)) as [e|data]; cbn [of_sum].
  - destruct (is_OSError e); [|reflexivity].
    destruct (decode_utf8_sig (content r)); reflexivity.
  - destruct (decode_utf8_sig data) eqn:E; try reflexivity.
    unfold decode_utf8_sig in E. destruct (utf8_decode _); inversion E. reflexivity.
Qed.

(** X19: [download_report] raises the [HTTPError] of an error status; an exception
    of [gzip.decompress] that is no [OSError] (a truncated or corrupt stream)
    is raised as it is; when decompression succeeds and the result is no
    UTF-8, [UnicodeDecodeError] is raised and the raw content is not tried;
    and so when the fallback itself is no UTF-8. *)
Theorem download_failures_are_not_rescued :
  forall (u : string) (s : State) (r : Response) (rest : list Reply),
    net s = Answer r :: rest ->
    (http_error (status_code r) = true ->
     fst (Bing.download_report (JStr u) s) = Raise (HTTPError (status_code r)))
    /\ (http_error (status_code r) = false ->
        forall e, gzip_decompress (content r) = inl e -> is_OSError e = false ->
        fst (Bing.download_report (JStr u) s) = Raise e)
    /\ (http_error (status_code r) = false ->
        forall data, gzip_decompress (content r) = inr data ->
        decode_utf8_sig data = Raise UnicodeDecodeError ->
        fst (Bing.download_report (JStr u) s) = Raise UnicodeDecodeError)
    /\ (http_error (status_code r) = false ->
        forall e, gzip_decompress (content r) = inl e -> is_OSError e = true ->
        decode_utf8_sig (content r) = Raise UnicodeDecodeError ->
        fst (Bing.download_report (JStr u) s) = Raise UnicodeDecodeError).
Proof.
  intros u s r rest Hnet. split; [|split; [|split]].
  - intros Herr. unfold Bing.download_report, Bing.get_url.
    unfold_monad. rewrite Hnet. cbv beta iota. rewrite Herr. reflexivity.
  - intros Hok e He Hos. rewrite (download_report_answer u s r rest Hnet Hok), He, Hos.
    reflexivity.
  - intros Hok data Hd Hdec. rewrite (download_report_answer u s r rest Hnet Hok), Hd, Hdec.
    reflexivity.
  - intros Hok e He Hos Hdec.
    rewrite (download_report_answer u s r rest Hnet Hok), He, Hos, Hdec. reflexivity.
Qed.

Lemma decode_after_mark (csv : list byte) :
  decode_utf8_sig (byte_order_mark ++ csv)
  = match utf8_decode (map Byte.to_N csv) with
    | Some text => Ok text
    | None => Raise UnicodeDecodeError
    end.
Proof.
  unfold decode_utf8_sig, byte_order_mark. cbn [app map].
  change (Byte.to_N xef) with 239%N. change (Byte.to_N xbb) with 187%N.
  change (Byte.to_N xbf) with 191%N. reflexivity.
Qed.

(** X20: a plain download (one that [gzip] refuses with an [OSError]) that starts
    with the UTF-8 byte-order mark gives the records read from the text of
    the bytes after that mark: one mark is dropped.  So it gives what the
    same download without the mark gives, when that one is plain too and
    does not itself start with a mark. *)
Theorem byte_order_mark_is_dropped :
  forall (u : string) (s : State) (status : Z) (doc : option json) (csv : list byte)
         (rest : list Reply) (e : exn),
    gzip_decompress (byte_order_mark ++ csv) = inl e -> is_OSError e = true ->
    fst (Bing.download_report (JStr u)
           (set_net (Answer (mkResponse status doc (byte_order_mark ++ csv)) :: rest) s))
    = (if http_error status then Raise (HTTPError status)
       else match utf8_decode (map Byte.to_N csv) with
            | Some text => of_sum (csv_DictReader text)
            | None => Raise UnicodeDecodeError
            end)
    /\ (forall e', gzip_decompress csv = inl e' -> is_OSError e' = true ->
        strip_bom (map Byte.to_N csv) = map Byte.to_N csv ->
        fst (Bing.download_report (JStr u)
               (set_net (Answer (mkResponse status doc (byte_order_mark ++ csv)) :: rest) s))
        = fst (Bing.download_report (JStr u)
                 (set_net (Answer (mkResponse status doc csv) :: rest) s))).
Proof.
  intros u s status doc csv rest e H1 O1.
  destruct (http_error status) eqn:Hst.
  - split; [|intros e' _ _ _];
      unfold Bing.download_report, Bing.get_url; unfold_monad; cbn [status_code];
      rewrite Hst; reflexivity.
  - pose proof (download_report_answer u
                  (set_net (Answer (mkResponse status doc (byte_order_mark ++ csv)) :: rest) s)
                  (mkResponse status doc (byte_order_mark ++ csv)) rest eq_refl Hst) as E.
    cbn [content] in E. rewrite H1, O1, decode_after_mark in E. rewrite E.
    split.
    + destruct (utf8_decode (map Byte.to_N csv)); reflexivity.
    + intros e' H2 O2 Hbom.
      rewrite (download_report_answer u
                 (set_net (Answer (mkResponse status doc csv) :: rest) s)
                 (mkResponse status doc csv) rest eq_refl Hst).
      cbn [content]. rewrite H2, O2. unfold decode_utf8_sig. rewrite Hbom.
      destruct (utf8_decode (map Byte.to_N csv)); reflexivity.
Qed.

(** ** Where requests go *)

Lemma sends_ret {A} T Q (a : A) (V : A -> Prop) : V a -> sends T Q (ret a) V.
Proof.
  intros Ha s Hs. cbn. split; [exact Hs|]. split; [|exact Ha].
  exists []. rewrite app_nil_r. auto.
Qed.

Lemma sends_raise {A} T Q e (V : A -> Prop) : sends T Q (raise e) V.
Proof.
  intros s Hs. cbn. split; [exact Hs|]. split; [|exact I].
  exists []. rewrite app_nil_r. auto.
Qed.

Lemma sends_diverge {A} T Q (V : A -> Prop) : sends T Q diverge V.
Proof.
  intros s Hs. cbn. split; [exact Hs|]. split; [|exact I].
  exists []. rewrite app_nil_r. auto.
Qed.

Lemma sends_lift {A} T Q (r : Res A) : sends T Q (lift r) (fun a => r = Ok a).
Proof.
  intros s Hs. cbn. split; [exact Hs|]. split; [|destruct r; auto].
  exists []. rewrite app_nil_r. auto.
Qed.

Lemma sends_weaken {A} T Q (m : M A) (V W : A -> Prop) :
  sends T Q m V -> (forall a, V a -> W a) -> sends T Q m W.
Proof.
  intros H HVW s Hs. destruct (H s Hs) as (H1 & H2 & H3).
  split; [exact H1|]. split; [exact H2|]. destruct (fst (m s)); auto.
Qed.

Lemma sends_bind {A B} T Q (m : M A) (f : A -> M B) (W : A -> Prop) (V : B -> Prop) :
  sends T Q m W -> (forall a, W a -> sends T Q (f a) V) -> sends T Q (bind m f) V.
Proof.
  intros Hm Hf s Hs. destruct (Hm s Hs) as (H1 & (ev1 & Ht1 & Hq1) & H3).
  unfold bind. destruct (m s) as [[a|e|] s1]; cbn [fst snd] in *.
  - destruct (Hf a H3 s1 H1) as (K1 & (ev2 & Ht2 & Hq2) & K3).
    split; [exact K1|]. split; [|exact K3].
    exists (ev1 ++ ev2)%list. rewrite Ht2, Ht1, app_assoc. split; [reflexivity|].
    apply Forall_app. auto.
  - split; [exact H1|]. split; [|exact I]. eauto.
  - split; [exact H1|]. split; [|exact I]. eauto.
Qed.

Lemma sends_try {A} T Q (m : M A) (h : exn -> M A) (V : A -> Prop) :
  sends T Q m V -> (forall e, sends T Q (h e) V) -> sends T Q (try_except m h) V.
Proof.
  intros Hm Hh s Hs. destruct (Hm s Hs) as (H1 & (ev1 & Ht1 & Hq1) & H3).
  unfold try_except. destruct (m s) as [[a|e|] s1]; cbn [fst snd] in *.
  - split; [exact H1|]. split; [|exact H3]. eauto.
  - destruct (Hh e s1 H1) as (K1 & (ev2 & Ht2 & Hq2) & K3).
    split; [exact K1|]. split; [|exact K3].
    exists (ev1 ++ ev2)%list. rewrite Ht2, Ht1, app_assoc. split; [reflexivity|].
    apply Forall_app. auto.
  - split; [exact H1|]. split; [|exact I]. eauto.
Qed.

Lemma sends_get_state T Q : sends T Q get_state (fun s => T (access_token s)).
Proof.
  intros s Hs. cbn. split; [exact Hs|]. split; [|exact Hs].
  exists []. rewrite app_nil_r. auto.
Qed.

Lemma sends_print T Q l : sends T Q (print l) (fun _ => True).
Proof.
  intros s Hs. cbn. split; [exact Hs|]. split; [|exact I].
  exists []. rewrite app_nil_r. auto.
Qed.

Lemma sends_datetime_now T Q : sends T Q datetime_now (fun _ => True).
Proof.
  intros s Hs. cbn. split; [exact Hs|]. split; [|exact I].
  exists []. rewrite app_nil_r. auto.
Qed.

Lemma sends_time_time T Q : sends T Q time_time (fun _ => True).
Proof.
  intros s Hs. cbn. split; [exact Hs|]. split; [|exact I].
  exists []. rewrite app_nil_r. auto.
Qed.

Lemma sends_time_sleep T Q n : sends T Q (time_sleep n) (fun _ => True).
Proof.
  intros s Hs. cbn. split; [exact Hs|]. split; [|exact I].
  exists [Slept n]. split; [reflexivity|]. repeat constructor.
Qed.

Lemma sends_request T Q q : Q q -> sends T Q (request q) (fun _ => True).
Proof.
  intros Hq s Hs. rewrite request_token, request_trace.
  split; [exact Hs|]. split; [|destruct (fst (request q s)); exact I].
  exists [Sent q]. split; [reflexivity|]. repeat constructor. exact Hq.
Qed.

Lemma sends_raise_for_status T Q r : sends T Q (raise_for_status r) (fun _ => True).
Proof.
  unfold raise_for_status. destruct (http_error (status_code r)).
  - apply sends_raise.
  - apply sends_ret. exact I.
Qed.

Lemma sends_response_json T Q r : sends T Q (response_json r) (fun _ => True).
Proof.
  unfold response_json. destruct (json_body r).
  - apply sends_ret. exact I.
  - apply sends_raise.
Qed.

Lemma sends_set_access_token (T : json -> Prop) Q v :
  T v -> sends T Q (set_access_token v) (fun _ => True).
Proof.
  intros Hv s Hs. cbn. split; [exact Hv|]. split; [|exact I].
  exists []. rewrite app_nil_r. auto.
Qed.

(** A computation whose result does not matter. *)
Lemma sends_any {A} T Q (m : M A) (V : A -> Prop) :
  sends T Q m V -> sends T Q m (fun _ => True).
Proof. intros H. eapply sends_weaken; eauto. Qed.

Lemma sends_if {A} T Q (b : bool) (m1 m2 : M A) :
  sends T Q m1 (fun _ => True) -> sends T Q m2 (fun _ => True) ->
  sends T Q (if b then m1 else m2) (fun _ => True).
Proof. destruct b; auto. Qed.

Ltac sends_step :=
  lazymatch goal with
  | |- sends _ _ (bind _ _) _ => eapply sends_bind; [| intros ? ?]
  | |- sends _ _ (try_except _ _) _ => apply sends_try; [| intros ?]
  | |- sends _ _ (raise _) _ => apply sends_raise
  | |- sends _ _ (lift _) _ => apply sends_lift
  | |- sends _ _ (print _) _ => apply sends_print
  | |- sends _ _ (raise_for_status _) _ => apply sends_raise_for_status
  | |- sends _ _ (response_json _) _ => apply sends_response_json
  | |- sends _ _ time_time _ => apply sends_time_time
  | |- sends _ _ (time_sleep _) _ => apply sends_time_sleep
  | |- sends _ _ datetime_now _ => apply sends_datetime_now
  | |- sends _ _ get_state _ => apply sends_get_state
  end.

Section BingRequests.
Variable self : Bing.BingAdsExtractor.
Variable inc : bool.

Lemma sends_get_access_token :
  sends any_token (bing_request self inc) (Bing.get_access_token self) (fun _ => True).
Proof.
  unfold Bing.get_access_token. sends_step; [sends_step|].
  destruct (truthy (access_token a)); [apply sends_ret; exact I|].
  sends_step.
  { apply sends_request. unfold bing_request. cbn. auto. }
  sends_step; [sends_step|]. sends_step; [sends_step|]. sends_step; [sends_step|].
  sends_step; [apply sends_set_access_token; exact I|].
  apply sends_ret. exact I.
Qed.

Lemma sends_auth_headers a c :
  sends any_token (bing_request self inc) (Bing._get_auth_headers self a c) (authorised self).
Proof.
  unfold Bing._get_auth_headers. sends_step; [apply sends_get_access_token|].
  apply sends_ret. unfold authorised.
  destruct (Bing.given a), (Bing.given c); cbn; eauto.
Qed.

Lemma sends_api_call u h payload :
  authorised self h -> In u (api_urls self inc) ->
  sends any_token (bing_request self inc) (requests_post u h (Json payload)) (fun _ => True).
Proof.
  intros Hh Hu. apply sends_request. unfold bing_request. cbn. auto.
Qed.

Lemma sends_get_users :
  sends any_token (bing_request self inc) (Bing.get_users self) (fun _ => True).
Proof.
  unfold Bing.get_users. sends_step; [apply sends_auth_headers|].
  sends_step; [apply sends_api_call; [assumption|cbn; auto]|].
  sends_step; [sends_step|]. sends_step; [sends_step|]. sends_step; [sends_step|].
  destruct (is_list a3); [eapply sends_any; sends_step|].
  destruct (truthy a3); apply sends_ret; exact I.
Qed.

Lemma sends_get_accounts u :
  sends any_token (bing_request self inc) (Bing.get_accounts self u) (fun _ => True).
Proof.
  unfold Bing.get_accounts. sends_step; [apply sends_auth_headers|].
  sends_step; [apply sends_api_call; [assumption|cbn; auto]|].
  sends_step; [sends_step|]. sends_step; [sends_step|].
  eapply sends_any; sends_step.
Qed.

Lemma sends_get_campaigns a c :
  sends any_token (bing_request self inc) (Bing.get_campaigns self a c) (fun _ => True).
Proof.
  unfold Bing.get_campaigns. sends_step; [apply sends_auth_headers|].
  sends_step; [apply sends_api_call; [assumption|cbn; auto]|].
  sends_step; [sends_step|]. sends_step; [sends_step|]. sends_step; [sends_step|].
  sends_step; [sends_step|]. sends_step; [sends_step|].
  apply sends_ret. exact I.
Qed.

Lemma sends_download_report u :
  inc = true ->
  sends any_token (bing_request self inc) (Bing.download_report u) (fun _ => True).
Proof.
  intros Hinc. unfold Bing.download_report. sends_step.
  { unfold Bing.get_url. destruct u; try apply sends_raise.
    apply sends_request. unfold bing_request. cbn. auto. }
  sends_step; [sends_step|]. sends_step.
  { sends_step.
    - sends_step; [sends_step|]. eapply sends_any; sends_step.
    - destruct (is_OSError e); [eapply sends_any; sends_step|apply sends_raise]. }
  eapply sends_any; sends_step.
Qed.

Lemma sends_try_campaigns id cid result :
  sends any_token (bing_request self inc) (Bing.try_campaigns self id cid result)
    (fun r' => Bing.performance_reports r' = Bing.performance_reports result).
Proof.
  unfold Bing.try_campaigns. sends_step.
  - sends_step; [sends_step|]. sends_step; [sends_step|].
    sends_step; [apply sends_get_campaigns|].
    sends_step; [sends_step|]. sends_step; [sends_step|]. sends_step; [sends_step|].
    apply sends_ret. reflexivity.
  - sends_step; [sends_step|]. apply sends_ret. reflexivity.
Qed.

Lemma sends_submit a rt sd ed ag :
  inc = true ->
  sends any_token (bing_request self inc)
      (Bing.submit_performance_report self a rt sd ed ag) (fun _ => True).
Proof.
  intros Hinc. unfold Bing.submit_performance_report.
  sends_step; [apply sends_auth_headers|].
  sends_step.
  { destruct (Bing.given sd); [apply sends_ret; exact I|].
    sends_step; [sends_step|]. apply sends_ret. exact I. }
  sends_step.
  { destruct (Bing.given ed); [apply sends_ret; exact I|].
    sends_step; [sends_step|]. apply sends_ret. exact I. }
  sends_step.
  { unfold Bing.strptime.
    destruct (strptime_ymd a1); [apply sends_ret; exact I|apply sends_raise]. }
  sends_step.
  { unfold Bing.strptime.
    destruct (strptime_ymd a2); [apply sends_ret; exact I|apply sends_raise]. }
  sends_step; [sends_step|].
  sends_step; [apply sends_api_call; [assumption|rewrite Hinc; cbn; auto 10]|].
  sends_step; [sends_step|]. sends_step; [sends_step|].
  eapply sends_any; sends_step.
Qed.

Lemma sends_poll_report_status rid :
  inc = true ->
  sends any_token (bing_request self inc) (Bing.poll_report_status self rid) (fun _ => True).
Proof.
  intros Hinc. unfold Bing.poll_report_status.
  sends_step; [apply sends_auth_headers|].
  sends_step; [apply sends_api_call; [assumption|rewrite Hinc; cbn; auto 10]|].
  sends_step; [sends_step|]. sends_step.
Qed.

Lemma sends_poll_loop rid start mw :
  inc = true ->
  forall fuel, sends any_token (bing_request self inc)
      (Bing.poll_loop fuel self rid start mw) (fun _ => True).
Proof.
  intros Hinc. induction fuel as [|fuel IH]; cbn [Bing.poll_loop]; [apply sends_diverge|].
  sends_step; [sends_step|].
  destruct (float_lt_int _ _); [|apply sends_raise].
  sends_step; [apply sends_poll_report_status; exact Hinc|].
  sends_step; [sends_step|]. sends_step; [sends_step|]. sends_step; [sends_step|].
  destruct (is_str "Success" a2).
  - sends_step; [sends_step|]. sends_step; [sends_step|]. sends_step; [sends_step|].
    apply sends_download_report. exact Hinc.
  - destruct (is_str "Error" a2); [apply sends_raise|].
    sends_step; [sends_step|]. exact IH.
Qed.

Lemma sends_get_performance_report a rt sd ed mw :
  inc = true ->
  sends any_token (bing_request self inc)
      (Bing.get_performance_report self a rt sd ed mw) (fun _ => True).
Proof.
  intros Hinc. unfold Bing.get_performance_report.
  sends_step; [sends_step|]. sends_step; [apply sends_submit; exact Hinc|].
  sends_step; [sends_step|]. sends_step; [sends_step|]. sends_step; [sends_step|].
  sends_step; [sends_step|]. apply sends_poll_loop. exact Hinc.
Qed.

Lemma sends_try_performance sd ed id name result :
  inc = true ->
  sends any_token (bing_request self inc)
      (Bing.try_performance self sd ed id name result) (fun _ => True).
Proof.
  intros Hinc. unfold Bing.try_performance. sends_step.
  - sends_step; [sends_step|].
    sends_step; [apply sends_get_performance_report; exact Hinc|].
    sends_step; [sends_step|]. apply sends_ret. exact I.
  - sends_step; [sends_step|]. apply sends_ret. exact I.
Qed.

Lemma sends_extract_account sd ed account result :
  sends any_token (bing_request self inc)
      (Bing.extract_account self inc sd ed account result) (reports_untouched inc result).
Proof.
  unfold Bing.extract_account.
  sends_step; [sends_step|]. sends_step; [sends_step|]. sends_step; [sends_step|].
  destruct (negb (truthy a) || negb (truthy a0)); [apply sends_ret; intros _; reflexivity|].
  sends_step; [sends_step|].
  sends_step; [apply sends_try_campaigns|].
  destruct (Bool.bool_dec inc true) as [Hinc|Hinc].
  - match goal with |- sends _ _ (if inc then ?m1 else ?m2) _ =>
      replace (if inc then m1 else m2) with m1 by (rewrite Hinc; reflexivity) end.
    sends_step; [sends_step|].
    eapply sends_weaken; [apply sends_try_performance; exact Hinc|].
    intros r' _ Hf. congruence.
  - apply not_true_is_false in Hinc.
    match goal with |- sends _ _ (if inc then ?m1 else ?m2) _ =>
      replace (if inc then m1 else m2) with m2 by (rewrite Hinc; reflexivity) end.
    apply sends_ret. intros _. assumption.
Qed.

Lemma sends_for_accounts sd ed accts : forall result,
  sends any_token (bing_request self inc)
      (Bing.for_accounts self inc sd ed accts result) (reports_untouched inc result).
Proof.
  induction accts as [|account accts IH]; intros result; cbn [Bing.for_accounts].
  - apply sends_ret. intros _. reflexivity.
  - sends_step; [apply sends_extract_account|].
    eapply sends_weaken; [apply IH|].
    intros r' Hr' Hinc. rewrite (Hr' Hinc). auto.
Qed.

Lemma sends_extract_user sd ed user result :
  sends any_token (bing_request self inc)
      (Bing.extract_user self inc sd ed user result) (reports_untouched inc result).
Proof.
  unfold Bing.extract_user. sends_step; [sends_step|].
  destruct (negb (truthy a)); [apply sends_ret; intros _; reflexivity|].
  sends_step; [sends_step|]. sends_step; [sends_step|].
  sends_step; [apply sends_get_accounts|].
  sends_step; [sends_step|]. sends_step; [sends_step|]. sends_step; [sends_step|].
  eapply sends_weaken; [apply sends_for_accounts|].
  intros r' Hr' Hinc. rewrite (Hr' Hinc). reflexivity.
Qed.

Lemma sends_for_users sd ed us : forall result,
  sends any_token (bing_request self inc)
      (Bing.for_users self inc sd ed us result) (reports_untouched inc result).
Proof.
  induction us as [|user us IH]; intros result; cbn [Bing.for_users].
  - apply sends_ret. intros _. reflexivity.
  - sends_step; [apply sends_extract_user|].
    eapply sends_weaken; [apply IH|].
    intros r' Hr' Hinc. rewrite (Hr' Hinc). auto.
Qed.

Lemma sends_extract_all sd ed :
  sends any_token (bing_request self inc) (Bing.extract_all self inc sd ed)
    (fun r => inc = false -> Bing.performance_reports r = []).
Proof.
  unfold Bing.extract_all. sends_step; [sends_step|].
  sends_step; [sends_step|]. sends_step; [apply sends_get_users|].
  sends_step; [sends_step|].
  eapply sends_weaken; [apply sends_for_users|].
  intros r' Hr' Hinc. rewrite (Hr' Hinc). reflexivity.
Qed.

End BingRequests.

(** X21: all that a run of [extract_all] adds to the trace are requests of three
    kinds.  The form-encoded one, which holds the client secret and the
    refresh token, is a POST to the login endpoint without headers; a JSON
    request is a POST to one of the five service operations (three without
    performance reports), with a bearer and the developer token; a request
    without body is the GET of a download, issued with performance reports
    only and without any header: the bearer is not sent to the download
    host. *)
Theorem bing_requests_are_of_three_kinds :
  forall (self : Bing.BingAdsExtractor) (include_performance_reports : bool)
         (start_date end_date : option string) (s : State),
  exists evs,
    trace (snd (Bing.extract_all self include_performance_reports start_date end_date s))
    = (trace s ++ evs)%list
    /\ Forall (event_ok (bing_request self include_performance_reports)) evs.
Proof.
  intros self inc sd ed s.
  destruct (sends_extract_all self inc sd ed s I) as (_ & H & _). exact H.
Qed.

(** X22: with [include_performance_reports] false, the result of [extract_all]
    has no performance report and no request goes to the reporting
    service. *)
Theorem no_reports_without_the_flag :
  forall (tenant_id client_id client_secret refresh_token developer_token : string)
         (start_date end_date : option string) (s : State),
    let self := Bing.__init__ tenant_id client_id client_secret refresh_token
                  developer_token in
    let run := Bing.extract_all self false start_date end_date s in
    match fst run with Ok r => Bing.performance_reports r = [] | _ => True end
    /\ exists evs,
         trace (snd run) = (trace s ++ evs)%list
         /\ Forall (event_ok (fun q => String.prefix (Bing.reporting_base self) (url q)
                                       = false)) evs.
Proof.
  intros tenant cid sec rt dt sd ed s self run.
  destruct (sends_extract_all self false sd ed s I) as (_ & (evs & Htr & Hq) & Hv).
  split.
  - fold run in Hv. destruct (fst run); auto.
  - exists evs. split; [exact Htr|].
    eapply Forall_impl; [|exact Hq].
    intros [q|n]; cbn [event_ok]; [|auto].
    unfold bing_request. destruct (body q).
    + intros (Hf & _). discriminate.
    + intros [].
    + intros (_ & Hu & _). rewrite Hu. reflexivity.
    + intros (_ & _ & Hin). cbn in Hin.
      destruct Hin as [<-|[<-|[<-|[]]]]; reflexivity.
Qed.

Lemma prefix_app (p t : string) : String.prefix p (p ++ t) = true.
Proof.
  induction p as [|c p IH]; cbn.
  - destruct t; reflexivity.
  - destruct (ascii_dec c c) as [_|F]; [exact IH|contradiction].
Qed.

Lemma header_app name h x v : header name h = Some v -> header name (h ++ x) = Some v.
Proof.
  induction h as [|[k w] h IH]; cbn; [discriminate|].
  destruct (String.eqb name k); auto.
Qed.

Lemma header_retyped name mt h :
  String.eqb name "Content-Type" = false ->
  header name (map (fun kv : string * string =>
                      if String.eqb (fst kv) "Content-Type" then (fst kv, mt) else kv) h)
  = header name h.
Proof.
  intros Hn. induction h as [|[k w] h IH]; cbn [map header fst]; [reflexivity|].
  destruct (String.eqb k "Content-Type") eqn:E; cbn [header]; rewrite IH; [|reflexivity].
  apply String.eqb_eq in E. subst k. rewrite Hn. reflexivity.
Qed.

Section AmazonRequests.
Variable self : Amazon.AmazonAdsFetcher.
Variable tok : json.

Lemma sends_amazon_headers p : sends (token_is tok) (amazon_request self tok)
    (Amazon._get_headers self p) (signed self tok).
Proof.
  unfold Amazon._get_headers. sends_step; [sends_step|].
  unfold token_is in H. rewrite H.
  destruct p as [p|]; [destruct (String.eqb p EmptyString)|];
    apply sends_ret; split; reflexivity.
Qed.

Lemma sends_media_headers pid mt :
  sends (token_is tok) (amazon_request self tok)
      (Amazon.media_headers self pid mt) (signed self tok).
Proof.
  unfold Amazon.media_headers. sends_step; [apply sends_amazon_headers|].
  destruct H as [H1 H2].
  apply sends_ret. split; apply header_app; rewrite header_retyped by reflexivity; assumption.
Qed.

Lemma sends_api_request m path h b :
  (signed self tok) h -> is_form b = false ->
  sends (token_is tok) (amazon_request self tok)
      (request (mkRequest m (Amazon.base_url self ++ path) h b))
    (fun _ => True).
Proof.
  intros [H1 H2] Hb. apply sends_request. unfold amazon_request. cbn.
  rewrite prefix_app. auto.
Qed.

Lemma sends_get_profiles : sends (token_is tok) (amazon_request self tok)
    (Amazon.get_profiles self) (fun _ => True).
Proof.
  unfold Amazon.get_profiles. sends_step.
  - sends_step; [apply sends_amazon_headers|].
    sends_step; [apply sends_api_request; [assumption|reflexivity]|].
    sends_step; [sends_step|]. sends_step.
  - sends_step; [sends_step|]. apply sends_ret. exact I.
Qed.

Lemma sends_sd_loop pid f : forall fuel i acc,
  sends (token_is tok) (amazon_request self tok)
      (Amazon.sd_loop fuel self pid f i acc) (fun _ => True).
Proof.
  induction fuel as [|fuel IH]; intros i acc; cbn [Amazon.sd_loop]; [apply sends_diverge|].
  sends_step; [apply sends_amazon_headers|].
  sends_step; [apply sends_api_request; [assumption|reflexivity]|].
  sends_step; [sends_step|]. sends_step; [sends_step|].
  destruct (negb (truthy a2)); [apply sends_ret; exact I|].
  sends_step; [sends_step|]. sends_step; [sends_step|].
  destruct (a4 <? 100); [apply sends_ret; exact I|]. apply IH.
Qed.

Lemma sends_keyed_loop stop ik nk path gh :
  sends (token_is tok) (amazon_request self tok) gh (signed self tok) ->
  forall fuel payload acc,
    sends (token_is tok) (amazon_request self tok)
      (Amazon.keyed_loop fuel stop ik nk (Amazon.base_url self ++ path) gh payload acc)
      (fun _ => True).
Proof.
  intros Hgh. induction fuel as [|fuel IH]; intros payload acc; cbn [Amazon.keyed_loop];
    [apply sends_diverge|].
  sends_step; [exact Hgh|].
  sends_step; [apply sends_api_request; [assumption|reflexivity]|].
  destruct (stop && (status_code a0 =? 400)); [apply sends_ret; exact I|].
  sends_step; [sends_step|]. sends_step; [sends_step|]. sends_step; [sends_step|].
  sends_step.
  { apply sends_if; [|apply sends_ret; exact I].
    sends_step; [sends_step|]. apply sends_ret. exact I. }
  sends_step; [sends_step|].
  sends_step.
  { apply sends_if; [|apply sends_ret; exact I].
    sends_step; [sends_step|]. apply sends_ret. exact I. }
  destruct (negb a6); [apply sends_ret; exact I|].
  sends_step; [sends_step|]. apply IH.
Qed.

Lemma sends_fetch l pid : sends (token_is tok) (amazon_request self tok)
    (fetch l self pid) (fun _ => True).
Proof.
  destruct l as [f|f|f|tz]; cbn [fetch].
  - unfold Amazon.get_sponsored_display_campaigns. sends_step.
    + sends_step; [sends_step|]. apply sends_sd_loop.
    + sends_step; [sends_step|]. apply sends_ret. exact I.
  - unfold Amazon.get_sponsored_brands_campaigns.
    sends_step; [apply sends_media_headers|]. sends_step.
    + sends_step; [sends_step|]. apply sends_keyed_loop. apply sends_ret. assumption.
    + sends_step; [sends_step|]. apply sends_ret. exact I.
  - unfold Amazon.get_sponsored_products_campaigns.
    sends_step; [apply sends_media_headers|]. sends_step.
    + sends_step; [sends_step|]. apply sends_keyed_loop. apply sends_ret. assumption.
    + sends_step; [sends_step|]. apply sends_ret. exact I.
  - unfold Amazon.get_attribution_performance_campaign.
    sends_step; [sends_step|]. sends_step.
    + sends_step; [sends_step|]. apply sends_keyed_loop. apply sends_amazon_headers.
    + sends_step; [sends_step|]. apply sends_ret. exact I.
Qed.

Lemma sends_fetch_profile profile all_data :
  sends (token_is tok) (amazon_request self tok)
      (Amazon.fetch_profile self profile all_data) (fun _ => True).
Proof.
  unfold Amazon.fetch_profile.
  sends_step; [sends_step|]. sends_step; [sends_step|]. sends_step; [sends_step|].
  sends_step; [sends_step|].
  sends_step; [apply (sends_fetch (SponsoredDisplay "enabled,paused,archived"))|].
  sends_step; [apply (sends_fetch (SponsoredBrands None))|].
  sends_step; [apply (sends_fetch (SponsoredProducts None))|].
  sends_step; [sends_step|].
  sends_step; [apply (sends_fetch (AttributionReport a6))|].
  apply sends_ret. exact I.
Qed.

Lemma sends_for_profiles ps : forall all_data,
  sends (token_is tok) (amazon_request self tok)
      (Amazon.for_profiles self ps all_data) (fun _ => True).
Proof.
  induction ps as [|p ps IH]; intros all_data; cbn [Amazon.for_profiles].
  - apply sends_ret. exact I.
  - sends_step; [apply sends_fetch_profile|]. apply IH.
Qed.

Lemma sends_after_refresh :
  sends (token_is tok) (amazon_request self tok)
    (profiles <- Amazon.get_profiles self ;;
     ps <- lift (py_iter profiles) ;;
     Amazon.for_profiles self ps (Amazon.mkAllData profiles [] []))
    (fun _ => True).
Proof.
  sends_step; [apply sends_get_profiles|]. sends_step; [sends_step|].
  apply sends_for_profiles.
Qed.

End AmazonRequests.

Lemma refresh_access_token_sends self s :
  exists payload,
    trace (snd (Amazon.refresh_access_token self s))
    = (trace s ++ [Sent (mkRequest POST amazon_token_url [] (Form payload))])%list.
Proof.
  eexists. unfold Amazon.refresh_access_token, try_except, requests_post.
  unfold bind at 1. pose proof (request_trace
    (mkRequest POST "https://api.amazon.com/auth/o2/token" []
       (Form (JObj [ ("grant_type", JStr "refresh_token");
                     ("refresh_token", JStr (Amazon.refresh_token self));
                     ("client_id", JStr (Amazon.client_id self));
                     ("client_secret", JStr (Amazon.client_secret self)) ]))) s) as Htr.
  destruct (request _ s) as [[r|e|] s1]; cbn [snd] in Htr; [|exact Htr|exact Htr].
  unfold_monad. destruct (http_error (status_code r)); [exact Htr|].
  destruct (json_body r) as [v|]; [|exact Htr].
  destruct (py_get v "access_token" JNull); exact Htr.
Qed.

(** The requests of a run of [fetch_all_data]: the token refresh, then calls
    of the API that carry the token obtained. *)
Lemma fetch_all_data_sends self s :
  exists payload evs,
    trace (snd (Amazon.fetch_all_data self s))
    = (trace s ++ Sent (mkRequest POST amazon_token_url [] (Form payload)) :: evs)%list
    /\ Forall (event_ok (amazon_request self
                           (access_token (snd (Amazon.refresh_access_token self s))))) evs.
Proof.
  destruct (refresh_access_token_sends self s) as [payload Hp].
  exists payload. unfold Amazon.fetch_all_data. unfold bind at 1.
  destruct (Amazon.refresh_access_token self s) as [[tok|e|] s1]; cbn [snd] in *.
  - destruct (sends_after_refresh self (access_token s1) s1 eq_refl) as (_ & (evs & H & Hq) & _).
    exists evs. rewrite H, Hp, <- app_assoc. auto.
  - exists []. rewrite Hp. auto.
  - exists []. rewrite Hp. auto.
Qed.

(** X23: every request [fetch_all_data] issues after the token refresh goes to a
    URL under the base URL of the region, is not form-encoded, and carries
    the client id and, as bearer, the token the refresh left in the cache. *)
Theorem amazon_requests_carry_the_refreshed_token :
  forall (self : Amazon.AmazonAdsFetcher) (s : State),
    let s1 := snd (Amazon.refresh_access_token self s) in
    exists evs,
      trace (snd (Amazon.fetch_all_data self s)) = (trace s1 ++ evs)%list
      /\ Forall (event_ok (amazon_request self (access_token s1))) evs.
Proof.
  intros self s s1. unfold Amazon.fetch_all_data. unfold bind at 1.
  subst s1. destruct (Amazon.refresh_access_token self s) as [[tok|e|] s1]; cbn [snd].
  - destruct (sends_after_refresh self (access_token s1) s1 eq_refl) as (_ & H & _).
    exact H.
  - exists []. rewrite app_nil_r. auto.
  - exists []. rewrite app_nil_r. auto.
Qed.

(** ** Identifiers that are no integers *)

(** X24: a user whose [Id] is true and is rejected by [int] makes the turn of
    [extract_all] for that user raise the exception of [int], outside of any
    [try], before any request for the user. *)
Theorem unreadable_user_id_aborts :
  forall (self : Bing.BingAdsExtractor) (include_performance_reports : bool)
         (start_date end_date : option string) (user : json) (result : Bing.Result)
         (s : State) (user_id : json) (e : exn),
    py_get user "Id" JNull = Ok user_id ->
    truthy user_id = true ->
    py_int user_id = Raise e ->
    exists s',
      Bing.extract_user self include_performance_reports start_date end_date user result s
      = (Raise e, s')
      /\ trace s' = trace s /\ net s' = net s.
Proof.
  intros self inc sd ed user result s uid e Hid Ht Hint.
  unfold Bing.extract_user. unfold lift at 1. rewrite Hid. unfold bind at 1.
  rewrite Ht. cbn [negb]. unfold bind at 1. unfold print at 1.
  unfold lift at 1. rewrite Hint. unfold bind at 1.
  eexists. split; [reflexivity|]. split; reflexivity.
Qed.

(** X25: an account whose [Id] is true and is rejected by [int] is passed over
    without a request: both [try] blocks catch the exception of [int], the
    result is unchanged, and the two error lines are printed after the two
    announcements. *)
Theorem unreadable_account_id_is_contained :
  forall (self : Bing.BingAdsExtractor) (start_date end_date : option string)
         (account : json) (result : Bing.Result) (s : State)
         (account_id customer_id account_name : json) (e : exn),
    py_get account "Id" JNull = Ok account_id ->
    py_get account "ParentCustomerId" JNull = Ok customer_id ->
    py_get account "Name" JNull = Ok account_name ->
    truthy account_id = true -> truthy customer_id = true ->
    py_int account_id = Raise e ->
    exists s',
      Bing.extract_account self true start_date end_date account result s = (Ok result, s')
      /\ trace s' = trace s /\ net s' = net s
      /\ stderr s'
         = (stderr s
            ++ [ LogInfo (nl ++ "Fetching campaigns for account " ++ py_str account_id
                          ++ " (" ++ py_str account_name ++ ")...");
                 LogError ("Error fetching campaigns for account " ++ py_str account_id) e;
                 LogInfo (nl ++ "Fetching performance report for account "
                          ++ py_str account_id ++ "...");
                 LogError ("Error fetching performance report for account "
                           ++ py_str account_id) e ])%list.
Proof.
  intros self sd ed account result s id cid name e Hid Hcid Hname Ht Htc Hint.
  unfold Bing.extract_account, Bing.try_campaigns, Bing.try_performance.
  unfold_monad. rewrite Hid, Hcid, Hname. cbv beta iota. rewrite Ht, Htc.
  cbn [negb orb]. rewrite Hint. cbv beta iota.
  cbn [net trace access_token stderr clock ticks today now_iso].
  eexists. split; [reflexivity|]. cbn [trace net stderr].
  rewrite <- !app_assoc. repeat split.
Qed.

(** ** Users without an identifier *)

Lemma for_users_skips self inc sd ed us : forall result s,
  forallb has_no_id us = true ->
  Bing.for_users self inc sd ed us result s = (Ok result, s).
Proof.
  induction us as [|u us IH]; intros result s H; cbn [Bing.for_users]; [reflexivity|].
  cbn [forallb] in H. apply andb_prop in H as [Hu H].
  assert (Hstep : Bing.extract_user self inc sd ed u result s = (Ok result, s)).
  { unfold Bing.extract_user. destruct u as [| | | | |d]; try discriminate.
    cbn [has_no_id] in Hu. unfold lift, bind. cbn [py_get].
    destruct (lookup "Id" d) as [v|]; [rewrite Hu|]; reflexivity. }
  rewrite (bind_ok _ Hstep). apply IH. exact H.
Qed.

(** X26: when every user received is a dictionary without a true [Id] (in
    particular when no user is received), [extract_all] returns after this
    one request: the result lists the users and nothing else, under the time
    of the start. *)
Theorem users_without_id_are_skipped :
  forall (self : Bing.BingAdsExtractor) (include_performance_reports : bool)
         (start_date end_date : option string) (s : State) (r : Response) (d : dict)
         (users : list json) (rest : list Reply),
    truthy (access_token s) = true ->
    net s = Answer r :: rest ->
    http_error (status_code r) = false ->
    json_body r = Some (JObj d) ->
    lookup "User" d = Some (JArr users) ->
    forallb has_no_id users = true ->
    exists s',
      Bing.extract_all self include_performance_reports start_date end_date s
      = (Ok (Bing.mkResult (now_iso s) users [] [] []), s')
      /\ net s' = rest
      /\ calls (trace s') = S (calls (trace s))
      /\ stderr s'
         = (stderr s ++ [ LogInfo "Fetching users...";
                          LogInfo ("Found " ++ str_of_Z (Z.of_nat (List.length users))
                                   ++ " user(s)") ])%list.
Proof.
  intros self inc sd ed s r d us rest Ht Hnet Hok Hb Hu Hskip.
  unfold Bing.extract_all. unfold bind at 1. unfold get_state at 1.
  unfold bind at 1. unfold print at 1.
  match goal with |- context [bind (Bing.get_users self) _ ?x] => set (s0 := x) end.
  destruct (auth_headers_cached self None None s0 Ht) as [h Hh].
  assert (Hget : exists s1, Bing.get_users self s0 = (Ok us, s1) /\ net s1 = rest
                            /\ calls (trace s1) = S (calls (trace s))
                            /\ stderr s1 = (stderr s ++ [LogInfo "Fetching users..."])%list).
  { unfold Bing.get_users. rewrite (bind_ok _ Hh). unfold s0.
    unfold_monad. rewrite Hnet. cbv beta iota. rewrite Hok. cbv beta iota.
    rewrite Hb. cbn [py_get]. rewrite Hu. cbn [is_list res_bind py_iter]. cbv beta iota.
    eexists. split; [reflexivity|]. cbn [net trace stderr]. rewrite calls_snoc. auto. }
  destruct Hget as (s1 & Hget & Hn1 & Hc1 & He1).
  rewrite (bind_ok _ Hget). unfold bind at 1. unfold print at 1.
  cbn [Bing.extracted_at Bing.accounts Bing.campaigns Bing.performance_reports].
  rewrite for_users_skips by exact Hskip.
  eexists. split; [reflexivity|]. cbn [net trace stderr].
  rewrite He1, <- app_assoc. auto.
Qed.

(** ** The entry points *)

(** X27: when a required environment variable is unset or empty, each [main]
    prints its list of the variables on [sys.stderr] and exits with status 1
    without a single request. *)
Theorem main_without_credentials_exits :
  (forall (env : Env) (s : State),
     is_set (getenv "AMAZON_ADS_CLIENT_ID" env)
     && is_set (getenv "AMAZON_ADS_CLIENT_SECRET" env)
     && is_set (getenv "AMAZON_ADS_REFRESH_TOKEN" env) = false ->
     exists s',
       Amazon.main env s = (Ok (Exited 1), s')
       /\ trace s' = trace s /\ net s' = net s
       /\ stderr s'
          = (stderr s
             ++ [ LogInfo "Error: Missing required environment variables:";
                  LogInfo "  AMAZON_ADS_CLIENT_ID";
                  LogInfo "  AMAZON_ADS_CLIENT_SECRET";
                  LogInfo "  AMAZON_ADS_REFRESH_TOKEN";
                  LogInfo "  AMAZON_ADS_REGION (optional, defaults to 'NA')" ])%list)
  /\ (forall (format_exc : exn -> string) (env : Env) (s : State),
        is_set (getenv "BING_ADS_TENANT_ID" env)
        && is_set (getenv "BING_ADS_CLIENT_ID" env)
        && is_set (getenv "BING_ADS_CLIENT_SECRET" env)
        && is_set (getenv "BING_ADS_REFRESH_TOKEN" env)
        && is_set (getenv "BING_ADS_DEVELOPER_TOKEN" env) = false ->
        exists s',
          Bing.main format_exc env s = (Ok (Exited 1), s')
          /\ trace s' = trace s /\ net s' = net s
          /\ stderr s'
             = (stderr s
                ++ [ LogInfo "Error: Missing required environment variables:";
                     LogInfo "  - BING_ADS_TENANT_ID";
                     LogInfo "  - BING_ADS_CLIENT_ID";
                     LogInfo "  - BING_ADS_CLIENT_SECRET";
                     LogInfo "  - BING_ADS_REFRESH_TOKEN";
                     LogInfo "  - BING_ADS_DEVELOPER_TOKEN" ])%list).
Proof.
  split.
  - intros env s H. unfold Amazon.main. rewrite H. cbn [negb].
    unfold_monad. eexists. split; [reflexivity|]. cbn [trace net stderr].
    rewrite <- !app_assoc. repeat split.
  - intros tb env s H. unfold Bing.main. rewrite H. cbn [negb].
    unfold_monad. eexists. split; [reflexivity|]. cbn [trace net stderr].
    rewrite <- !app_assoc. repeat split.
Qed.

(** X28: the [main] of the Bing extractor lets no exception escape: it ends by
    printing a result or by [sys.exit(1)].  The [main] of the Amazon fetcher,
    with its credentials set, raises when the token refresh fails. *)
Theorem main_failure_handling :
  (forall (format_exc : exn -> string) (env : Env) (s : State),
     match fst (Bing.main format_exc env s) with
     | Ok (Exited code) => code = 1
     | Ok (Printed doc) => exists result, doc = Bing.result_json result
     | _ => False
     end)
  /\ (forall (env : Env) (s : State),
        is_set (getenv "AMAZON_ADS_CLIENT_ID" env)
        && is_set (getenv "AMAZON_ADS_CLIENT_SECRET" env)
        && is_set (getenv "AMAZON_ADS_REFRESH_TOKEN" env) = true ->
        request_fails (net s) = true ->
        exists e, fst (Amazon.main env s) = Raise e).
Proof.
  split.
  - intros tb env s. unfold Bing.main.
    destruct (negb _).
    + reflexivity.
    + match goal with |- context [Bing.extract_all ?self ?inc ?sd ?ed] =>
        pose proof (proj1 runs_are_never_cut_off self inc sd ed s) as Hcut;
        set (run := Bing.extract_all self inc sd ed) in * end.
      unfold try_except. unfold bind at 1.
      destruct (run s) as [[r|e|] s1]; cbn [fst] in *.
      * cbn. eauto.
      * reflexivity.
      * congruence.
  - intros env s H Hfail. unfold Amazon.main. rewrite H. cbn [negb].
    unfold bind at 1. unfold print at 1.
    match goal with |- context [bind (Amazon.fetch_all_data ?self) _ ?s0] =>
      destruct (fetch_all_data_aborts self s0 Hfail) as (e & s' & He) end.
    exists e. rewrite (bind_raise _ He). reflexivity.
Qed.

(** X29: when [INCLUDE_PERFORMANCE_REPORTS] is set to a value that is not "true"
    in some letter case, what the Bing [main] prints has an empty list of
    performance reports. *)
Theorem reports_are_included_only_for_true :
  forall (format_exc : exn -> string) (env : Env) (s : State) (v : string),
    getenv "INCLUDE_PERFORMANCE_REPORTS" env = Some v ->
    lower v <> "true" ->
    match fst (Bing.main format_exc env s) with
    | Ok (Printed doc) => py_get doc "performance_reports" JNull = Ok (JArr [])
    | Ok (Exited code) => code = 1
    | _ => True
    end.
Proof.
  intros tb env s v Hv Hl. unfold Bing.main. rewrite Hv.
  apply String.eqb_neq in Hl. rewrite Hl.
  destruct (negb _); [reflexivity|].
  match goal with |- context [Bing.extract_all ?self false ?sd ?ed] =>
    destruct (sends_extract_all self false sd ed s I) as (_ & _ & Hr);
    set (run := Bing.extract_all self false sd ed) in * end.
  unfold try_except. unfold bind at 1.
  destruct (run s) as [[r|e|] s1]; cbn [fst] in *; try reflexivity.
  cbn. rewrite (Hr eq_refl). reflexivity.
Qed.

(** X30: when [AMAZON_ADS_REGION] is unset, or set to anything but EU and FE,
    every request of the Amazon [main] is either the form-encoded token
    refresh or goes to the North America endpoint. *)
Theorem other_regions_use_north_america :
  forall (env : Env) (s : State),
    (forall r, getenv "AMAZON_ADS_REGION" env = Some r -> r <> "EU" /\ r <> "FE") ->
    exists evs,
      trace (snd (Amazon.main env s)) = (trace s ++ evs)%list
      /\ Forall (event_ok (fun q => is_form (body q) = true /\ url q = amazon_token_url
                                    \/ is_form (body q) = false
                                       /\ String.prefix "https://advertising-api.amazon.com"
                                            (url q) = true)) evs.
Proof.
  intros env s Hr. unfold Amazon.main.
  destruct (negb _).
  - exists []. rewrite app_nil_r. split; [reflexivity|constructor].
  - unfold bind at 1. unfold print at 1.
    set (self := Amazon.__init__ _ _ _ _).
    assert (Hbase : Amazon.base_url self = "https://advertising-api.amazon.com").
    { unfold self, Amazon.__init__. cbn [Amazon.base_url Amazon.REGION_URLS Amazon.region_get].
      destruct (getenv "AMAZON_ADS_REGION" env) as [r|]; [|reflexivity].
      destruct (Hr r eq_refl) as [H1 H2]. apply String.eqb_neq in H1, H2.
      rewrite H1, H2. destruct (String.eqb r "NA"); reflexivity. }
    set (s0 := mkState _ _ _ _ _ _ _ _).
    unfold bind at 1.
    destruct (fetch_all_data_sends self s0) as (payload & evs & Htr & Hevs).
    exists (Sent (mkRequest POST amazon_token_url [] (Form payload)) :: evs). split.
    + destruct (Amazon.fetch_all_data self s0) as [[d|e|] s1]; exact Htr.
    + constructor; [left; split; reflexivity|].
      eapply Forall_impl; [|exact Hevs].
      intros [q|n]; cbn [event_ok]; [|auto].
      intros (Hf & Hp & _). right. split; [exact Hf|]. rewrite <- Hbase. exact Hp.
Qed.


(** ** The loops, entity by entity *)











Lemma request_fails_no_page reply :
  request_fails [reply] = true -> campaigns_page reply = None.
Proof.
  destruct reply as [|r]; [reflexivity|]. cbn [request_fails campaigns_page].
  intros ->. reflexivity.
Qed.

















(** ** The profile loop, profile by profile *)





(** ** Entity-level containment *)


End Proofs.

(** * Concrete runs *)

(** C5 (the code departs from the specification): the Amazon token endpoint answers
    200 with a document that has no [access_token]; [refresh_access_token]
    raises nothing, stores None as the token and returns it. *)
Theorem refresh_access_token_returns_None :
  let s := fresh [json_reply 200 (JObj [("token_type", JStr "bearer")])] (ticking 1) in
  fst (Amazon.refresh_access_token amazon_na s) = Ok JNull
  /\ access_token (snd (Amazon.refresh_access_token amazon_na s)) = JNull
  /\ stderr (snd (Amazon.refresh_access_token amazon_na s)) = [].
Proof. vm_compute. repeat split. Qed.

(** C6 (the code departs from the specification): the submit call is answered 200 with
    a document that has no [ReportRequestId]; [submit_performance_report]
    raises nothing and returns None as the job id. *)
Theorem submit_performance_report_returns_None :
  let s := fresh [ json_reply 200 (JObj [("access_token", JStr "tok")]);
                   json_reply 200 (JObj [("TrackingId", JStr "abc")]) ] (ticking 1) in
  fst (Bing.submit_performance_report (lib := reference_lib) bing 42
         "CampaignPerformanceReportRequest" None None "Daily" s) = Ok JNull.
Proof. vm_compute. reflexivity. Qed.

Lemma stored_roundtrip (data : list byte) :
  gzip_decompress (PyLib := reference_lib) (stored_compress data) = inr data.
Proof. reflexivity. Qed.

Lemma stored_rejects (data : list byte) :
  has_gzip_magic data = false ->
  gzip_decompress (PyLib := reference_lib) data
  = match data with [] => inr [] | _ => inl BadGzipFile end.
Proof. intros H. simpl. unfold stored_decompress. rewrite H. reflexivity. Qed.

Lemma download_report_gzip_or_plain_witness :
  let csv := bytes_of "Clicks,Spend
3,1.50
" in
  decode_utf8_sig csv = Ok (map Byte.to_N csv)
  /\ fst (Bing.download_report (lib := reference_lib) (JStr "https://download.example/r.csv")
            (fresh [Answer (mkResponse 200 None (stored_compress csv))] (ticking 1)))
     = fst (Bing.download_report (lib := reference_lib) (JStr "https://download.example/r.csv")
              (fresh [Answer (mkResponse 200 None csv)] (ticking 1))).
Proof.
  split; [reflexivity|].
  exact (proj1 (download_report_gzip_or_plain (lib := reference_lib) stored_compress
                  stored_roundtrip stored_rejects
                  (bytes_of "Clicks,Spend
3,1.50
") _ (JStr "https://download.example/r.csv") 200 None
                  (fresh [] (ticking 1)) [] eq_refl)).
Defined.

Lemma paginated_fetch_concatenates_pages_witness :
  exists s',
    fetch (lib := reference_lib) (SponsoredDisplay "enabled") amazon_na "7"
      (fresh [json_reply 200 (JArr hundred); json_reply 200 (JArr forty)] (ticking 1))
    = (Ok (flat_map (items (SponsoredDisplay "enabled"))
             ([mkResponse 200 (Some (JArr hundred)) []]
              ++ [mkResponse 200 (Some (JArr forty)) []])), s')
    /\ net s' = []
    /\ calls (trace s') = (0 + 1 + 1)%nat
    /\ stderr s' = [].
Proof.
  apply (paginated_fetch_concatenates_pages (lib := reference_lib)
           (SponsoredDisplay "enabled") amazon_na "7"
           (fresh [json_reply 200 (JArr hundred); json_reply 200 (JArr forty)] (ticking 1))
           [mkResponse 200 (Some (JArr hundred)) []]
           (mkResponse 200 (Some (JArr forty)) []) []);
    vm_compute; reflexivity.
Defined.

(** C2 (counterexample): one full page arrives, then the second call is
    answered 500.  The specification promises the hundred campaigns of the first page;
    the fetch returns the empty list. *)
Lemma accumulated_items_are_dropped :
  let s := fresh [json_reply 200 (JArr hundred); json_reply 500 JNull] (ticking 1) in
  inner_page (SponsoredDisplay "enabled") (mkResponse 200 (Some (JArr hundred)) []) = true
  /\ fst (fetch (lib := reference_lib) (SponsoredDisplay "enabled") amazon_na "7" s) = Ok []
  /\ fst (fetch (lib := reference_lib) (SponsoredDisplay "enabled") amazon_na "7" s)
     <> Ok hundred.
Proof. vm_compute. repeat split. discriminate. Qed.

Lemma failed_page_request_returns_empty_witness :
  exists e s',
    fetch (lib := reference_lib) (SponsoredDisplay "enabled") amazon_na "7"
      (fresh [json_reply 200 (JArr hundred); json_reply 500 JNull] (ticking 1))
    = (Ok [], s')
    /\ net s' = []
    /\ calls (trace s') = (0 + 1 + 1)%nat
    /\ stderr s' = [LogError "Error fetching Sponsored Display campaigns" e].
Proof.
  apply (failed_page_request_returns_empty (lib := reference_lib)
           (SponsoredDisplay "enabled") amazon_na "7"
           (fresh [json_reply 200 (JArr hundred); json_reply 500 JNull] (ticking 1))
           [mkResponse 200 (Some (JArr hundred)) []] [json_reply 500 JNull]);
    vm_compute; reflexivity.
Defined.

Lemma attribution_400_ends_fetch_witness :
  exists s',
    Amazon.get_attribution_performance_campaign (lib := reference_lib) amazon_na "7"
      (JStr "America/Los_Angeles")
      (fresh [json_reply 200 report_page; json_reply 400 JNull] (ticking 1))
    = (Ok [JObj [("campaignId", JStr "a")]; JObj [("campaignId", JStr "b")]], s')
    /\ net s' = []
    /\ calls (trace s') = (0 + 1 + 1)%nat
    /\ stderr s' = [].
Proof.
  apply (attribution_400_ends_fetch (lib := reference_lib) amazon_na "7"
           (JStr "America/Los_Angeles")
           (fresh [json_reply 200 report_page; json_reply 400 JNull] (ticking 1))
           [mkResponse 200 (Some report_page) []] (mkResponse 400 (Some JNull) []) []);
    vm_compute; reflexivity.
Defined.

Lemma unknown_region_selects_NA_witness :
  Amazon.base_url (Amazon.__init__ "client" "secret" "refresh" "MARS")
  = "https://advertising-api.amazon.com".
Proof.
  apply (proj1 (unknown_region_selects_NA "client" "secret" "refresh" "MARS"));
    apply String.eqb_neq; reflexivity.
Defined.

Lemma report_poll_times_out_witness :
  let s0 := fresh slow_report_script (ticking 10) in
  let s1 := snd (Bing.submit_performance_report (lib := reference_lib) bing 42
                   "CampaignPerformanceReportRequest" None None "Daily"
                   (snd (print (LogInfo ("Submitting " ++ "CampaignPerformanceReportRequest"
                                         ++ " for account " ++ str_of_Z 42 ++ "...")) s0))) in
  exists s',
    Bing.get_performance_report (lib := reference_lib) bing 42
      "CampaignPerformanceReportRequest" None None 25 s0
    = (Raise (TimeoutError 25), s')
    /\ net s' = [json_reply 200 (status_doc "Success")]
    /\ calls (trace s') = (calls (trace s1) + 2)%nat
    /\ sleeps (trace s') = (sleeps (trace s1) + 2)%nat.
Proof.
  intros s0 s1.
  apply (proj2 (proj2 (report_poll_times_out (lib := reference_lib) bing 42
                         "CampaignPerformanceReportRequest" None None 25 s0
                         (JStr "job-1") s1 eq_refl))
           [ mkResponse 200 (Some (status_doc "Pending")) [];
             mkResponse 200 (Some (status_doc "Pending")) [] ]
           [ json_reply 200 (status_doc "Success") ]);
    vm_compute; reflexivity.
Defined.

(** The elapsed time is the difference of two doubles, rounded as Python
    rounds it.  Between the two readings less than 25 seconds have passed,
    but the difference computed is not below 25: with a budget of 25 seconds
    the first test fails and no poll is issued. *)
Example rounded_elapsed_time_spends_the_budget :
  let s0 := fresh slow_report_script close_readings in
  (Prim2SF (close_readings 0) = S754_finite false 5023881076694336 (-55)
   /\ Prim2SF (close_readings 1) = S754_finite false 7076123488678074 (-48)
   /\ 7076123488678074 * 2 ^ 7 - 5023881076694336 < 25 * 2 ^ 55)
  /\ float_lt_int (close_readings 1 - close_readings 0)%float 25 = false
  /\ exists s',
       Bing.get_performance_report (lib := reference_lib) bing 42
         "CampaignPerformanceReportRequest" None None 25 s0
       = (Raise (TimeoutError 25), s')
       /\ calls (trace s') = 2%nat /\ sleeps (trace s') = 0%nat
       /\ List.length (net s') = 3%nat.
Proof.
  vm_compute. split; [repeat split|]. split; [reflexivity|].
  eexists. split; [reflexivity|]. repeat split.
Qed.



(** C7 (counterexample): a token endpoint that grants an empty bearer is asked
    again by the next [get_access_token], which returns another value; and two
    calls of [refresh_access_token] issue two token-endpoint calls. *)
Lemma token_is_fetched_again :
  (let s := fresh [json_reply 200 (token_doc EmptyString); json_reply 200 (token_doc "tok")]
              (ticking 1) in
   let first := Bing.get_access_token bing s in
   let second := Bing.get_access_token bing (snd first) in
   fst first = Ok (JStr EmptyString) /\ fst second = Ok (JStr "tok")
   /\ token_calls (Bing.token_url bing) (trace (snd second)) = 2%nat)
  /\ (let s := fresh [json_reply 200 (token_doc "a"); json_reply 200 (token_doc "b")]
                 (ticking 1) in
      let first := Amazon.refresh_access_token amazon_na s in
      let second := Amazon.refresh_access_token amazon_na (snd first) in
      fst first = Ok (JStr "a") /\ fst second = Ok (JStr "b")
      /\ token_calls amazon_token_url (trace (snd second)) = 2%nat).
Proof. vm_compute. repeat split. Qed.

Lemma token_is_fetched_once_witness :
  let s := fresh account_session (ticking 1) in
  let s1 := snd (Bing.get_access_token bing s) in
  let run := Bing.extract_all (lib := reference_lib) bing false None None s in
  (access_token s1 = JStr "tok"
   /\ Bing.get_access_token bing s1 = (Ok (access_token s1), s1))
  /\ (token_calls (Bing.token_url bing) (trace (snd run))
      = S (token_calls (Bing.token_url bing) (trace s))
      /\ calls (trace (snd run)) = 4%nat
      /\ net (snd run) = []
      /\ Bing.campaigns (match fst run with Ok r => r | _ => empty_result end)
         = [JObj [("Id", JNum 1); ("AccountId", JNum 1001); ("CustomerId", JNum 77)]]).
Proof.
  intros s s1 run. split; [split; [reflexivity|] | split; [|vm_compute; auto]].
  - apply (proj1 (token_is_fetched_once (lib := reference_lib)) bing s1). reflexivity.
  - apply (proj1 (proj2 (token_is_fetched_once (lib := reference_lib)))
             bing false None None s (mkResponse 200 (Some (token_doc "tok")) [])
             (List.tl account_session));
      reflexivity.
Defined.

(** The run of the specification's example: a first Sponsored Brands answer
    without [nextToken] is the only call made, and its campaigns are the
    result. *)
Example single_token_page :
  let page := JObj [("campaigns", JArr forty)] in
  let run := fetch (lib := reference_lib) (SponsoredBrands None) amazon_na "7"
               (fresh [json_reply 200 page; json_reply 200 page] (ticking 1)) in
  fst run = Ok forty /\ calls (trace (snd run)) = 1%nat
  /\ net (snd run) = [json_reply 200 page].
Proof. vm_compute. repeat split. Qed.

Lemma failed_profile_listing_gives_empty_data_witness :
  exists e s',
    Amazon.fetch_all_data (lib := reference_lib) amazon_na
      (fresh [json_reply 200 (token_doc "tok"); json_reply 500 JNull] (ticking 1))
    = (Ok (Amazon.mkAllData (JArr []) [] []), s')
    /\ calls (trace s') = 2%nat
    /\ net s' = []
    /\ stderr s' = [LogError "Error fetching profiles" e].
Proof.
  apply (failed_profile_listing_gives_empty_data (lib := reference_lib) amazon_na
           (fresh [json_reply 200 (token_doc "tok"); json_reply 500 JNull] (ticking 1))
           (mkResponse 200 (Some (token_doc "tok")) []) [("access_token", JStr "tok")]
           [json_reply 500 JNull]);
    reflexivity.
Defined.

Lemma profile_without_id_aborts_witness :
  fst (Amazon.fetch_all_data (lib := reference_lib) amazon_na
         (fresh [ json_reply 200 (token_doc "tok");
                  json_reply 200 (JArr [sample_profile; JObj nameless_profile]) ]
                (ticking 1)))
  = Raise (KeyError "profileId").
Proof.
  apply (profile_without_id_aborts (lib := reference_lib) amazon_na
           (fresh [ json_reply 200 (token_doc "tok");
                    json_reply 200 (JArr [sample_profile; JObj nameless_profile]) ]
                  (ticking 1))
           (mkResponse 200 (Some (token_doc "tok")) []) [("access_token", JStr "tok")]
           (mkResponse 200 (Some (JArr [sample_profile; JObj nameless_profile])) [])
           [sample_profile] nameless_profile [] []);
    reflexivity.
Defined.

Lemma profiles_that_are_no_list_abort_witness :
  fst (Amazon.fetch_all_data (lib := reference_lib) amazon_na
         (fresh [ json_reply 200 (token_doc "tok");
                  json_reply 200 (JObj [("message", JStr "Unauthorized")]) ]
                (ticking 1)))
  = Raise TypeError.
Proof.
  apply (profiles_that_are_no_list_abort (lib := reference_lib) amazon_na
           (fresh [ json_reply 200 (token_doc "tok");
                    json_reply 200 (JObj [("message", JStr "Unauthorized")]) ]
                  (ticking 1))
           (mkResponse 200 (Some (token_doc "tok")) []) [("access_token", JStr "tok")]
           (mkResponse 200 (Some (JObj [("message", JStr "Unauthorized")])) [])
           (JObj [("message", JStr "Unauthorized")]) []);
    first [reflexivity | discriminate].
Defined.

Lemma fetch_all_data_is_well_shaped_witness :
  exists all_data s',
    Amazon.fetch_all_data (lib := reference_lib) amazon_na
      (fresh [ json_reply 200 (token_doc "tok"); json_reply 200 (JArr [sample_profile]);
               json_reply 200 (JArr forty) ] (ticking 1))
    = (Ok all_data, s')
    /\ map fst (Amazon.campaigns all_data) = ["7"]
    /\ map fst (Amazon.campaigns all_data) = map fst (Amazon.performance all_data)
    /\ Forall campaign_lists (Amazon.campaigns all_data)
    /\ Forall attribution_list (Amazon.performance all_data).
Proof.
  do 2 eexists. split; [vm_compute; reflexivity|]. split; [reflexivity|].
  eapply (fetch_all_data_is_well_shaped (lib := reference_lib) amazon_na
            (fresh [ json_reply 200 (token_doc "tok"); json_reply 200 (JArr [sample_profile]);
                     json_reply 200 (JArr forty) ] (ticking 1))).
  vm_compute. reflexivity.
Defined.

Lemma continuation_token_is_forwarded_witness :
  exists (headers : list (string * string)) (base : dict),
    lookup "nextToken" base = None
    /\ trace (snd (fetch (lib := reference_lib) (SponsoredBrands None) amazon_na "7"
                     (fresh [Answer first_token_page; Answer last_token_page] (ticking 1))))
       = ([] ++ map (fun p => Sent (mkRequest POST (endpoint amazon_na (SponsoredBrands None))
                                      headers (Json (JObj p))))
                    (payloads (SponsoredBrands None) base
                       ([first_token_page] ++ [last_token_page])))%list
    /\ (forall k r, nth_error [first_token_page] k = Some r ->
        exists p, nth_error (payloads (SponsoredBrands None) base
                               ([first_token_page] ++ [last_token_page])) (S k) = Some p
          /\ lookup "nextToken" p = Some (next_token (SponsoredBrands None) r)
          /\ forall key, key <> "nextToken" -> lookup key p = lookup key base).
Proof.
  apply (continuation_token_is_forwarded (lib := reference_lib) (SponsoredBrands None)
           amazon_na "7"
           (fresh [Answer first_token_page; Answer last_token_page] (ticking 1))
           [first_token_page] last_token_page []);
    reflexivity.
Defined.

Lemma get_users_normalises_witness :
  fst (Bing.get_users (lib := reference_lib) bing
         (signed_in [json_reply 200 (JObj [("User", sample_user)])] (ticking 1)))
  = Ok [sample_user].
Proof.
  apply (get_users_normalises (lib := reference_lib) bing
           (signed_in [json_reply 200 (JObj [("User", sample_user)])] (ticking 1))
           (mkResponse 200 (Some (JObj [("User", sample_user)])) [])
           [("User", sample_user)] []);
    reflexivity.
Defined.

Lemma accounts_are_not_normalised_witness :
  fst (Bing.extract_user (lib := reference_lib) bing true None None sample_user empty_result
         (signed_in [json_reply 200 (JObj [("Accounts", JNull)])] (ticking 1)))
  = Raise TypeError.
Proof.
  apply (proj2 (accounts_are_not_normalised (lib := reference_lib) bing true None None
                  sample_user empty_result
                  (signed_in [json_reply 200 (JObj [("Accounts", JNull)])] (ticking 1))
                  (JNum 5) 5 (mkResponse 200 (Some (JObj [("Accounts", JNull)])) [])
                  [("Accounts", JNull)] []
                  eq_refl eq_refl eq_refl eq_refl eq_refl eq_refl eq_refl) JNull);
    reflexivity.
Defined.

Lemma campaigns_are_tagged_witness :
  exists campaigns,
    fst (Bing.get_campaigns (lib := reference_lib) bing 1001 77
           (signed_in [json_reply 200
                         (JObj [("Campaigns",
                                 JArr [JObj [("Id", JNum 1); ("AccountId", JStr "old")]])])]
                      (ticking 1)))
    = Ok (JArr campaigns)
    /\ Forall2 (tagged 1001 77) [JObj [("Id", JNum 1); ("AccountId", JStr "old")]] campaigns.
Proof.
  apply (proj1 (campaigns_are_tagged (lib := reference_lib) bing 1001 77
                  (signed_in [json_reply 200
                                (JObj [("Campaigns",
                                        JArr [JObj [("Id", JNum 1);
                                                    ("AccountId", JStr "old")]])])]
                             (ticking 1))
                  (mkResponse 200
                     (Some (JObj [("Campaigns",
                                   JArr [JObj [("Id", JNum 1); ("AccountId", JStr "old")]])]))
                     [])
                  [("Campaigns", JArr [JObj [("Id", JNum 1); ("AccountId", JStr "old")]])]
                  [JObj [("Id", JNum 1); ("AccountId", JStr "old")]] []
                  eq_refl eq_refl eq_refl eq_refl eq_refl));
    reflexivity.
Defined.

Lemma malformed_date_stops_submission_witness :
  Bing.submit_performance_report (lib := reference_lib) bing 42
    "CampaignPerformanceReportRequest" (Some "yesterday") None "Daily"
    (signed_in [] (ticking 1))
  = (Raise ValueError, signed_in [] (ticking 1)).
Proof.
  apply (malformed_date_stops_submission (lib := reference_lib) bing 42
           "CampaignPerformanceReportRequest" (Some "yesterday") None "Daily"
           (signed_in [] (ticking 1)) "yesterday");
    [reflexivity | reflexivity | left; reflexivity].
Defined.

Lemma unknown_report_type_gets_campaign_columns_witness :
  let s := signed_in [json_reply 200 (JObj [("ReportRequestId", JStr "job-1")])] (ticking 1) in
  exists h fields,
    trace (snd (Bing.submit_performance_report (lib := reference_lib) bing 42
                  "KeywordPerformanceReportRequest" None (Some "2024-10-15") "Daily" s))
    = (trace s ++ [Sent (mkRequest POST
                           (Bing.reporting_base bing
                            ++ "/ReportingService.svc/SubmitGenerateReport") h
                           (Json (JObj [("ReportRequest", JObj fields)])))])%list
    /\ lookup "Type" fields = Some (JStr "KeywordPerformanceReportRequest")
    /\ lookup "Columns" fields
       = Some (JArr (map JStr [ "TimePeriod"; "AccountId"; "CampaignId"; "CampaignName";
                                "CampaignStatus"; "Impressions"; "Clicks"; "Spend";
                                "Conversions"; "Revenue"; "Ctr" ])).
Proof.
  intros s.
  apply (unknown_report_type_gets_campaign_columns (lib := reference_lib) bing 42
           "KeywordPerformanceReportRequest" None (Some "2024-10-15") "Daily" s
           (mkDate 2024 10 1) (mkDate 2024 10 15));
    first [reflexivity | discriminate].
Defined.

Lemma default_report_range_is_last_30_days_witness :
  let s := signed_in [json_reply 200 (JObj [("ReportRequestId", JStr "job-1")])] (ticking 1) in
  exists h fields time,
    trace (snd (Bing.submit_performance_report (lib := reference_lib) bing 42
                  "CampaignPerformanceReportRequest" None (Some EmptyString) "Daily" s))
    = (trace s ++ [Sent (mkRequest POST
                           (Bing.reporting_base bing
                            ++ "/ReportingService.svc/SubmitGenerateReport") h
                           (Json (JObj [("ReportRequest", JObj fields)])))])%list
    /\ lookup "Time" fields = Some (JObj time)
    /\ lookup "CustomDateRangeStart" time = Some (Bing.date_json (mkDate 2024 10 1))
    /\ lookup "CustomDateRangeEnd" time = Some (Bing.date_json (mkDate 2024 10 31))
    /\ lookup "ReportName" fields
       = Some (JStr "CampaignPerformanceReportRequest_20241031").
Proof.
  intros s.
  apply (default_report_range_is_last_30_days (lib := reference_lib) bing 42
           "CampaignPerformanceReportRequest" None (Some EmptyString) "Daily" s);
    vm_compute; reflexivity.
Defined.

Lemma report_is_downloaded_on_success_witness :
  let s0 := fresh (report_script (success_doc "https://download.example/r.csv")
                     [Answer (mkResponse 200 None (bytes_of "Clicks"))]) (ticking 10) in
  let poll := poll_request (lib := reference_lib) bing (JStr "tok") (JStr "job-1") in
  exists s2,
    Bing.get_performance_report (lib := reference_lib) bing 42
      "CampaignPerformanceReportRequest" None None 300 s0
    = Bing.download_report (lib := reference_lib) (JStr "https://download.example/r.csv") s2
    /\ net s2 = [Answer (mkResponse 200 None (bytes_of "Clicks"))]
    /\ trace s2 = (trace (submitted s0) ++ [Sent poll; Slept 10] ++ [Sent poll])%list
    /\ calls (trace s2) = (calls (trace (submitted s0)) + 1 + 1)%nat
    /\ sleeps (trace s2) = (sleeps (trace (submitted s0)) + 1)%nat.
Proof.
  intros s0 poll.
  apply (report_is_downloaded_on_success (lib := reference_lib) bing 42
           "CampaignPerformanceReportRequest" None None 300 s0 (JStr "job-1") (submitted s0)
           [mkResponse 200 (Some (status_doc "Pending")) []]
           (mkResponse 200 (Some (success_doc "https://download.example/r.csv")) [])
           [Answer (mkResponse 200 None (bytes_of "Clicks"))]);
    vm_compute; reflexivity.
Defined.

Lemma failed_report_raises_at_once_witness :
  let s0 := fresh (report_script (status_doc "Error") [json_reply 200 (status_doc "Success")])
              (ticking 10) in
  let poll := poll_request (lib := reference_lib) bing (JStr "tok") (JStr "job-1") in
  exists s2,
    Bing.get_performance_report (lib := reference_lib) bing 42
      "CampaignPerformanceReportRequest" None None 300 s0
    = (Raise (ReportGenerationFailed (status_doc "Error")), s2)
    /\ net s2 = [json_reply 200 (status_doc "Success")]
    /\ trace s2 = (trace (submitted s0) ++ [Sent poll; Slept 10] ++ [Sent poll])%list
    /\ calls (trace s2) = (calls (trace (submitted s0)) + 1 + 1)%nat
    /\ sleeps (trace s2) = (sleeps (trace (submitted s0)) + 1)%nat.
Proof.
  intros s0 poll.
  apply (failed_report_raises_at_once (lib := reference_lib) bing 42
           "CampaignPerformanceReportRequest" None None 300 s0 (JStr "job-1") (submitted s0)
           [mkResponse 200 (Some (status_doc "Pending")) []]
           (mkResponse 200 (Some (status_doc "Error")) []) (status_doc "Error")
           [json_reply 200 (status_doc "Success")]);
    vm_compute; reflexivity.
Defined.

Lemma success_without_url_raises_witness :
  let s0 := fresh (report_script (status_doc "Success")
                     [Answer (mkResponse 200 None (bytes_of "Clicks"))]) (ticking 10) in
  exists s2 logged,
    Bing.get_performance_report (lib := reference_lib) bing 42
      "CampaignPerformanceReportRequest" None None 300 s0
    = (Raise MissingSchema, s2)
    /\ net s2 = [Answer (mkResponse 200 None (bytes_of "Clicks"))]
    /\ calls (trace s2) = (calls (trace (submitted s0)) + 1 + 1)%nat
    /\ stderr s2 = (logged ++ [ LogInfo "Status: Success";
                                LogInfo ("Downloading report from: " ++ "None") ])%list.
Proof.
  intros s0.
  apply (success_without_url_raises (lib := reference_lib) bing 42
           "CampaignPerformanceReportRequest" None None 300 s0 (JStr "job-1") (submitted s0)
           [mkResponse 200 (Some (status_doc "Pending")) []]
           (mkResponse 200 (Some (status_doc "Success")) [])
           [Answer (mkResponse 200 None (bytes_of "Clicks"))]);
    first [vm_compute; reflexivity | intros u; vm_compute; discriminate].
Defined.

Lemma download_failures_are_not_rescued_witness :
  fst (Bing.download_report (lib := reference_lib) (JStr "https://download.example/r.csv")
         (fresh [Answer (mkResponse 200 None (stored_compress [xff]))] (ticking 1)))
  = Raise UnicodeDecodeError.
Proof.
  apply (proj1 (proj2 (proj2 (download_failures_are_not_rescued (lib := reference_lib)
                                "https://download.example/r.csv"
                                (fresh [Answer (mkResponse 200 None (stored_compress [xff]))]
                                       (ticking 1))
                                (mkResponse 200 None (stored_compress [xff])) [] eq_refl)))
           eq_refl [xff]);
    reflexivity.
Defined.

Lemma byte_order_mark_is_dropped_witness :
  let csv := (byte_order_mark ++ bytes_of "Clicks")%list in
  fst (Bing.download_report (lib := reference_lib) (JStr "https://download.example/r.csv")
         (set_net [Answer (mkResponse 200 None (byte_order_mark ++ csv))]
            (fresh [] (ticking 1))))
  = of_sum (plain_csv (65279%N :: map Byte.to_N (bytes_of "Clicks")))
  /\ fst (Bing.download_report (lib := reference_lib) (JStr "https://download.example/r.csv")
            (set_net [Answer (mkResponse 200 None csv)] (fresh [] (ticking 1))))
     = of_sum (plain_csv (map Byte.to_N (bytes_of "Clicks"))).
Proof.
  intros csv. split.
  - apply (proj1 (byte_order_mark_is_dropped (lib := reference_lib)
                    "https://download.example/r.csv" (fresh [] (ticking 1)) 200 None csv []
                    BadGzipFile eq_refl eq_refl)).
  - apply (proj1 (byte_order_mark_is_dropped (lib := reference_lib)
                    "https://download.example/r.csv" (fresh [] (ticking 1)) 200 None
                    (bytes_of "Clicks") [] BadGzipFile eq_refl eq_refl)).
Defined.

Lemma unreadable_user_id_aborts_witness :
  exists s',
    Bing.extract_user (lib := reference_lib) bing true None None symbolic_user empty_result
      (signed_in [] (ticking 1))
    = (Raise ValueError, s')
    /\ trace s' = [] /\ net s' = [].
Proof.
  apply (unreadable_user_id_aborts (lib := reference_lib) bing true None None symbolic_user
           empty_result (signed_in [] (ticking 1)) (JStr "abc") ValueError);
    reflexivity.
Defined.

Lemma unreadable_account_id_is_contained_witness :
  exists s',
    Bing.extract_account (lib := reference_lib) bing true None None symbolic_account
      empty_result (signed_in [] (ticking 1))
    = (Ok empty_result, s')
    /\ trace s' = [] /\ net s' = []
    /\ stderr s'
       = ([] ++ [ LogInfo (nl ++ "Fetching campaigns for account " ++ "A-1"
                           ++ " (" ++ "Shop" ++ ")...");
                  LogError ("Error fetching campaigns for account " ++ "A-1") ValueError;
                  LogInfo (nl ++ "Fetching performance report for account " ++ "A-1" ++ "...");
                  LogError ("Error fetching performance report for account " ++ "A-1")
                    ValueError ])%list.
Proof.
  apply (unreadable_account_id_is_contained (lib := reference_lib) bing None None
           symbolic_account empty_result (signed_in [] (ticking 1))
           (JStr "A-1") (JNum 77) (JStr "Shop") ValueError);
    reflexivity.
Defined.

Lemma reports_are_included_only_for_true_witness :
  let s := fresh (account_session ++ one_report) (ticking 1) in
  let run := Bing.main (lib := reference_lib) sample_traceback sample_env s in
  let run_TRUE := Bing.main (lib := reference_lib) sample_traceback
                    (("INCLUDE_PERFORMANCE_REPORTS", "TRUE") :: sample_env) s in
  match fst run with
  | Ok (Printed doc) => py_get doc "performance_reports" JNull = Ok (JArr [])
  | Ok (Exited code) => code = 1
  | _ => True
  end
  /\ (exists doc,
        fst run = Ok (Printed doc)
        /\ py_get doc "campaigns" JNull
           = Ok (JArr [JObj [("Id", JNum 1); ("AccountId", JNum 1001);
                             ("CustomerId", JNum 77)]]))
  /\ net (snd run) = one_report
  /\ (exists doc,
        fst run_TRUE = Ok (Printed doc)
        /\ py_get doc "performance_reports" JNull
           = Ok (JArr [JObj [ ("account_id", JNum 1001); ("account_name", JStr "Shop");
                              ("report_type", JStr "campaign_performance");
                              ("data", JArr [JObj [("Clicks", JStr "5")]]) ]]))
  /\ net (snd run_TRUE) = [].
Proof.
  intros s run run_TRUE. split.
  - apply (reports_are_included_only_for_true (lib := reference_lib) sample_traceback
             sample_env s "False");
      first [reflexivity | vm_compute; discriminate].
  - vm_compute. split; [eexists; split; reflexivity|].
    split; [reflexivity|]. split; [eexists; split; reflexivity | reflexivity].
Defined.

Lemma other_regions_use_north_america_witness :
  exists evs,
    trace (snd (Amazon.main (lib := reference_lib)
                  (("AMAZON_ADS_REGION", "MARS") :: sample_env)
                  (fresh [json_reply 200 (token_doc "tok"); json_reply 200 (JArr [])]
                         (ticking 1))))
    = ([] ++ evs)%list
    /\ Forall (event_ok (fun q => is_form (body q) = true /\ url q = amazon_token_url
                                  \/ is_form (body q) = false
                                     /\ String.prefix "https://advertising-api.amazon.com"
                                          (url q) = true)) evs.
Proof.
  apply (other_regions_use_north_america (lib := reference_lib)
           (("AMAZON_ADS_REGION", "MARS") :: sample_env)
           (fresh [json_reply 200 (token_doc "tok"); json_reply 200 (JArr [])] (ticking 1))).
  intros r H. injection H as <-. split; discriminate.
Defined.

Lemma users_without_id_are_skipped_witness :
  exists s',
    Bing.extract_all (lib := reference_lib) bing true None None
      (signed_in [json_reply 200 (JObj [("User", JArr [JObj [("Name", JStr "Ann")]])])]
                 (ticking 1))
    = (Ok (Bing.mkResult "2024-10-31T12:00:00" [JObj [("Name", JStr "Ann")]] [] [] []), s')
    /\ net s' = []
    /\ calls (trace s') = 1%nat
    /\ stderr s' = ([] ++ [LogInfo "Fetching users..."; LogInfo ("Found " ++ "1" ++ " user(s)")])%list.
Proof.
  apply (users_without_id_are_skipped (lib := reference_lib) bing true None None
           (signed_in [json_reply 200 (JObj [("User", JArr [JObj [("Name", JStr "Ann")]])])]
                      (ticking 1))
           (mkResponse 200 (Some (JObj [("User", JArr [JObj [("Name", JStr "Ann")]])])) [])
           [("User", JArr [JObj [("Name", JStr "Ann")]])] [JObj [("Name", JStr "Ann")]] []);
    reflexivity.
Defined.
